(** * SkillFactory: the deploy wizard and its documentation generator

    A shallow embedding of the Go package [tui] of SkillFactory: the
    wizard state machine ([Model.Update] and its handlers), the views
    ([renderConfirm]), and the build/deploy side ([generateEnvFile],
    [stripFrontmatter], [replacePlaceholders], [extractCommands] and the
    help-text parsers), with the properties the specification states
    about them.

    Go strings are byte sequences; they are modelled by [string] (a list
    of 8-bit characters).  Functions of Go's standard library that the
    package calls are written out under [Module strings] with the
    behaviour of the library on the arguments the package passes; white
    space is that of [unicode.IsSpace], found by the bytes of its UTF-8
    encoding. *)

From Stdlib Require Import String Ascii List Bool Arith Lia NArith ZArith.
From stdpp Require Import base option list strings gmap.

Local Open Scope string_scope.

(** ** Go's [strings] package, as far as the generator uses it *)

Module strings.

(** The line feed; a string literal has no escape for it. *)
Definition nl : string := String "010"%char "".

(** The double quote character. *)
Definition dq : string := String "034"%char "".

(** [strings.HasPrefix s prefix]. *)
Fixpoint HasPrefix (s prefix : string) : bool :=
  match prefix, s with
  | EmptyString, _ => true
  | String _ _, EmptyString => false
  | String p prefix', String c s' =>
      if Ascii.eqb c p then HasPrefix s' prefix' else false
  end.

(** [s[n:]], for [n <= len(s)]. *)
Fixpoint drop (n : nat) (s : string) : string :=
  match n, s with
  | O, _ => s
  | S _, EmptyString => EmptyString
  | S n', String _ s' => drop n' s'
  end.

(** [s[:n]], for [n <= len(s)]. *)
Fixpoint take (n : nat) (s : string) : string :=
  match n, s with
  | O, _ => EmptyString
  | S _, EmptyString => EmptyString
  | S n', String c s' => String c (take n' s')
  end.

(** [strings.HasSuffix s suffix]. *)
Definition HasSuffix (s suffix : string) : bool :=
  Nat.leb (String.length suffix) (String.length s)
  && String.eqb (drop (String.length s - String.length suffix) s) suffix.

(** [strings.TrimSuffix s suffix]. *)
Definition TrimSuffix (s suffix : string) : string :=
  if HasSuffix s suffix
  then take (String.length s - String.length suffix) s
  else s.

(** [strings.Index s substr]; Go's [-1] is [None]. *)
Fixpoint Index (s substr : string) : option nat :=
  if HasPrefix s substr then Some 0
  else match s with
       | EmptyString => None
       | String _ s' => option_map S (Index s' substr)
       end.

(** [strings.Contains s substr]. *)
Definition Contains (s substr : string) : bool :=
  match Index s substr with Some _ => true | None => false end.

(** Membership of a byte in a cutset of ASCII characters. *)
Fixpoint inCutset (c : ascii) (cutset : string) : bool :=
  match cutset with
  | EmptyString => false
  | String d cutset' => Ascii.eqb c d || inCutset c cutset'
  end.

(** [strings.TrimLeft s cutset], for an ASCII cutset. *)
Fixpoint TrimLeft (s cutset : string) : string :=
  match s with
  | EmptyString => EmptyString
  | String c s' => if inCutset c cutset then TrimLeft s' cutset else s
  end.

(** ** White space

    [strings.TrimSpace] and [strings.Fields] take white space as
    [unicode.IsSpace] defines it, on the runes of the UTF-8 decoding of
    the string: the six ASCII characters of the table [asciiSpace], and
    U+0085, U+00A0, U+1680, U+2000 to U+200A, U+2028, U+2029, U+202F,
    U+205F and U+3000.  The first byte of the encoding of a rune is
    never a continuation byte, so the decoder, which takes an invalid
    byte as a rune of width one, never steps over it: a white-space rune
    is at a place of the string exactly when the bytes of its encoding
    are. *)

(** Go's [asciiSpace]: tab, line feed, vertical tab, form feed, carriage
    return and space. *)
Definition asciiSpace (c : ascii) : bool :=
  let n := nat_of_ascii c in
  Nat.eqb n 9 || Nat.eqb n 10 || Nat.eqb n 11 || Nat.eqb n 12
  || Nat.eqb n 13 || Nat.eqb n 32.

(** The two-byte encodings of white space: U+0085 is [C2 85], U+00A0 is
    [C2 A0]. *)
Definition space2 (a b : ascii) : bool :=
  Nat.eqb (nat_of_ascii a) 194
  && (Nat.eqb (nat_of_ascii b) 133 || Nat.eqb (nat_of_ascii b) 160).

(** The three-byte encodings of white space: U+1680 is [E1 9A 80],
    U+2000 to U+200A are [E2 80 80] to [E2 80 8A], U+2028, U+2029 and
    U+202F are [E2 80 A8], [E2 80 A9] and [E2 80 AF], U+205F is
    [E2 81 9F], U+3000 is [E3 80 80]. *)
Definition space3 (a b c : ascii) : bool :=
  let x := nat_of_ascii a in
  let y := nat_of_ascii b in
  let z := nat_of_ascii c in
  (Nat.eqb x 225 && Nat.eqb y 154 && Nat.eqb z 128)
  || (Nat.eqb x 226 && Nat.eqb y 128
      && ((Nat.leb 128 z && Nat.leb z 138)
          || Nat.eqb z 168 || Nat.eqb z 169 || Nat.eqb z 175))
  || (Nat.eqb x 226 && Nat.eqb y 129 && Nat.eqb z 159)
  || (Nat.eqb x 227 && Nat.eqb y 128 && Nat.eqb z 128).

(** The width in bytes of the white-space rune [s] starts with; [0]
    when it starts with none. *)
Definition spaceWidth (s : string) : nat :=
  match s with
  | String a (String b (String c _)) =>
      if asciiSpace a then 1
      else if space2 a b then 2
      else if space3 a b c then 3
      else 0
  | String a (String b EmptyString) =>
      if asciiSpace a then 1 else if space2 a b then 2 else 0
  | String a EmptyString => if asciiSpace a then 1 else 0
  | EmptyString => 0
  end.

(** The same for the white-space rune [s] ends with, [r] being [s]
    reversed. *)
Definition spaceWidthRev (r : string) : nat :=
  match r with
  | String c (String b (String a _)) =>
      if asciiSpace c then 1
      else if space2 b c then 2
      else if space3 a b c then 3
      else 0
  | String c (String b EmptyString) =>
      if asciiSpace c then 1 else if space2 b c then 2 else 0
  | String c EmptyString => if asciiSpace c then 1 else 0
  | EmptyString => 0
  end.

(** What is left of [s] once the runes at its head that [width] finds
    are cut; [skip] counts the bytes of a rune still to be passed
    over. *)
Fixpoint trim_go (width : string -> nat) (skip : nat) (s : string) : string :=
  match s with
  | EmptyString => EmptyString
  | String _ s' =>
      match skip with
      | S k => trim_go width k s'
      | O =>
          match width s with
          | O => s
          | S k => trim_go width k s'
          end
      end
  end.

Definition trimSpaceLeft (s : string) : string := trim_go spaceWidth 0 s.

(** What is left of [s] once its trailing white space is cut. *)
Definition trimSpaceRight (s : string) : string :=
  String.rev (trim_go spaceWidthRev 0 (String.rev s)).

(** [strings.TrimSpace s]. *)
Definition TrimSpace (s : string) : string :=
  trimSpaceRight (trimSpaceLeft s).

(** [strings.Fields s]: the maximal runs of bytes between white-space
    runes.  [cur] is the field being read, if any, in reverse; [skip]
    counts the bytes of a white-space rune still to be passed over. *)
Fixpoint fields_go (skip : nat) (cur : option string) (s : string)
  : list string :=
  match s with
  | EmptyString => match cur with Some w => [String.rev w] | None => [] end
  | String c s' =>
      match skip with
      | S k => fields_go k cur s'
      | O =>
          match spaceWidth s with
          | S k =>
              match cur with
              | Some w => String.rev w :: fields_go k None s'
              | None => fields_go k None s'
              end
          | O => fields_go 0 (Some (String c (default EmptyString cur))) s'
          end
      end
  end.

Definition Fields (s : string) : list string := fields_go 0 None s.

(** [strings.Split s sep] for a non-empty [sep]: [skip] counts the bytes
    of a separator still to be passed over, [cur] is the piece being
    read, in reverse. *)
Fixpoint split_go (sep : string) (skip : nat) (cur : string) (s : string)
  : list string :=
  match s with
  | EmptyString => [String.rev cur]
  | String c s' =>
      match skip with
      | S k => split_go sep k cur s'
      | O =>
          if HasPrefix s sep
          then String.rev cur :: split_go sep (String.length sep - 1) EmptyString s'
          else split_go sep 0 (String c cur) s'
      end
  end.

Definition Split (s sep : string) : list string := split_go sep 0 EmptyString s.

(** [strings.Join elems sep]. *)
Fixpoint Join (elems : list string) (sep : string) : string :=
  match elems with
  | [] => EmptyString
  | [a] => a
  | a :: rest => a +:+ sep +:+ Join rest sep
  end.

(** [strings.Replace s old new n] for a non-empty [old]: the first [n]
    occurrences from the left, without overlap; [n = None] is Go's
    negative count, all of them. *)
Fixpoint replace_go (old new : string) (n : option nat) (skip : nat) (s : string)
  : string :=
  match s with
  | EmptyString => EmptyString
  | String c s' =>
      match skip with
      | S k => replace_go old new n k s'
      | O =>
          match n with
          | Some O => s
          | _ =>
              if HasPrefix s old
              then new +:+ replace_go old new (Nat.pred <$> n) (String.length old - 1) s'
              else String c (replace_go old new n 0 s')
          end
      end
  end.

Definition Replace (s old new : string) (n : option nat) : string :=
  replace_go old new n 0 s.

End strings.

(** ** Header stripping *)

(** [stripFrontmatter] of the generator. *)
Definition stripFrontmatter (content : string) : string :=
  if negb (strings.HasPrefix content "---") then content
  else
    let rest := strings.drop 3 content in
    match strings.Index rest "---" with
    | None => content
    | Some idx => strings.TrimLeft (strings.drop (idx + 3) rest) strings.nl
    end.

(** ** Parsing the help text of the built binary *)

(** [parseDescription]: the first non-blank line before a line that
    starts with [Usage:]. *)
Fixpoint parseDescription_lines (lines : list string) : string :=
  match lines with
  | [] => ""
  | line :: rest =>
      let trimmed := strings.TrimSpace line in
      if negb (String.eqb trimmed "") && negb (strings.HasPrefix trimmed "Usage:")
      then trimmed
      else if strings.HasPrefix trimmed "Usage:" then ""
      else parseDescription_lines rest
  end.

Definition parseDescription (helpOutput : string) : string :=
  parseDescription_lines (strings.Split helpOutput strings.nl).

(** [parseUsage]: the line after a [Usage:] line, without its first
    word.  A [Usage:] line whose next line has fewer than two words is
    passed over and the search goes on. *)
Fixpoint parseUsage_lines (lines : list string) : string :=
  match lines with
  | [] => ""
  | line :: rest =>
      if strings.HasPrefix (strings.TrimSpace line) "Usage:"
      then match rest with
           | next :: _ =>
               match strings.Fields (strings.TrimSpace next) with
               | _ :: (_ :: _) as tl => strings.Join tl " "
               | _ => parseUsage_lines rest
               end
           | [] => parseUsage_lines rest
           end
      else parseUsage_lines rest
  end.

Definition parseUsage (helpOutput : string) : string :=
  parseUsage_lines (strings.Split helpOutput strings.nl).

(** The three parts [formatFlag] collects from a flag line: the flag
    names ([flagPart]), the type token ([typePart], empty when the line
    has none) and the description words ([descParts]). *)
Record FlagParts := {
  flagPart : string;
  typePart : string;
  descParts : list string
}.

(** The first loop of [formatFlag]: the leading words that start with a
    dash or are a lone comma; returns the names gathered and the words
    left. *)
Fixpoint collectFlagNames (acc : string) (parts : list string)
  : string * list string :=
  match parts with
  | [] => (acc, [])
  | p :: rest =>
      if strings.HasPrefix p "-" || String.eqb p ","
      then
        let acc' :=
          if negb (String.eqb p ",")
          then (if negb (String.eqb acc "") then acc +:+ ", " else acc)
                 +:+ strings.TrimSuffix p ","
          else acc in
        collectFlagNames acc' rest
      else (acc, parts)
  end.

Definition commonTypes : list string :=
  ["string"; "int"; "int64"; "bool"; "float64"; "duration"; "stringArray"; "intSlice"].

Definition isCommonType (p : string) : bool :=
  existsb (String.eqb p) commonTypes.

(** [formatFlag] up to the point where it assembles its result; [None]
    is the early return on a line of fewer than two words. *)
Definition flagPartsOf (line : string) : option FlagParts :=
  let parts := strings.Fields line in
  if (length parts <? 2)%nat then None
  else
    let '(names, rest) := collectFlagNames "" parts in
    let '(ty, rest') :=
      match rest with
      | p :: tl => if isCommonType p then (p, tl) else ("", rest)
      | [] => ("", [])
      end in
    Some {| flagPart := names; typePart := ty; descParts := rest' |}.

(** The last lines of [formatFlag]. *)
Definition renderFlag (f : FlagParts) : string :=
  let result := "`" +:+ flagPart f +:+ "`" in
  let result :=
    if negb (String.eqb (typePart f) "")
    then result +:+ " (" +:+ typePart f +:+ ")" else result in
  if (0 <? length (descParts f))%nat
  then result +:+ ": " +:+ strings.Join (descParts f) " "
  else result.

Definition formatFlag (line : string) : string :=
  match flagPartsOf line with
  | None => ""
  | Some f => renderFlag f
  end.

(** [parseFlags]: the loop over the lines, [inFlagsSection] being its
    flag; a line ending in a colon inside the section ends the loop. *)
Fixpoint parseFlags_lines (inFlagsSection : bool) (lines : list string)
  : list string :=
  match lines with
  | [] => []
  | line :: rest =>
      let trimmed := strings.TrimSpace line in
      if strings.HasPrefix trimmed "Flags:" then parseFlags_lines true rest
      else if inFlagsSection then
        if String.eqb trimmed "" then parseFlags_lines inFlagsSection rest
        else if strings.HasSuffix trimmed ":" then []
        else if strings.HasPrefix trimmed "-" then
          let flag := formatFlag trimmed in
          if negb (String.eqb flag "") && negb (strings.Contains flag "--help")
          then flag :: parseFlags_lines inFlagsSection rest
          else parseFlags_lines inFlagsSection rest
        else parseFlags_lines inFlagsSection rest
      else parseFlags_lines inFlagsSection rest
  end.

Definition parseFlags (helpOutput : string) : list string :=
  parseFlags_lines false (strings.Split helpOutput strings.nl).

(** [parseSubcommands]: the first word of each line of the
    [Available Commands:] section, [help] and [completion] left out. *)
Fixpoint parseSubcommands_lines (inCommandsSection : bool) (lines : list string)
  : list string :=
  match lines with
  | [] => []
  | line :: rest =>
      let trimmed := strings.TrimSpace line in
      if strings.HasPrefix trimmed "Available Commands:"
      then parseSubcommands_lines true rest
      else if inCommandsSection then
        if String.eqb trimmed "" || strings.HasSuffix trimmed ":" then
          if strings.HasSuffix trimmed ":"
             && negb (strings.HasPrefix trimmed "Available")
          then []
          else parseSubcommands_lines inCommandsSection rest
        else
          match strings.Fields trimmed with
          | cmdName :: _ =>
              if negb (String.eqb cmdName "help")
                 && negb (String.eqb cmdName "completion")
              then cmdName :: parseSubcommands_lines inCommandsSection rest
              else parseSubcommands_lines inCommandsSection rest
          | [] => parseSubcommands_lines inCommandsSection rest
          end
      else parseSubcommands_lines inCommandsSection rest
  end.

Definition parseSubcommands (helpText : string) : list string :=
  parseSubcommands_lines false (strings.Split helpText strings.nl).

(** [formatCommand]: the Markdown of one leaf command. *)
Definition formatCommand (displayPath cmdPath helpOutput : string) : string :=
  let description := parseDescription helpOutput in
  let usage := parseUsage helpOutput in
  let flags := parseFlags helpOutput in
  "### " +:+ cmdPath +:+ strings.nl +:+ strings.nl
  +:+ (if negb (String.eqb description "")
       then description +:+ strings.nl +:+ strings.nl else "")
  +:+ (if negb (String.eqb usage "")
       then "**Usage:** `" +:+ displayPath +:+ " " +:+ usage +:+ "`"
            +:+ strings.nl +:+ strings.nl
       else "")
  +:+ (if (0 <? length flags)%nat
       then "**Flags:**" +:+ strings.nl
            +:+ foldr (fun flag acc => "- " +:+ flag +:+ strings.nl +:+ acc) "" flags
            +:+ strings.nl
       else "").

(** ** The manifest types of package [skill]

    The package that declares them is outside the sources at hand; the
    records carry the fields the wizard reads, with the field names it
    uses. *)

Module Var.
Record t := {
  Name : string;
  Label : string;
  Description : string;
  Required : bool;
  Placeholder : string;
  Default : string;
  Type_ : string
}.
End Var.

Module BuildConfig.
Record t := { Entry : string; Binary : string }.
End BuildConfig.

Module DocsConfig.
Record t := { Template : string; Output : string }.
End DocsConfig.

Module Manifest.
Record t := {
  Name : string;
  Description : string;
  Version : string;
  Path : string;
  Variables : list Var.t;
  Build : BuildConfig.t;
  Docs : DocsConfig.t
}.
End Manifest.

(** A skill that failed to load; [Error] is the text of its error. *)
Module SkillError.
Record t := { Name : string; Error : string }.
End SkillError.

(** ** The text input of the bubbles library

    A record of the fields the wizard sets and reads.  What the library
    does with a key press, how it clips a value set from outside and how
    it draws itself are parameters of the development (see [Section
    Tui]). *)

Module textinput.

Inductive EchoMode := EchoNormal | EchoPassword | EchoNone.

Record Model := {
  Placeholder : string;
  CharLimit : Z;
  Width : Z;
  Echo : EchoMode;
  value : string;
  focus : bool
}.

(** [textinput.New()]. *)
Definition New : Model :=
  {| Placeholder := ""; CharLimit := 0; Width := 0; Echo := EchoNormal;
     value := ""; focus := false |}.

Definition Value (t : Model) : string := value t.

Definition Focus (t : Model) : Model :=
  {| Placeholder := Placeholder t; CharLimit := CharLimit t; Width := Width t;
     Echo := Echo t; value := value t; focus := true |}.

Definition Blur (t : Model) : Model :=
  {| Placeholder := Placeholder t; CharLimit := CharLimit t; Width := Width t;
     Echo := Echo t; value := value t; focus := false |}.

Definition withValue (v : string) (t : Model) : Model :=
  {| Placeholder := Placeholder t; CharLimit := CharLimit t; Width := Width t;
     Echo := Echo t; value := v; focus := focus t |}.

End textinput.

(** ** The wizard state *)

Inductive View :=
| ViewSkillList | ViewConfig | ViewDeploy | ViewConfirm
| ViewOverwrite | ViewBuilding | ViewDone.

Global Instance View_eq_dec : EqDecision View.
Proof. solve_decision. Defined.

(** [Model] of package [tui].  [selectedSkill] and [selectedError] are
    pointers in the source, [None] being [nil]; the manifests are never
    written to, so the pointer is modelled by the manifest itself.
    [configValues] is a Go map, shared by every copy of the model; the
    event loop keeps one model at a time, and the map is modelled as a
    value of that model. *)
Record Model := {
  projectRoot : string;
  version : string;
  manifests : list Manifest.t;
  skillErrors : list SkillError.t;
  currentView : View;
  skillCursor : Z;
  selectedSkill : option Manifest.t;
  selectedError : option SkillError.t;
  configInputs : list textinput.Model;
  configLabels : list string;
  configFocus : Z;
  deployInputs : list textinput.Model;
  deployLabels : list string;
  deployFocus : Z;
  skillsFolder : string;
  skillFolderName : string;
  configValues : gmap string string;
  statusMsg : string;
  errorMsg : string;
  building : bool;
  buildOutput : string;
  width : Z;
  height : Z;
  quitting : bool
}.

(** Assignment to a field, [m.f = x]. *)
Definition set_currentView (x : View) (m : Model) : Model :=
  Build_Model (projectRoot m) (version m) (manifests m) (skillErrors m) x
    (skillCursor m) (selectedSkill m) (selectedError m) (configInputs m)
    (configLabels m) (configFocus m) (deployInputs m) (deployLabels m)
    (deployFocus m) (skillsFolder m) (skillFolderName m) (configValues m)
    (statusMsg m) (errorMsg m) (building m) (buildOutput m) (width m)
    (height m) (quitting m).

Definition set_skillCursor (x : Z) (m : Model) : Model :=
  Build_Model (projectRoot m) (version m) (manifests m) (skillErrors m)
    (currentView m) x (selectedSkill m) (selectedError m) (configInputs m)
    (configLabels m) (configFocus m) (deployInputs m) (deployLabels m)
    (deployFocus m) (skillsFolder m) (skillFolderName m) (configValues m)
    (statusMsg m) (errorMsg m) (building m) (buildOutput m) (width m)
    (height m) (quitting m).

Definition set_selectedSkill (x : option Manifest.t) (m : Model) : Model :=
  Build_Model (projectRoot m) (version m) (manifests m) (skillErrors m)
    (currentView m) (skillCursor m) x (selectedError m) (configInputs m)
    (configLabels m) (configFocus m) (deployInputs m) (deployLabels m)
    (deployFocus m) (skillsFolder m) (skillFolderName m) (configValues m)
    (statusMsg m) (errorMsg m) (building m) (buildOutput m) (width m)
    (height m) (quitting m).

Definition set_selectedError (x : option SkillError.t) (m : Model) : Model :=
  Build_Model (projectRoot m) (version m) (manifests m) (skillErrors m)
    (currentView m) (skillCursor m) (selectedSkill m) x (configInputs m)
    (configLabels m) (configFocus m) (deployInputs m) (deployLabels m)
    (deployFocus m) (skillsFolder m) (skillFolderName m) (configValues m)
    (statusMsg m) (errorMsg m) (building m) (buildOutput m) (width m)
    (height m) (quitting m).

Definition set_configInputs (x : list textinput.Model) (m : Model) : Model :=
  Build_Model (projectRoot m) (version m) (manifests m) (skillErrors m)
    (currentView m) (skillCursor m) (selectedSkill m) (selectedError m) x
    (configLabels m) (configFocus m) (deployInputs m) (deployLabels m)
    (deployFocus m) (skillsFolder m) (skillFolderName m) (configValues m)
    (statusMsg m) (errorMsg m) (building m) (buildOutput m) (width m)
    (height m) (quitting m).

Definition set_configLabels (x : list string) (m : Model) : Model :=
  Build_Model (projectRoot m) (version m) (manifests m) (skillErrors m)
    (currentView m) (skillCursor m) (selectedSkill m) (selectedError m)
    (configInputs m) x (configFocus m) (deployInputs m) (deployLabels m)
    (deployFocus m) (skillsFolder m) (skillFolderName m) (configValues m)
    (statusMsg m) (errorMsg m) (building m) (buildOutput m) (width m)
    (height m) (quitting m).

Definition set_configFocus (x : Z) (m : Model) : Model :=
  Build_Model (projectRoot m) (version m) (manifests m) (skillErrors m)
    (currentView m) (skillCursor m) (selectedSkill m) (selectedError m)
    (configInputs m) (configLabels m) x (deployInputs m) (deployLabels m)
    (deployFocus m) (skillsFolder m) (skillFolderName m) (configValues m)
    (statusMsg m) (errorMsg m) (building m) (buildOutput m) (width m)
    (height m) (quitting m).

Definition set_deployInputs (x : list textinput.Model) (m : Model) : Model :=
  Build_Model (projectRoot m) (version m) (manifests m) (skillErrors m)
    (currentView m) (skillCursor m) (selectedSkill m) (selectedError m)
    (configInputs m) (configLabels m) (configFocus m) x (deployLabels m)
    (deployFocus m) (skillsFolder m) (skillFolderName m) (configValues m)
    (statusMsg m) (errorMsg m) (building m) (buildOutput m) (width m)
    (height m) (quitting m).

Definition set_deployLabels (x : list string) (m : Model) : Model :=
  Build_Model (projectRoot m) (version m) (manifests m) (skillErrors m)
    (currentView m) (skillCursor m) (selectedSkill m) (selectedError m)
    (configInputs m) (configLabels m) (configFocus m) (deployInputs m) x
    (deployFocus m) (skillsFolder m) (skillFolderName m) (configValues m)
    (statusMsg m) (errorMsg m) (building m) (buildOutput m) (width m)
    (height m) (quitting m).

Definition set_deployFocus (x : Z) (m : Model) : Model :=
  Build_Model (projectRoot m) (version m) (manifests m) (skillErrors m)
    (currentView m) (skillCursor m) (selectedSkill m) (selectedError m)
    (configInputs m) (configLabels m) (configFocus m) (deployInputs m)
    (deployLabels m) x (skillsFolder m) (skillFolderName m) (configValues m)
    (statusMsg m) (errorMsg m) (building m) (buildOutput m) (width m)
    (height m) (quitting m).

Definition set_skillsFolder (x : string) (m : Model) : Model :=
  Build_Model (projectRoot m) (version m) (manifests m) (skillErrors m)
    (currentView m) (skillCursor m) (selectedSkill m) (selectedError m)
    (configInputs m) (configLabels m) (configFocus m) (deployInputs m)
    (deployLabels m) (deployFocus m) x (skillFolderName m) (configValues m)
    (statusMsg m) (errorMsg m) (building m) (buildOutput m) (width m)
    (height m) (quitting m).

Definition set_skillFolderName (x : string) (m : Model) : Model :=
  Build_Model (projectRoot m) (version m) (manifests m) (skillErrors m)
    (currentView m) (skillCursor m) (selectedSkill m) (selectedError m)
    (configInputs m) (configLabels m) (configFocus m) (deployInputs m)
    (deployLabels m) (deployFocus m) (skillsFolder m) x (configValues m)
    (statusMsg m) (errorMsg m) (building m) (buildOutput m) (width m)
    (height m) (quitting m).

Definition set_configValues (x : gmap string string) (m : Model) : Model :=
  Build_Model (projectRoot m) (version m) (manifests m) (skillErrors m)
    (currentView m) (skillCursor m) (selectedSkill m) (selectedError m)
    (configInputs m) (configLabels m) (configFocus m) (deployInputs m)
    (deployLabels m) (deployFocus m) (skillsFolder m) (skillFolderName m) x
    (statusMsg m) (errorMsg m) (building m) (buildOutput m) (width m)
    (height m) (quitting m).

Definition set_statusMsg (x : string) (m : Model) : Model :=
  Build_Model (projectRoot m) (version m) (manifests m) (skillErrors m)
    (currentView m) (skillCursor m) (selectedSkill m) (selectedError m)
    (configInputs m) (configLabels m) (configFocus m) (deployInputs m)
    (deployLabels m) (deployFocus m) (skillsFolder m) (skillFolderName m)
    (configValues m) x (errorMsg m) (building m) (buildOutput m) (width m)
    (height m) (quitting m).

Definition set_errorMsg (x : string) (m : Model) : Model :=
  Build_Model (projectRoot m) (version m) (manifests m) (skillErrors m)
    (currentView m) (skillCursor m) (selectedSkill m) (selectedError m)
    (configInputs m) (configLabels m) (configFocus m) (deployInputs m)
    (deployLabels m) (deployFocus m) (skillsFolder m) (skillFolderName m)
    (configValues m) (statusMsg m) x (building m) (buildOutput m) (width m)
    (height m) (quitting m).

Definition set_building (x : bool) (m : Model) : Model :=
  Build_Model (projectRoot m) (version m) (manifests m) (skillErrors m)
    (currentView m) (skillCursor m) (selectedSkill m) (selectedError m)
    (configInputs m) (configLabels m) (configFocus m) (deployInputs m)
    (deployLabels m) (deployFocus m) (skillsFolder m) (skillFolderName m)
    (configValues m) (statusMsg m) (errorMsg m) x (buildOutput m) (width m)
    (height m) (quitting m).

Definition set_buildOutput (x : string) (m : Model) : Model :=
  Build_Model (projectRoot m) (version m) (manifests m) (skillErrors m)
    (currentView m) (skillCursor m) (selectedSkill m) (selectedError m)
    (configInputs m) (configLabels m) (configFocus m) (deployInputs m)
    (deployLabels m) (deployFocus m) (skillsFolder m) (skillFolderName m)
    (configValues m) (statusMsg m) (errorMsg m) (building m) x (width m)
    (height m) (quitting m).

Definition set_width (x : Z) (m : Model) : Model :=
  Build_Model (projectRoot m) (version m) (manifests m) (skillErrors m)
    (currentView m) (skillCursor m) (selectedSkill m) (selectedError m)
    (configInputs m) (configLabels m) (configFocus m) (deployInputs m)
    (deployLabels m) (deployFocus m) (skillsFolder m) (skillFolderName m)
    (configValues m) (statusMsg m) (errorMsg m) (building m) (buildOutput m)
    x (height m) (quitting m).

Definition set_height (x : Z) (m : Model) : Model :=
  Build_Model (projectRoot m) (version m) (manifests m) (skillErrors m)
    (currentView m) (skillCursor m) (selectedSkill m) (selectedError m)
    (configInputs m) (configLabels m) (configFocus m) (deployInputs m)
    (deployLabels m) (deployFocus m) (skillsFolder m) (skillFolderName m)
    (configValues m) (statusMsg m) (errorMsg m) (building m) (buildOutput m)
    (width m) x (quitting m).

Definition set_quitting (x : bool) (m : Model) : Model :=
  Build_Model (projectRoot m) (version m) (manifests m) (skillErrors m)
    (currentView m) (skillCursor m) (selectedSkill m) (selectedError m)
    (configInputs m) (configLabels m) (configFocus m) (deployInputs m)
    (deployLabels m) (deployFocus m) (skillsFolder m) (skillFolderName m)
    (configValues m) (statusMsg m) (errorMsg m) (building m) (buildOutput m)
    (width m) (height m) x.

(** *** Shape of the states the wizard goes through *)

(** The views in which a skill is being configured, those in which the
    deploy inputs exist, and those in which the deploy target has been
    accepted. *)
Definition configuring (v : View) : bool :=
  match v with
  | ViewConfig | ViewDeploy | ViewConfirm | ViewOverwrite => true
  | _ => false
  end.

Definition targeting (v : View) : bool :=
  match v with
  | ViewDeploy | ViewConfirm | ViewOverwrite => true
  | _ => false
  end.

Definition targeted (v : View) : bool :=
  match v with
  | ViewConfirm | ViewOverwrite => true
  | _ => false
  end.

(** What holds of every state the wizard reaches (see
    [reachable_wellFormed]): the cursor and the focus are not negative,
    the focus is within the inputs when there are any, there is one
    input per variable of the selected skill, a skill is selected while
    one is being configured, there are two deploy inputs with the focus
    on one of them once they are set up, and in the confirm and
    overwrite views the saved deploy target is what the two deploy
    inputs hold, neither being empty. *)
Record wellFormed (m : Model) : Prop := {
  wf_cursor : (0 <= skillCursor m)%Z;
  wf_focus :
    (0 <= configFocus m)%Z
    /\ (configFocus m = 0%Z
        \/ (configFocus m < Z.of_nat (length (configInputs m)))%Z);
  wf_inputs :
    forall s, selectedSkill m = Some s ->
              length (configInputs m) = length (Manifest.Variables s);
  wf_selected :
    configuring (currentView m) = true -> is_Some (selectedSkill m);
  wf_deploy :
    targeting (currentView m) = true ->
    length (deployInputs m) = 2 /\ (0 <= deployFocus m < 2)%Z;
  wf_target :
    targeted (currentView m) = true ->
    textinput.Value <$> deployInputs m = [skillsFolder m; skillFolderName m]
    /\ skillsFolder m <> "" /\ skillFolderName m <> ""
}.

(** The specification's words for the validation of the variable
    inputs: the first required variable whose input is empty. *)
Fixpoint spec_firstMissing (vars : list Var.t) (inputs : list textinput.Model)
  : option Var.t :=
  match vars, inputs with
  | v :: vars', input :: inputs' =>
      if Var.Required v && String.eqb (textinput.Value input) ""
      then Some v
      else spec_firstMissing vars' inputs'
  | _, _ => None
  end.

(** The configuration map with the value of each input stored under the
    name of its variable, in the order of the manifest. *)
Fixpoint spec_persist (vars : list Var.t) (inputs : list textinput.Model)
    (cv : gmap string string) : gmap string string :=
  match vars, inputs with
  | v :: vars', input :: inputs' =>
      spec_persist vars' inputs' (<[Var.Name v := textinput.Value input]> cv)
  | _, _ => cv
  end.

(** ** Messages and commands of the event loop *)

(** The messages [Update] tells apart.  A key message is identified by
    its [String()]; an [error] is carried as the text of [Error()],
    [None] being [nil]. *)
Inductive Msg :=
| KeyMsg (key : string)
| WindowSizeMsg (Width Height : Z)
| buildCompleteMsg (output : string) (err : option string)
| deployCompleteMsg (err : option string)
| OtherMsg (tag : string).

(** The commands [Update] hands back.  The two closures over the model,
    [m.startBuild()] and [m.deploySkill()], are kept as the model they
    captured; [InputCmd t msg] is the command the text input [t] returns
    for [msg]. *)
#[warnings="-register-all"]
Inductive Cmd :=
| CmdNil
| Quit
| Blink
| Batch (cmds : list Cmd)
| InputCmd (t : textinput.Model) (msg : Msg)
| startBuildCmd (m : Model)
| deploySkillCmd (m : Model).

(** ** File-system effects of a deploy

    The deploy task is a sequence of calls to package [os]; it is kept
    as the tree of those calls, each with the continuation that receives
    the answer.  [Err e] is a non-nil error of text [e]. *)

Module os.

Inductive result (A : Type) := Ok (a : A) | Err (e : string).
Arguments Ok {A} a.
Arguments Err {A} e.

Inductive Proc (A : Type) : Type :=
| Ret (a : A)
| MkdirAll (path : string) (perm : N) (k : Proc A)
| ReadFile (path : string) (k : result string -> Proc A)
| Remove (path : string) (k : Proc A)
| WriteFile (path data : string) (perm : N) (k : option string -> Proc A)
| RemoveAll (path : string) (k : Proc A).
Arguments Ret {A} a.
Arguments MkdirAll {A} path perm k.
Arguments ReadFile {A} path k.
Arguments Remove {A} path k.
Arguments WriteFile {A} path data perm k.
Arguments RemoveAll {A} path k.

Fixpoint bind {A B : Type} (p : Proc A) (f : A -> Proc B) : Proc B :=
  match p with
  | Ret a => f a
  | MkdirAll path perm k => MkdirAll path perm (bind k f)
  | ReadFile path k => ReadFile path (fun r => bind (k r) f)
  | Remove path k => Remove path (bind k f)
  | WriteFile path data perm k => WriteFile path data perm (fun r => bind (k r) f)
  | RemoveAll path k => RemoveAll path (bind k f)
  end.

(** One call as it happened, with the answer it got. *)
Inductive Event :=
| EvMkdirAll (path : string) (perm : N)
| EvReadFile (path : string) (r : result string)
| EvRemove (path : string)
| EvWriteFile (path data : string) (perm : N) (r : option string)
| EvRemoveAll (path : string).

(** An operating system: a state and what each call does to it. *)
Record World := {
  state : Type;
  readFile : string -> state -> result string;
  writeFile : string -> string -> N -> state -> option string * state;
  mkdirAll : string -> N -> state -> state;
  remove : string -> state -> state;
  removeAll : string -> state -> state
}.

(** Running a task in a world: its value, the state it leaves and the
    calls it made. *)
Fixpoint run {A : Type} (w : World) (p : Proc A) (s : state w)
  : A * state w * list Event :=
  match p with
  | Ret a => (a, s, [])
  | MkdirAll path perm k =>
      let '(a, s', tr) := run w k (mkdirAll w path perm s) in
      (a, s', EvMkdirAll path perm :: tr)
  | ReadFile path k =>
      let r := readFile w path s in
      let '(a, s', tr) := run w (k r) s in
      (a, s', EvReadFile path r :: tr)
  | Remove path k =>
      let '(a, s', tr) := run w k (remove w path s) in
      (a, s', EvRemove path :: tr)
  | WriteFile path data perm k =>
      let '(r, s1) := writeFile w path data perm s in
      let '(a, s', tr) := run w (k r) s1 in
      (a, s', EvWriteFile path data perm r :: tr)
  | RemoveAll path k =>
      let '(a, s', tr) := run w k (removeAll w path s) in
      (a, s', EvRemoveAll path :: tr)
  end.

(** The files a run wrote: path, contents and permission bits of each
    [WriteFile] call, in order. *)
Definition writes (tr : list Event) : list (string * string * N) :=
  omap (fun e => match e with
                 | EvWriteFile path data perm _ => Some (path, data, perm)
                 | _ => None
                 end) tr.

(** A world of files held in memory: a map from paths to contents and
    permission bits.  Writing keeps the permission bits of a file that
    exists, as [os.WriteFile] does; paths in [denied] cannot be
    written. *)
Definition memWorld (denied : list string) : World := {|
  state := gmap string (string * N);
  readFile path s :=
    match s !! path with
    | Some (data, _) => Ok data
    | None => Err ("open " +:+ path +:+ ": no such file or directory")
    end;
  writeFile path data perm s :=
    if existsb (String.eqb path) denied
    then (Some ("open " +:+ path +:+ ": permission denied"), s)
    else (None, <[path := (data, match s !! path with
                                 | Some (_, p) => p
                                 | None => perm
                                 end)]> s);
  mkdirAll _ _ s := s;
  remove path s := delete path s;
  removeAll path s :=
    filter (fun kv => negb (strings.HasPrefix (fst kv) path)) s
|}.

End os.

Section Tui.

(** [filepath.Join] of Go's standard library. *)
Variable filepath_Join : list string -> string.

(** What [exec.Command(binaryPath, args...).CombinedOutput()] answers for
    the built binary: its output, or [None] for a non-nil error.  The
    binary is taken to answer the same arguments the same way during one
    deploy. *)
Variable exec_CombinedOutput : string -> list string -> option string.

(** [Manifest.GetSkillDescription], declared in package [skill]. *)
Variable GetSkillDescription : Manifest.t -> string.

(** ** Deploy path and binary name *)

Definition getDeployPath (m : Model) : string :=
  filepath_Join [skillsFolder m; skillFolderName m].

(** The binary name, as [startBuild], [deploySkill], [skillExists] and
    [replacePlaceholders] each compute it: the manifest's build binary,
    or the manifest's name when that is empty. *)
Definition binaryNameOf (s : Manifest.t) : string :=
  if String.eqb (BuildConfig.Binary (Manifest.Build s)) ""
  then Manifest.Name s
  else BuildConfig.Binary (Manifest.Build s).

(** ** The environment file *)

(** The loop of [generateEnvFile]: one [NAME=value] line for each
    variable whose name is in the map with a non-empty value. *)
Fixpoint envLines (cv : gmap string string) (vars : list Var.t) : string :=
  match vars with
  | [] => ""
  | v :: rest =>
      match cv !! Var.Name v with
      | Some value =>
          if negb (String.eqb value "")
          then Var.Name v +:+ "=" +:+ value +:+ strings.nl +:+ envLines cv rest
          else envLines cv rest
      | None => envLines cv rest
      end
  end.

(** The specification's words for the same: a variable is configured
    when the map has a non-empty value for its name, and its line is
    [NAME=value]. *)
Definition spec_configured (cv : gmap string string) (v : Var.t) : bool :=
  negb (String.eqb (default "" (cv !! Var.Name v)) "").

Definition spec_envLine (cv : gmap string string) (v : Var.t) : string :=
  Var.Name v +:+ "=" +:+ default "" (cv !! Var.Name v) +:+ strings.nl.

Definition spec_envFile (cv : gmap string string) (vars : list Var.t) : string :=
  foldr (fun v acc => spec_envLine cv v +:+ acc) ""
        (filter (fun v => spec_configured cv v = true) vars).

(** [generateEnvFile]; [s] is the selected skill, which the caller has
    checked to be non-nil. *)
Definition generateEnvFile (m : Model) (s : Manifest.t) : string :=
  "# Auto-generated environment file" +:+ strings.nl
  +:+ envLines (configValues m) (Manifest.Variables s).

(** ** The documentation file *)

Definition generateFrontmatter (s : Manifest.t) : string :=
  "---" +:+ strings.nl
  +:+ "name: " +:+ Manifest.Name s +:+ strings.nl
  +:+ "description: " +:+ GetSkillDescription s +:+ strings.nl
  +:+ "---" +:+ strings.nl +:+ strings.nl.

Definition generateBasicDocs (s : Manifest.t) : string :=
  "# " +:+ Manifest.Name s +:+ strings.nl +:+ strings.nl
  +:+ Manifest.Description s
  +:+ strings.nl +:+ strings.nl
  +:+ "## Commands" +:+ strings.nl +:+ strings.nl
  +:+ "Run `" +:+ BuildConfig.Binary (Manifest.Build s)
  +:+ " --help` to see available commands." +:+ strings.nl.

Definition generateProjectIDsTable (jsonStr : string) : string :=
  "| ID | Projekt |" +:+ strings.nl
  +:+ "|----|---------|"
  +:+ strings.nl +:+ strings.nl +:+ "Config: `"
  +:+ jsonStr
  +:+ "`".

(** [runHelp]: the binary run with [--help] after the given words. *)
Definition runHelp (binaryPath : string) (args : list string) : option string :=
  exec_CombinedOutput binaryPath (args ++ ["--help"]).

(** What a [strings.Builder] holds after writing [f x] for each [x]. *)
Definition writeEach {A : Type} (f : A -> string) (l : list A) : string :=
  foldr (fun x acc => f x +:+ acc) "" l.

(** The generic instruction [extractCommands] falls back to. *)
Definition helpFallback (displayPath : string) : string :=
  "Run `" +:+ displayPath +:+ " --help` to see available commands.".

(** The inner loop body of [extractCommands]: a third-level command. *)
Definition subCommandDoc (binaryPath displayPath cmd sub : string) : string :=
  match runHelp binaryPath [cmd; sub] with
  | None => ""
  | Some subOutput => formatCommand displayPath (cmd +:+ " " +:+ sub) subOutput
  end.

(** The outer loop body of [extractCommands]: what one top-level command
    adds to the builder. *)
Definition commandDoc (binaryPath displayPath cmd : string) : string :=
  match runHelp binaryPath [cmd] with
  | None => ""
  | Some cmdOutput =>
      let secondLevel := parseSubcommands cmdOutput in
      if (length secondLevel =? 0)%nat
      then formatCommand displayPath cmd cmdOutput
      else writeEach (subCommandDoc binaryPath displayPath cmd) secondLevel
  end.

Definition extractCommands (binaryPath displayPath : string) : string :=
  match runHelp binaryPath [] with
  | None => helpFallback displayPath
  | Some output =>
      let topLevel := parseSubcommands output in
      if (length topLevel =? 0)%nat then helpFallback displayPath
      else
        let b := writeEach (commandDoc binaryPath displayPath) topLevel in
        if (String.length b =? 0)%nat then helpFallback displayPath else b
  end.

(** [replacePlaceholders]; [s] is the selected skill. *)
Definition replacePlaceholders (m : Model) (s : Manifest.t) (content : string)
  : string :=
  let binaryName := binaryNameOf s in
  let content :=
    strings.Replace content "{{SKILL_PATH}}" (getDeployPath m) None in
  let content :=
    match configValues m !! "PROJECT_IDS" with
    | Some projectIDs =>
        if negb (String.eqb projectIDs "")
        then strings.Replace content "{{PROJECT_IDS_TABLE}}"
               (generateProjectIDsTable projectIDs) (Some 1)
        else strings.Replace content "{{PROJECT_IDS_TABLE}}"
               "No project IDs configured." (Some 1)
    | None =>
        strings.Replace content "{{PROJECT_IDS_TABLE}}"
          "No project IDs configured." (Some 1)
    end in
  let distDir := filepath_Join [projectRoot m; "dist"] in
  let binaryPath := filepath_Join [distDir; binaryName] in
  let deployedBinaryPath := filepath_Join [getDeployPath m; "bin"; binaryName] in
  let commands := extractCommands binaryPath deployedBinaryPath in
  strings.Replace content "{{COMMANDS}}" commands (Some 1).

(** The text [generateSkillDocs] writes, given what reading the template
    file answered. *)
Definition renderSkillDocs (m : Model) (s : Manifest.t)
    (templateData : os.result string) : string :=
  let content :=
    match templateData with
    | os.Err _ => generateBasicDocs s
    | os.Ok data => replacePlaceholders m s (stripFrontmatter data)
    end in
  generateFrontmatter s +:+ content.

(** [templatePath] and [outputPath] of [generateSkillDocs]. *)
Definition templatePathOf (s : Manifest.t) : string :=
  filepath_Join [Manifest.Path s; DocsConfig.Template (Manifest.Docs s)].

Definition outputPathOf (m : Model) : string :=
  filepath_Join [getDeployPath m; "SKILL.md"].

(** [generateSkillDocs]; the value is the error it returns. *)
Definition generateSkillDocs (m : Model) : os.Proc (option string) :=
  match selectedSkill m with
  | None => os.Ret (Some "no skill selected")
  | Some s =>
      os.ReadFile (templatePathOf s) (fun templateData =>
        let content := renderSkillDocs m s templateData in
        os.WriteFile (outputPathOf m) content 420 (fun err => os.Ret err))
  end.

(** [deploySkill]: the task behind the command, its value being the
    [deployCompleteMsg] it sends.  Octal 0755 is 493, 0600 is 384, 0644
    is 420. *)
Definition deploySkill (m : Model) : os.Proc Msg :=
  match selectedSkill m with
  | None => os.Ret (deployCompleteMsg (Some "no skill selected"))
  | Some s =>
      let deployPath := getDeployPath m in
      if String.eqb deployPath ""
      then os.Ret (deployCompleteMsg (Some "deploy path not configured"))
      else
        let binaryName := binaryNameOf s in
        let distDir := filepath_Join [projectRoot m; "dist"] in
        let srcBinary := filepath_Join [distDir; binaryName] in
        let dstBinDir := filepath_Join [deployPath; "bin"] in
        let dstBinary := filepath_Join [dstBinDir; binaryName] in
        os.MkdirAll dstBinDir 493 (
        os.ReadFile srcBinary (fun r =>
          match r with
          | os.Err e =>
              os.Ret (deployCompleteMsg (Some ("failed to read binary: " +:+ e)))
          | os.Ok binaryData =>
              os.Remove dstBinary (
              os.WriteFile dstBinary binaryData 493 (fun err =>
                match err with
                | Some e =>
                    os.Ret (deployCompleteMsg
                              (Some ("failed to write binary: " +:+ e)))
                | None =>
                    let envPath := filepath_Join [dstBinDir; ".env"] in
                    let envContent := generateEnvFile m s in
                    os.WriteFile envPath envContent 384 (fun err =>
                      match err with
                      | Some e =>
                          os.Ret (deployCompleteMsg
                                    (Some ("failed to write .env: " +:+ e)))
                      | None =>
                          os.bind (generateSkillDocs m) (fun err =>
                            match err with
                            | Some e =>
                                os.Ret (deployCompleteMsg
                                          (Some ("failed to generate docs: " +:+ e)))
                            | None =>
                                os.RemoveAll distDir
                                  (os.Ret (deployCompleteMsg None))
                            end)
                      end)
                end))
          end))
  end.

(** ** The wizard *)

(** How the text input clips a value set with [SetValue], given its
    [CharLimit], and what it does with a message in [Update]. *)
Variable textinput_clip : Z -> string -> string.
Variable textinput_Update : textinput.Model -> Msg -> textinput.Model.

Definition SetValue (s : string) (t : textinput.Model) : textinput.Model :=
  textinput.withValue (textinput_clip (textinput.CharLimit t) s) t.

(** [l[i]] for a Go [int] index; [None] is the run-time panic for an
    index out of range. *)
Definition index {A : Type} (l : list A) (i : Z) : option A :=
  if (0 <=? i)%Z && (i <? Z.of_nat (length l))%Z
  then l !! Z.to_nat i else None.

(** [l[i].f()] for a method [f] with a pointer receiver. *)
Definition modifyAt {A : Type} (f : A -> A) (l : list A) (i : Z)
  : option (list A) :=
  x ← index l i; Some (<[Z.to_nat i := f x]> l).

(** [for i := range l { l[i].Blur() }; if len(l) > 0 { l[0].Focus() }]. *)
Definition focusFirst (l : list textinput.Model) : list textinput.Model :=
  match textinput.Blur <$> l with
  | [] => []
  | t :: rest => textinput.Focus t :: rest
  end.

Definition keyIn (key : string) (keys : list string) : bool :=
  existsb (String.eqb key) keys.

(** [NewModel]; [discovered] is what [skill.DiscoverSkills] returned. *)
Definition NewModel (projectRoot version : string)
    (discovered : list Manifest.t * list SkillError.t * option string) : Model :=
  let '(manifests, skillErrors, err) := discovered in
  let '(manifests, skillErrors) :=
    match err with
    | Some _ => ([], [])
    | None => (manifests, skillErrors)
    end in
  {| projectRoot := projectRoot; version := version;
     manifests := manifests; skillErrors := skillErrors;
     currentView := ViewSkillList; skillCursor := 0;
     selectedSkill := None; selectedError := None;
     configInputs := []; configLabels := []; configFocus := 0;
     deployInputs := []; deployLabels := []; deployFocus := 0;
     skillsFolder := ""; skillFolderName := "";
     configValues := ∅;
     statusMsg := ""; errorMsg := "";
     building := false; buildOutput := "";
     width := 0; height := 0; quitting := false |}.

(** The input [setupInputsFromManifest] creates for one variable. *)
Definition inputForVariable (cv : gmap string string) (v : Var.t)
  : textinput.Model :=
  let placeholder :=
    if String.eqb (Var.Placeholder v) "" && negb (String.eqb (Var.Default v) "")
    then Var.Default v else Var.Placeholder v in
  let input :=
    {| textinput.Placeholder := placeholder;
       textinput.CharLimit := 200;
       textinput.Width := 50;
       textinput.Echo :=
         if String.eqb (Var.Type_ v) "secret"
         then textinput.EchoPassword else textinput.EchoNormal;
       textinput.value := "";
       textinput.focus := false |} in
  match cv !! Var.Name v with
  | Some val => SetValue val input
  | None => input
  end.

Definition setupInputsFromManifest (m : Model) : Model :=
  match selectedSkill m with
  | None => m
  | Some s =>
      let m :=
        set_configInputs
          (inputForVariable (configValues m) <$> Manifest.Variables s) m in
      let m := set_configLabels (Var.Label <$> Manifest.Variables s) m in
      let m := set_configFocus 0 m in
      set_configInputs (focusFirst (configInputs m)) m
  end.

Definition setupDeployInputs (m : Model) : Model :=
  let skillsFolderInput :=
    {| textinput.Placeholder := "/path/to/.claude/skills/";
       textinput.CharLimit := 200;
       textinput.Width := 50;
       textinput.Echo := textinput.EchoNormal;
       textinput.value := "";
       textinput.focus := false |} in
  let skillsFolderInput :=
    if negb (String.eqb (skillsFolder m) "")
    then SetValue (skillsFolder m) skillsFolderInput
    else skillsFolderInput in
  let skillNameInput :=
    {| textinput.Placeholder :=
         match selectedSkill m with
         | Some s => Manifest.Name s
         | None => ""
         end;
       textinput.CharLimit := 100;
       textinput.Width := 50;
       textinput.Echo := textinput.EchoNormal;
       textinput.value := "";
       textinput.focus := false |} in
  let skillNameInput :=
    if negb (String.eqb (skillFolderName m) "")
    then SetValue (skillFolderName m) skillNameInput
    else match selectedSkill m with
         | Some s => SetValue (Manifest.Name s) skillNameInput
         | None => skillNameInput
         end in
  let m := set_deployInputs [skillsFolderInput; skillNameInput] m in
  let m := set_deployLabels ["Skills Folder"; "Skill Name"] m in
  let m := set_deployFocus 0 m in
  set_deployInputs (focusFirst (deployInputs m)) m.

(** The loop of [validateConfigInputs] from variable number [i] on:
    [None] is the panic of [m.configInputs[i]] out of range, [Some (Some
    e)] the error message of the first required variable left empty,
    [Some None] a pass.  The input is only looked at for a required
    variable. *)
Fixpoint validateLoop (inputs : list textinput.Model) (i : nat)
    (vars : list Var.t) : option (option string) :=
  match vars with
  | [] => Some None
  | v :: rest =>
      if Var.Required v
      then
        input ← inputs !! i;
        if String.eqb (textinput.Value input) ""
        then Some (Some (Var.Label v +:+ " is required"))
        else validateLoop inputs (S i) rest
      else validateLoop inputs (S i) rest
  end.

(** [validateConfigInputs]: the model with its error message set, and
    the result. *)
Definition validateConfigInputs (m : Model) : option (Model * bool) :=
  match selectedSkill m with
  | None => Some (set_errorMsg "No skill selected" m, false)
  | Some s =>
      r ← validateLoop (configInputs m) 0 (Manifest.Variables s);
      match r with
      | Some e => Some (set_errorMsg e m, false)
      | None => Some (set_errorMsg "" m, true)
      end
  end.

Definition validateDeployInputs (m : Model) : option (Model * bool) :=
  skillsFolderInput ← index (deployInputs m) 0;
  if String.eqb (textinput.Value skillsFolderInput) ""
  then Some (set_errorMsg "Skills Folder is required" m, false)
  else
    skillNameInput ← index (deployInputs m) 1;
    if String.eqb (textinput.Value skillNameInput) ""
    then Some (set_errorMsg "Skill Name is required" m, false)
    else Some (set_errorMsg "" m, true).

(** The loop of [saveConfigInputs] from variable number [i] on. *)
Fixpoint saveLoop (inputs : list textinput.Model) (i : nat)
    (vars : list Var.t) (cv : gmap string string)
  : option (gmap string string) :=
  match vars with
  | [] => Some cv
  | v :: rest =>
      input ← inputs !! i;
      saveLoop inputs (S i) rest (<[Var.Name v := textinput.Value input]> cv)
  end.

Definition saveConfigInputs (m : Model) : option Model :=
  match selectedSkill m with
  | None => Some m
  | Some s =>
      cv ← saveLoop (configInputs m) 0 (Manifest.Variables s) (configValues m);
      Some (set_configValues cv m)
  end.

Definition saveDeployInputs (m : Model) : option Model :=
  a ← index (deployInputs m) 0;
  b ← index (deployInputs m) 1;
  Some (set_skillFolderName (textinput.Value b)
          (set_skillsFolder (textinput.Value a) m)).

Definition updateConfigInputs (m : Model) (msg : Msg) : Model * Cmd :=
  (set_configInputs ((fun t => textinput_Update t msg) <$> configInputs m) m,
   Batch ((fun t => InputCmd t msg) <$> configInputs m)).

Definition updateDeployInputs (m : Model) (msg : Msg) : Model * Cmd :=
  (set_deployInputs ((fun t => textinput_Update t msg) <$> deployInputs m) m,
   Batch ((fun t => InputCmd t msg) <$> deployInputs m)).

(** [skillExists]; [stat path] tells whether [os.Stat path] returns a nil
    error.  [None] is the nil dereference of [m.selectedSkill]. *)
Definition skillExists (stat : string -> bool) (m : Model) : option bool :=
  let deployPath := getDeployPath m in
  if String.eqb deployPath "" then Some false
  else
    s ← selectedSkill m;
    let binaryName := binaryNameOf s in
    let binaryPath := filepath_Join [deployPath; "bin"; binaryName] in
    Some (stat binaryPath).

Definition handleSkillListView (m : Model) (key : string)
  : option (Model * Cmd) :=
  let totalItems := (Z.of_nat (length (manifests m))
                     + Z.of_nat (length (skillErrors m)))%Z in
  if keyIn key ["q"; "esc"] then Some (set_quitting true m, Quit)
  else if keyIn key ["up"; "k"] then
    if (0 <? skillCursor m)%Z
    then Some (set_skillCursor (skillCursor m - 1) m, CmdNil)
    else Some (m, CmdNil)
  else if keyIn key ["down"; "j"] then
    if (skillCursor m <? totalItems - 1)%Z
    then Some (set_skillCursor (skillCursor m + 1) m, CmdNil)
    else Some (m, CmdNil)
  else if String.eqb key "enter" then
    if (skillCursor m <? Z.of_nat (length (manifests m)))%Z then
      s ← index (manifests m) (skillCursor m);
      let m := set_selectedSkill (Some s) m in
      let m := set_selectedError None m in
      let m := set_currentView ViewConfig m in
      let m := setupInputsFromManifest m in
      Some (m, Blink)
    else if (skillCursor m <? totalItems)%Z then
      let errorIdx := (skillCursor m - Z.of_nat (length (manifests m)))%Z in
      e ← index (skillErrors m) errorIdx;
      let m := set_selectedError (Some e) m in
      let m := set_selectedSkill None m in
      let m := set_errorMsg (SkillError.Error e) m in
      Some (m, CmdNil)
    else Some (m, CmdNil)
  else Some (m, CmdNil).

(** The start of a build, shared by the confirm and overwrite views. *)
Definition beginBuild (m : Model) : Model * Cmd :=
  let m := set_currentView ViewBuilding m in
  let m := set_building true m in
  let m := set_errorMsg "" m in
  let m := set_statusMsg "" m in
  (m, startBuildCmd m).

Definition handleConfirmView (stat : string -> bool) (m : Model) (key : string)
  : option (Model * Cmd) :=
  if keyIn key ["esc"; "n"] then
    let m := set_currentView ViewDeploy m in
    let m := set_deployFocus 0 m in
    let m := set_deployInputs (focusFirst (deployInputs m)) m in
    Some (m, Blink)
  else if keyIn key ["enter"; "y"] then
    exists_ ← skillExists stat m;
    if exists_ : bool
    then Some (set_currentView ViewOverwrite m, CmdNil)
    else Some (beginBuild m)
  else Some (m, CmdNil).

Definition handleOverwriteView (m : Model) (key : string)
  : option (Model * Cmd) :=
  if keyIn key ["esc"; "n"] then Some (set_currentView ViewConfirm m, CmdNil)
  else if String.eqb key "y" then Some (beginBuild m)
  else Some (m, CmdNil).

Definition handleDoneView (m : Model) (key : string) : option (Model * Cmd) :=
  if keyIn key ["enter"; "q"; "esc"] then Some (set_quitting true m, Quit)
  else if String.eqb key "r" then
    let m := set_currentView ViewSkillList m in
    let m := set_errorMsg "" m in
    let m := set_statusMsg "" m in
    let m := set_buildOutput "" m in
    Some (m, CmdNil)
  else Some (m, CmdNil).

Definition handleKeyPress (stat : string -> bool) (m : Model) (key : string)
  : option (Model * Cmd) :=
  match currentView m with
  | ViewSkillList => handleSkillListView m key
  | ViewConfirm => handleConfirmView stat m key
  | ViewOverwrite => handleOverwriteView m key
  | ViewDone => handleDoneView m key
  | _ => Some (m, CmdNil)
  end.

(** The [tab]/[down] case of [Update], for a list of inputs and its
    focus: [None] is an index out of range or the division by zero of
    [% len(inputs)]. *)
Definition focusNext (inputs : list textinput.Model) (focus : Z)
  : option (list textinput.Model * Z) :=
  inputs ← modifyAt textinput.Blur inputs focus;
  if (Z.of_nat (length inputs) =? 0)%Z then None
  else
    let focus := Z.rem (focus + 1) (Z.of_nat (length inputs)) in
    inputs ← modifyAt textinput.Focus inputs focus;
    Some (inputs, focus).

(** The [shift+tab]/[up] case of [Update]. *)
Definition focusPrev (inputs : list textinput.Model) (focus : Z)
  : option (list textinput.Model * Z) :=
  inputs ← modifyAt textinput.Blur inputs focus;
  let focus := (focus - 1)%Z in
  let focus := if (focus <? 0)%Z then (Z.of_nat (length inputs) - 1)%Z else focus in
  inputs ← modifyAt textinput.Focus inputs focus;
  Some (inputs, focus).

(** The key switch of [Update] in the configure view. *)
Definition configViewKey (m : Model) (key : string) : option (Model * Cmd) :=
  if String.eqb key "esc" then
    let m := set_currentView ViewSkillList m in
    let m := set_errorMsg "" m in
    Some (m, CmdNil)
  else if keyIn key ["tab"; "down"] then
    '(inputs, focus) ← focusNext (configInputs m) (configFocus m);
    Some (set_configFocus focus (set_configInputs inputs m), Blink)
  else if keyIn key ["shift+tab"; "up"] then
    '(inputs, focus) ← focusPrev (configInputs m) (configFocus m);
    Some (set_configFocus focus (set_configInputs inputs m), Blink)
  else if keyIn key ["ctrl+d"; "enter"] then
    '(m, ok) ← validateConfigInputs m;
    if ok : bool then
      m ← saveConfigInputs m;
      let m := setupDeployInputs m in
      let m := set_currentView ViewDeploy m in
      Some (m, Blink)
    else Some (m, Blink)
  else Some (updateConfigInputs m (KeyMsg key)).

(** The key switch of [Update] in the deploy view. *)
Definition deployViewKey (m : Model) (key : string) : option (Model * Cmd) :=
  if String.eqb key "esc" then
    let m := set_currentView ViewConfig m in
    let m := set_errorMsg "" m in
    let m := set_configFocus 0 m in
    let m := set_configInputs (focusFirst (configInputs m)) m in
    Some (m, Blink)
  else if keyIn key ["tab"; "down"] then
    '(inputs, focus) ← focusNext (deployInputs m) (deployFocus m);
    Some (set_deployFocus focus (set_deployInputs inputs m), Blink)
  else if keyIn key ["shift+tab"; "up"] then
    '(inputs, focus) ← focusPrev (deployInputs m) (deployFocus m);
    Some (set_deployFocus focus (set_deployInputs inputs m), Blink)
  else if keyIn key ["ctrl+d"; "enter"] then
    '(m, ok) ← validateDeployInputs m;
    if ok : bool then
      m ← saveDeployInputs m;
      Some (set_currentView ViewConfirm m, CmdNil)
    else Some (m, CmdNil)
  else Some (updateDeployInputs m (KeyMsg key)).

(** [Model.Update].  [None] is a run-time panic. *)
Definition Update (stat : string -> bool) (m : Model) (msg : Msg)
  : option (Model * Cmd) :=
  match msg with
  | KeyMsg key =>
      if String.eqb key "ctrl+c" then Some (set_quitting true m, Quit)
      else if decide (currentView m = ViewConfig) then configViewKey m key
      else if decide (currentView m = ViewDeploy) then deployViewKey m key
      else handleKeyPress stat m key
  | WindowSizeMsg w h => Some (set_height h (set_width w m), CmdNil)
  | buildCompleteMsg output err =>
      let m := set_building false m in
      let m := set_buildOutput output m in
      match err with
      | Some e =>
          let m := set_errorMsg e m in
          let m := set_currentView ViewDone m in
          Some (m, CmdNil)
      | None => Some (m, deploySkillCmd m)
      end
  | deployCompleteMsg err =>
      let m := set_currentView ViewDone m in
      match err with
      | Some e => Some (set_errorMsg e m, CmdNil)
      | None => Some (set_statusMsg "Skill deployed successfully!" m, CmdNil)
      end
  | OtherMsg _ => Some (m, CmdNil)
  end.

(** The keys with a case of their own in the key switch of a view;
    [None] for the two views with text inputs, whose default case hands
    every other key to the inputs.  [ctrl+c] is handled in every
    view. *)
Definition handledKeys (v : View) : option (list string) :=
  match v with
  | ViewSkillList => Some ["q"; "esc"; "up"; "k"; "down"; "j"; "enter"]
  | ViewConfig | ViewDeploy => None
  | ViewConfirm => Some ["esc"; "n"; "enter"; "y"]
  | ViewOverwrite => Some ["esc"; "n"; "y"]
  | ViewBuilding => Some []
  | ViewDone => Some ["enter"; "q"; "esc"; "r"]
  end.

(** A message no case of [Update] handles in the state [m]. *)
Definition unhandled (m : Model) (msg : Msg) : bool :=
  match msg with
  | KeyMsg key =>
      negb (String.eqb key "ctrl+c")
      && match handledKeys (currentView m) with
         | Some keys => negb (keyIn key keys)
         | None => false
         end
  | OtherMsg _ => true
  | _ => false
  end.

(** The event loop on a list of messages, the commands dropped. *)
Fixpoint feed (stat : string -> bool) (m : Model) (msgs : list Msg)
  : option Model :=
  match msgs with
  | [] => Some m
  | msg :: rest => '(m', _) ← Update stat m msg; feed stat m' rest
  end.

(** One transition of the wizard. *)
Definition step (m m' : Model) : Prop :=
  exists stat msg c, Update stat m msg = Some (m', c).

(** The states the wizard can be in: the initial model, and what
    [Update] makes of a reachable state for any message, whatever the
    file system holds at that moment. *)
Inductive reachable : Model -> Prop :=
| reachable_init root ver discovered :
    reachable (NewModel root ver discovered)
| reachable_step stat m msg m' c :
    reachable m -> Update stat m msg = Some (m', c) -> reachable m'.

(** The advance key pressed in the configure view: the one message whose
    case of [Update] calls [saveConfigInputs]. *)
Definition isAdvance (m : Model) (msg : Msg) : bool :=
  match msg with
  | KeyMsg key =>
      bool_decide (currentView m = ViewConfig)
      && keyIn key ["ctrl+d"; "enter"]
  | _ => false
  end.

(** A transition on any other message. *)
Definition quietStep (m m' : Model) : Prop :=
  exists stat msg c,
    isAdvance m msg = false /\ Update stat m msg = Some (m', c).

(** The event loop on a list of messages none of which is the advance
    key in the configure view; [None] also when one is. *)
Fixpoint feedQuiet (stat : string -> bool) (m : Model) (msgs : list Msg)
  : option Model :=
  match msgs with
  | [] => Some m
  | msg :: rest =>
      if isAdvance m msg then None
      else '(m', _) ← Update stat m msg; feedQuiet stat m' rest
  end.

End Tui.

(** ** The views *)

(** The lipgloss styles of the package. *)
Inductive Style :=
| titleStyle | mutedStyle | inputLabelStyle | normalStyle | selectedStyle
| errorStyle | successStyle | boxStyle | helpStyle.

(** The number of runes of a well-formed UTF-8 string: the bytes that
    are not continuation bytes. *)
Fixpoint runeCount (s : string) : nat :=
  match s with
  | EmptyString => 0
  | String c s' =>
      let n := nat_of_ascii c in
      if Nat.leb 128 n && Nat.ltb n 192 then runeCount s' else S (runeCount s')
  end.

Fixpoint spaces (n : nat) : string :=
  match n with
  | O => ""
  | S n' => String " "%char (spaces n')
  end.

(** [fmt.Sprintf("%-12s", s)]. *)
Definition padRight12 (s : string) : string :=
  s +:+ spaces (12 - runeCount s).

Section Views.

Variable filepath_Join : list string -> string.

(** [Style.Render] of lipgloss and [View] of the text input. *)
Variable Render : Style -> string -> string.
Variable textinput_View : textinput.Model -> string.

(** What the confirm view shows for a variable: a secret longer than
    eight bytes is cut to its first eight bytes and an ellipsis. *)
Definition confirmValue (v : Var.t) (value : string) : string :=
  if String.eqb (Var.Type_ v) "secret" && Nat.ltb 8 (String.length value)
  then strings.take 8 value +:+ "..."
  else value.

(** One line of the environment block of [renderConfirm]. *)
Definition confirmLine (cv : gmap string string) (v : Var.t) : string :=
  let value := default "" (cv !! Var.Name v) in
  let value := confirmValue v value in
  Render mutedStyle ("    " +:+ padRight12 (Var.Label v +:+ ":") +:+ " ")
  +:+ Render normalStyle value
  +:+ strings.nl.

Definition renderConfirm (m : Model) : string :=
  let b := Render inputLabelStyle "Step 3: Confirm" +:+ strings.nl +:+ strings.nl in
  let b :=
    match selectedSkill m with
    | Some s =>
        b +:+ Render mutedStyle "  Skill:         "
          +:+ Render normalStyle (Manifest.Name s)
          +:+ strings.nl +:+ strings.nl
          +:+ (if Nat.ltb 0 (length (Manifest.Variables s))
               then Render mutedStyle "  Environment:" +:+ strings.nl
                    +:+ writeEach (confirmLine (configValues m))
                          (Manifest.Variables s)
                    +:+ strings.nl
               else "")
    | None => b
    end in
  Render boxStyle
    (b +:+ Render mutedStyle "  Deploy:" +:+ strings.nl
       +:+ Render mutedStyle "    Skills Folder: "
       +:+ Render normalStyle (skillsFolder m) +:+ strings.nl
       +:+ Render mutedStyle "    Skill Name:    "
       +:+ Render normalStyle (skillFolderName m) +:+ strings.nl
       +:+ Render mutedStyle "    Target:        "
       +:+ Render successStyle (getDeployPath filepath_Join m)
       +:+ strings.nl +:+ strings.nl
       +:+ Render normalStyle "  Build and deploy this skill?" +:+ strings.nl
       +:+ Render mutedStyle "  [Y] Yes  [N] Back").

Definition renderSkillList (m : Model) : string :=
  let b := Render inputLabelStyle "Available Skills" +:+ strings.nl +:+ strings.nl in
  Render boxStyle
    (if Nat.eqb (length (manifests m)) 0 && Nat.eqb (length (skillErrors m)) 0
     then b +:+ Render mutedStyle "  No skills found in skills/ directory"
            +:+ strings.nl
            +:+ Render mutedStyle "  Add a skill.yaml to register a skill"
     else
       b +:+ writeEach id
               (imap (fun i manifest =>
                  (if (Z.of_nat i =? skillCursor m)%Z
                   then "▸ " +:+ Render selectedStyle (Manifest.Name manifest)
                   else "  " +:+ Render normalStyle (Manifest.Name manifest))
                  +:+ strings.nl +:+ "    "
                  +:+ Render mutedStyle (Manifest.Description manifest)
                  +:+ strings.nl) (manifests m))
         +:+ (if Nat.ltb 0 (length (skillErrors m))
              then strings.nl +:+ Render errorStyle "Skills with Errors"
                   +:+ strings.nl +:+ strings.nl
                   +:+ writeEach id
                         (imap (fun i skillErr =>
                            let idx := (Z.of_nat (length (manifests m))
                                        + Z.of_nat i)%Z in
                            (if (idx =? skillCursor m)%Z
                             then "▸ " +:+ Render errorStyle (SkillError.Name skillErr)
                             else "  " +:+ Render mutedStyle (SkillError.Name skillErr))
                            +:+ strings.nl +:+ "    "
                            +:+ Render mutedStyle (SkillError.Error skillErr)
                            +:+ strings.nl) (skillErrors m))
              else "")).

(** The block [renderConfig] and [renderDeploy] write for one input. *)
Definition inputBlock (focused : bool) (label : string) (input : textinput.Model)
  : string :=
  (if focused then "▸ " +:+ Render inputLabelStyle label
   else "  " +:+ Render mutedStyle label)
  +:+ strings.nl +:+ "  " +:+ textinput_View input +:+ strings.nl +:+ strings.nl.

(** [renderConfig]; [None] is the panic of [m.configLabels[i]] out of
    range. *)
Definition renderConfig (m : Model) : option string :=
  let head :=
    match selectedSkill m with
    | Some s =>
        Render inputLabelStyle ("Step 1: " +:+ Manifest.Name s +:+ " Environment")
    | None => Render inputLabelStyle "Step 1: Skill Environment"
    end +:+ strings.nl +:+ strings.nl in
  blocks ← mapM id
    (imap (fun i input =>
       label ← configLabels m !! i;
       let label :=
         match selectedSkill m with
         | Some s =>
             match Manifest.Variables s !! i with
             | Some v => if Var.Required v then label +:+ " *" else label
             | None => label
             end
         | None => label
         end in
       Some (inputBlock (Z.of_nat i =? configFocus m)%Z label input))
       (configInputs m));
  Some (Render boxStyle
          (head +:+ writeEach id blocks +:+ Render mutedStyle "  * required")).

Definition renderDeploy (m : Model) : option string :=
  let head :=
    Render inputLabelStyle "Step 2: Deploy Settings" +:+ strings.nl +:+ strings.nl in
  blocks ← mapM id
    (imap (fun i input =>
       label ← deployLabels m !! i;
       Some (inputBlock (Z.of_nat i =? deployFocus m)%Z (label +:+ " *") input))
       (deployInputs m));
  Some (Render boxStyle
          (head +:+ writeEach id blocks +:+ Render mutedStyle "  * required")).

Definition renderBuilding (m : Model) : string :=
  let skillName :=
    match selectedSkill m with Some s => Manifest.Name s | None => "skill" end in
  Render boxStyle
    (Render inputLabelStyle "Building..." +:+ strings.nl +:+ strings.nl
     +:+ Render mutedStyle ("  Compiling " +:+ skillName +:+ "...")).

Definition renderDone (m : Model) : string :=
  Render boxStyle
    (if negb (String.eqb (statusMsg m) "") then
       Render successStyle ("✓ " +:+ statusMsg m) +:+ strings.nl +:+ strings.nl
       +:+ Render mutedStyle "  Deployed to: "
       +:+ Render normalStyle (getDeployPath filepath_Join m)
       +:+ strings.nl +:+ strings.nl
       +:+ Render mutedStyle "  The skill is now ready to use!"
     else if negb (String.eqb (errorMsg m) "") then
       Render errorStyle "✗ Build/Deploy failed" +:+ strings.nl +:+ strings.nl
       +:+ (if negb (String.eqb (buildOutput m) "")
            then Render mutedStyle ("  Output: " +:+ buildOutput m) else "")
     else "").

Definition renderOverwrite (m : Model) : string :=
  let skillName :=
    match selectedSkill m with Some s => Manifest.Name s | None => "skill" end in
  Render boxStyle
    (Render errorStyle "⚠️  Skill already exists" +:+ strings.nl +:+ strings.nl
     +:+ Render mutedStyle ("  The skill " +:+ strings.dq)
     +:+ Render normalStyle skillName
     +:+ Render mutedStyle (strings.dq +:+ " already exists at:") +:+ strings.nl
     +:+ "  " +:+ Render normalStyle (getDeployPath filepath_Join m)
     +:+ strings.nl +:+ strings.nl
     +:+ Render normalStyle "  Overwrite?" +:+ strings.nl
     +:+ Render mutedStyle "  [Y] Yes, overwrite  [N] Cancel").

Definition renderHelp (m : Model) : string :=
  Render helpStyle
    match currentView m with
    | ViewSkillList => "↑/↓: Navigate • Enter: Select • q: Quit"
    | ViewConfig => "↑/↓/Tab: Navigate • Enter: Next Step • Esc: Back"
    | ViewDeploy => "↑/↓/Tab: Navigate • Enter: Next Step • Esc: Back"
    | ViewConfirm => "Y/Enter: Build & Deploy • N/Esc: Back"
    | ViewOverwrite => "Y: Overwrite • N/Esc: Cancel"
    | ViewBuilding => "Building..."
    | ViewDone => "Enter/q: Quit • R: Configure another skill"
    end.

(** [Model.View]. *)
Definition ModelView (m : Model) : option string :=
  if quitting m then Some ("Goodbye!" +:+ strings.nl)
  else
    content ←
      match currentView m with
      | ViewSkillList => Some (renderSkillList m)
      | ViewConfig => renderConfig m
      | ViewDeploy => renderDeploy m
      | ViewConfirm => Some (renderConfirm m)
      | ViewOverwrite => Some (renderOverwrite m)
      | ViewBuilding => Some (renderBuilding m)
      | ViewDone => Some (renderDone m)
      end;
    Some (Render titleStyle "Claude SkillFactory"
          +:+ Render mutedStyle ("  " +:+ version m)
          +:+ strings.nl +:+ strings.nl
          +:+ content
          +:+ (if negb (String.eqb (errorMsg m) "")
               then strings.nl +:+ Render errorStyle ("✗ " +:+ errorMsg m)
               else "")
          +:+ strings.nl +:+ strings.nl
          +:+ renderHelp m).

End Views.

(** ** The build *)

Section Build.

Variable filepath_Join : list string -> string.

(** What [exec.Command("go", args...)] run in directory [dir] answers to
    [CombinedOutput]: its output, and the text of its error if any. *)
Variable go_CombinedOutput : string -> list string -> string * option string.

(** Where [startBuild] has the compiler put the binary. *)
Definition buildOutputPath (m : Model) (s : Manifest.t) : string :=
  filepath_Join [filepath_Join [projectRoot m; "dist"]; binaryNameOf s].

(** [startBuild]: the task behind the command, its value being the
    [buildCompleteMsg] it sends.  The compiler runs between the call of
    [os.MkdirAll] and the return. *)
Definition startBuild (m : Model) : os.Proc Msg :=
  match selectedSkill m with
  | None => os.Ret (buildCompleteMsg "" (Some "no skill selected"))
  | Some s =>
      let skillPath := Manifest.Path s in
      let distDir := filepath_Join [projectRoot m; "dist"] in
      let outputPath := buildOutputPath m s in
      os.MkdirAll distDir 493 (
        let '(output, err) :=
          go_CombinedOutput skillPath ["build"; "-o"; outputPath; "."] in
        match err with
        | Some e => os.Ret (buildCompleteMsg output (Some ("build failed: " +:+ e)))
        | None => os.Ret (buildCompleteMsg ("Built: " +:+ outputPath) None)
        end)
  end.

End Build.

(** ** The project root *)

Section ProjectRoot.

(** [filepath.Join] and [filepath.Dir] of Go's standard library, and
    whether [os.Stat] of a path returns a nil error. *)
Variable filepath_Join : list string -> string.
Variable filepath_Dir : string -> string.
Variable stat : string -> bool.

(** The loop of [GetProjectRoot] with [n] rounds left: [Some dir] is the
    [return dir] inside the loop, [None] the end of the loop, by [break]
    at the root of the file system or after the last round. *)
Fixpoint findProjectRoot (n : nat) (dir : string) : option string :=
  match n with
  | O => None
  | S n' =>
      if stat (filepath_Join [dir; "go.mod"])
         && stat (filepath_Join [dir; "skills"])
      then Some dir
      else
        let parent := filepath_Dir dir in
        if String.eqb parent dir then None
        else findProjectRoot n' parent
  end.

(** [GetProjectRoot]; [cwd] is what [os.Getwd] returns, both times it is
    called. *)
Definition GetProjectRoot (cwd : string) : string :=
  default cwd (findProjectRoot 10 cwd).

End ProjectRoot.

(** ** More on the shape of the states *)

(** Of the inputs, the one at [focus] has the focus and no other. *)
Definition focusedAt (inputs : list textinput.Model) (focus : Z) : Prop :=
  forall j t, inputs !! j = Some t ->
              textinput.focus t = (Z.of_nat j =? focus)%Z.

(** What was found at start: the manifests, the failed skills, the
    project root and the version. *)
Definition sameCatalog (m m' : Model) : Prop :=
  manifests m' = manifests m
  /\ skillErrors m' = skillErrors m
  /\ projectRoot m' = projectRoot m
  /\ version m' = version m.

(** What else holds of every state the wizard reaches (see
    [reachable_coherent]): the cursor is on an entry of the skill list
    when there is one, every input has its label, the selected skill and
    the selected error are entries of the lists found at start and are
    never both set, and while a skill is being configured it is the one
    under the cursor. *)
Record coherent (m : Model) : Prop := {
  co_cursor :
    (0 <= skillCursor m)%Z
    /\ (skillCursor m = 0%Z
        \/ (skillCursor m
            < Z.of_nat (length (manifests m))
              + Z.of_nat (length (skillErrors m)))%Z);
  co_config : length (configLabels m) = length (configInputs m);
  co_deploy : length (deployLabels m) = length (deployInputs m);
  co_selected : forall s, selectedSkill m = Some s -> s ∈ manifests m;
  co_error : forall e, selectedError m = Some e -> e ∈ skillErrors m;
  co_exclusive : selectedSkill m = None \/ selectedError m = None;
  co_current :
    configuring (currentView m) = true ->
    manifests m !! Z.to_nat (skillCursor m) = selectedSkill m
}.

(** ** Sample data

    A manifest with one required secret and one optional text variable,
    a manifest without variables, a stand-in for [filepath.Join] on
    clean path elements, and the help texts of a small command tree. *)

Module Sample.

Import strings.

(** Joins the non-empty elements with a slash, which is what
    [filepath.Join] does before it cleans the result. *)
Definition join (elems : list string) : string :=
  Join (filter (fun e => e <> "") elems) "/".

Definition apiToken : Var.t :=
  {| Var.Name := "API_TOKEN"; Var.Label := "API Token";
     Var.Description := "Token of the API"; Var.Required := true;
     Var.Placeholder := ""; Var.Default := ""; Var.Type_ := "secret" |}.

Definition apiUrl : Var.t :=
  {| Var.Name := "API_URL"; Var.Label := "API URL";
     Var.Description := "Address of the API"; Var.Required := false;
     Var.Placeholder := "https://example.org"; Var.Default := "";
     Var.Type_ := "string" |}.

Definition tasks : Manifest.t :=
  {| Manifest.Name := "tasks"; Manifest.Description := "Task management";
     Manifest.Version := "1.0.0"; Manifest.Path := "/src/skills/tasks";
     Manifest.Variables := [apiToken; apiUrl];
     Manifest.Build := {| BuildConfig.Entry := "."; BuildConfig.Binary := "" |};
     Manifest.Docs := {| DocsConfig.Template := "SKILL.template.md";
                         DocsConfig.Output := "SKILL.md" |} |}.

(** A skill that needs no configuration. *)
Definition clock : Manifest.t :=
  {| Manifest.Name := "clock"; Manifest.Description := "Tells the time";
     Manifest.Version := "1.0.0"; Manifest.Path := "/src/skills/clock";
     Manifest.Variables := [];
     Manifest.Build := {| BuildConfig.Entry := "."; BuildConfig.Binary := "clock" |};
     Manifest.Docs := {| DocsConfig.Template := "SKILL.template.md";
                         DocsConfig.Output := "SKILL.md" |} |}.

(** A second skill that asks for the same token. *)
Definition notes : Manifest.t :=
  {| Manifest.Name := "notes"; Manifest.Description := "Note taking";
     Manifest.Version := "1.0.0"; Manifest.Path := "/src/skills/notes";
     Manifest.Variables := [apiToken];
     Manifest.Build := {| BuildConfig.Entry := "."; BuildConfig.Binary := "notes" |};
     Manifest.Docs := {| DocsConfig.Template := "SKILL.template.md";
                         DocsConfig.Output := "SKILL.md" |} |}.

Definition description (s : Manifest.t) : string := Manifest.Description s.

(** A text input that takes values as they are and, when it has the
    focus, appends the text of a key message to its value. *)
Definition clip (limit : Z) (s : string) : string := s.
Definition inputUpdate (t : textinput.Model) (msg : Msg) : textinput.Model :=
  match msg with
  | KeyMsg key =>
      if textinput.focus t
      then textinput.withValue (textinput.value t +:+ key) t
      else t
  | _ => t
  end.

(** The wizard at start, with the three skills found. *)
Definition start : Model :=
  NewModel "/src" "v1" ([tasks; clock; notes], [], None).

(** Styles that leave the text as it is, and an input drawn as its
    value, or as one star per byte in password mode. *)
Definition plain (st : Style) (s : string) : string := s.

Fixpoint stars (s : string) : string :=
  match s with
  | EmptyString => ""
  | String _ s' => String "*"%char (stars s')
  end.

Definition inputView (t : textinput.Model) : string :=
  match textinput.Echo t with
  | textinput.EchoPassword => stars (textinput.value t)
  | _ => textinput.value t
  end.

(** No file exists. *)
Definition noFile (path : string) : bool := false.

(** The wizard after the messages [msgs]. *)
Definition after (msgs : list Msg) : Model :=
  default start (feed join clip inputUpdate noFile start msgs).

(** The skill [tasks] chosen; its token typed and accepted; the skills
    folder typed and accepted, which leaves the wizard in the confirm
    view. *)
Definition chosen : Model := after [KeyMsg "enter"].
Definition typed : Model := after [KeyMsg "enter"; KeyMsg "s3cr3t-token-42"].
Definition configured : Model :=
  after [KeyMsg "enter"; KeyMsg "s3cr3t-token-42"; KeyMsg "enter"].
Definition confirming : Model :=
  after [KeyMsg "enter"; KeyMsg "s3cr3t-token-42"; KeyMsg "enter";
         KeyMsg "/home/u/skills"; KeyMsg "enter"].

(** The same session with a short token. *)
Definition confirmingShort : Model :=
  after [KeyMsg "enter"; KeyMsg "hunter2"; KeyMsg "enter";
         KeyMsg "/home/u/skills"; KeyMsg "enter"].

(** The deploy done, the wizard restarted and the cursor moved to the
    skill [notes]. *)
Definition restarted : Model :=
  after [KeyMsg "enter"; KeyMsg "s3cr3t-token-42"; KeyMsg "enter";
         KeyMsg "/home/u/skills"; KeyMsg "enter"; KeyMsg "y";
         buildCompleteMsg "Built: /src/dist/tasks" None;
         deployCompleteMsg None; KeyMsg "r"; KeyMsg "down"; KeyMsg "down"].

(** A file system in which the binary of [tasks] is already deployed. *)
Definition deployedBefore (path : string) : bool :=
  String.eqb path "/home/u/skills/tasks/bin/tasks".

(** The help text of a leaf command. *)
Definition leafHelp : string :=
  "Usage:" +:+ nl
  +:+ "  prog sub [flags]" +:+ nl
  +:+ nl
  +:+ "Flags:" +:+ nl
  +:+ "  -t, --title string   Task title (required)" +:+ nl.

(** The same with a description line and the help flag cobra adds. *)
Definition leafHelpFull : string :=
  "Create a task" +:+ nl
  +:+ nl
  +:+ "Usage:" +:+ nl
  +:+ "  prog sub [flags]" +:+ nl
  +:+ nl
  +:+ "Flags:" +:+ nl
  +:+ "  -h, --help           help for sub" +:+ nl
  +:+ "  -t, --title string   Task title (required)" +:+ nl.

Definition rootHelp : string :=
  "A program" +:+ nl
  +:+ nl
  +:+ "Usage:" +:+ nl
  +:+ "  prog [command]" +:+ nl
  +:+ nl
  +:+ "Available Commands:" +:+ nl
  +:+ "  completion  Generate the autocompletion script" +:+ nl
  +:+ "  help        Help about any command" +:+ nl
  +:+ "  sub         Create a task" +:+ nl
  +:+ nl
  +:+ "Flags:" +:+ nl
  +:+ "  -h, --help   help for prog" +:+ nl.

(** A binary with the one command [sub]. *)
Definition progHelp (binaryPath : string) (args : list string) : option string :=
  if decide (args = ["--help"]) then Some rootHelp
  else if decide (args = ["sub"; "--help"]) then Some leafHelp
  else None.

(** A binary whose every run fails. *)
Definition brokenHelp (binaryPath : string) (args : list string) : option string :=
  None.

End Sample.

(** More sample data: a checkout of the project with a skill that fails
    to load, and a compiler. *)
Module Scene.

(** [filepath.Dir] on the directories of the checkout. *)
Definition parent (dir : string) : string :=
  if String.eqb dir "/src/skills/tasks" then "/src/skills"
  else if String.eqb dir "/src/skills" then "/src"
  else "/".

(** The checkout: [go.mod] and [skills] in [/src], and a [go.mod] of its
    own in the skill. *)
Definition holds (path : string) : bool :=
  String.eqb path "/src/go.mod" || String.eqb path "/src/skills"
  || String.eqb path "/src/skills/tasks/go.mod".

(** A compiler that succeeds without output. *)
Definition goBuild (dir : string) (args : list string) : string * option string :=
  ("", None).

(** A skill whose manifest does not parse. *)
Definition broken : SkillError.t :=
  {| SkillError.Name := "broken";
     SkillError.Error := "yaml: line 3: did not find expected key" |}.

(** The wizard at start with one skill found and one failed, and with
    the cursor moved to the failed one. *)
Definition withBroken : Model :=
  NewModel "/src" "v1" ([Sample.tasks], [broken], None).

Definition onBroken : Model :=
  default withBroken
    (feed Sample.join Sample.clip Sample.inputUpdate Sample.noFile withBroken
       [KeyMsg "down"]).

(** The skill [clock], which has no variable, chosen from the sample
    list. *)
Definition clockChosen : Model :=
  Sample.after [KeyMsg "down"; KeyMsg "enter"].

(** The sample session with the build started. *)
Definition building : Model :=
  Sample.after [KeyMsg "enter"; KeyMsg "s3cr3t-token-42"; KeyMsg "enter";
                KeyMsg "/home/u/skills"; KeyMsg "enter"; KeyMsg "y"].


(** The no-break space U+00A0 in UTF-8. *)
Definition nbsp : string :=
  String (ascii_of_nat 194) (String (ascii_of_nat 160) EmptyString).

(** The help text of a leaf command and a list of commands, indented and
    aligned with no-break spaces. *)
Definition nbspHelp : string :=
  "Usage:" +:+ strings.nl
  +:+ nbsp +:+ nbsp +:+ "prog sub [flags]" +:+ strings.nl
  +:+ strings.nl
  +:+ "Flags:" +:+ strings.nl
  +:+ nbsp +:+ nbsp +:+ "-t, --title string" +:+ nbsp +:+ "Task title"
  +:+ strings.nl.

Definition nbspCommands : string :=
  "Available Commands:" +:+ strings.nl
  +:+ nbsp +:+ nbsp +:+ "list" +:+ nbsp +:+ "List tasks" +:+ strings.nl
  +:+ nbsp +:+ nbsp +:+ "help" +:+ nbsp +:+ "Help about any command"
  +:+ strings.nl.

End Scene.

(** * Properties *)

(** ** Facts about the string functions *)

Module strings_facts.

Import strings.

Lemma app_cons (c : ascii) (a b : string) :
  String c a +:+ b = String c (a +:+ b).
Proof. reflexivity. Qed.

Lemma app_nil_l (b : string) : "" +:+ b = b.
Proof. reflexivity. Qed.

Lemma app_nil_r (a : string) : a +:+ "" = a.
Proof. induction a as [|c a IH]; [done|]. by rewrite app_cons, IH. Qed.

Lemma HasPrefix_nil (s : string) : HasPrefix s "" = true.
Proof. by destruct s. Qed.

Lemma HasPrefix_app (p s : string) : HasPrefix (p +:+ s) p = true.
Proof.
  induction p as [|c p IH]; [apply HasPrefix_nil|].
  rewrite app_cons. simpl. by rewrite Ascii.eqb_refl.
Qed.

Lemma drop_app_length (a b : string) : drop (String.length a) (a +:+ b) = b.
Proof.
  induction a as [|c a IH]; [by destruct b|].
  rewrite app_cons. simpl. exact IH.
Qed.

Lemma length_app (a b : string) :
  String.length (a +:+ b) = String.length a + String.length b.
Proof.
  induction a as [|c a IH]; [done|].
  rewrite app_cons. simpl. by rewrite IH.
Qed.

Lemma app_assoc (a b c : string) : (a +:+ b) +:+ c = a +:+ (b +:+ c).
Proof.
  induction a as [|x a IH]; [done|].
  rewrite !app_cons. by rewrite IH.
Qed.

(** The first three bytes of a non-empty string followed by two dashes
    are those of the string followed by three dashes and more. *)
Lemma HasPrefix_dashes_ext (c : ascii) (a r : string) :
  HasPrefix (String c a +:+ "--") "---"
  = HasPrefix (String c a +:+ "---" +:+ r) "---".
Proof.
  destruct a as [|c1 [|c2 a]]; rewrite !app_cons, ?app_nil_l; cbn;
    repeat (match goal with |- context [Ascii.eqb ?x ?y] =>
                              destruct (Ascii.eqb x y) end; try done);
    rewrite ?HasPrefix_nil; try done; by destruct r.
Qed.

Lemma Index_cons (c : ascii) (s sub : string) :
  Index (String c s) sub =
  if HasPrefix (String c s) sub then Some 0 else option_map S (Index s sub).
Proof. reflexivity. Qed.

(** When three dashes do not occur in [a] followed by two dashes, their
    first occurrence in [a] followed by three dashes is right after
    [a]. *)
Lemma Index_closing (a r : string) :
  Index (a +:+ "--") "---" = None ->
  Index (a +:+ "---" +:+ r) "---" = Some (String.length a).
Proof.
  induction a as [|c a IH]; intros H.
  - cbn. by destruct r.
  - rewrite app_cons, Index_cons in H. rewrite app_cons, Index_cons.
    rewrite <- !app_cons in *.
    rewrite <- HasPrefix_dashes_ext.
    destruct (HasPrefix (String c a +:+ "--") "---"); [done|].
    destruct (Index (a +:+ "--") "---") eqn:E; [done|].
    by rewrite IH.
Qed.

Lemma TrimLeft_no_prefix (s : string) :
  HasPrefix s nl = false -> TrimLeft s nl = s.
Proof.
  destruct s as [|c s]; [done|]. cbn.
  destruct (Ascii.eqb c "010"); [by rewrite HasPrefix_nil|done].
Qed.

End strings_facts.

(** ** Header stripping (C5) *)

(** C5, as the specification states it, at a template whose body starts
    with a blank line: the header is [---], [name: x], [---], the
    remainder is an empty line and a title, and the empty line is not
    returned. *)
Lemma stripFrontmatter_drops_blank_line :
  let header := "---" +:+ strings.nl +:+ "name: x" +:+ strings.nl
                +:+ "---" +:+ strings.nl in
  let remainder := strings.nl +:+ "# Title" +:+ strings.nl in
  stripFrontmatter (header +:+ remainder) = "# Title" +:+ strings.nl
  /\ stripFrontmatter (header +:+ remainder) <> remainder.
Proof. split; [reflexivity|discriminate]. Qed.

(** A template that starts with a rule of six dashes has no header line
    of three dashes, and loses the rule all the same. *)
Lemma stripFrontmatter_eats_rule :
  stripFrontmatter ("------" +:+ strings.nl +:+ "text") = "text".
Proof. reflexivity. Qed.

(** C5, amended: a template that does not start with three dashes, or
    has no three dashes after the opening ones, is returned verbatim;
    for a template that starts with a header line of three dashes, header
    lines free of three dashes in a row and a closing line of three
    dashes, the result is what follows the closing line with its leading
    line feeds cut, which is what follows the closing line when that
    does not start with a line feed. *)
Theorem stripFrontmatter_spec :
  (forall t, strings.HasPrefix t "---" = false -> stripFrontmatter t = t)
  /\ (forall t, strings.HasPrefix t "---" = true ->
        strings.Index (strings.drop 3 t) "---" = None ->
        stripFrontmatter t = t)
  /\ (forall hdr body,
        strings.Index (strings.nl +:+ hdr +:+ "--") "---" = None ->
        let t := "---" +:+ strings.nl +:+ hdr +:+ "---" +:+ strings.nl +:+ body in
        stripFrontmatter t = strings.TrimLeft body strings.nl
        /\ (strings.HasPrefix body strings.nl = false ->
            stripFrontmatter t = body)).
Proof.
  split; [|split].
  - intros t H. unfold stripFrontmatter. by rewrite H.
  - intros t H1 H2. unfold stripFrontmatter. by rewrite H1, H2.
  - intros hdr body H t.
    assert (E : stripFrontmatter t = strings.TrimLeft body strings.nl).
    { unfold stripFrontmatter, t.
      rewrite strings_facts.HasPrefix_app. cbn [negb].
      change (strings.drop 3 ("---" +:+ ?x)) with x.
      rewrite <- (strings_facts.app_assoc strings.nl hdr).
      rewrite <- (strings_facts.app_assoc strings.nl hdr) in H.
      rewrite (strings_facts.Index_closing _ _ H).
      replace (String.length (strings.nl +:+ hdr) + 3)
        with (String.length ((strings.nl +:+ hdr) +:+ "---")).
      2:{ rewrite strings_facts.length_app. simpl. lia. }
      rewrite <- (strings_facts.app_assoc (strings.nl +:+ hdr) "---").
      rewrite strings_facts.drop_app_length.
      reflexivity. }
    split; [exact E|].
    intros Hb. rewrite E. by apply strings_facts.TrimLeft_no_prefix.
Qed.

(** The amended C5 at three templates: one without header, one with an
    opening line only, one with a complete header. *)
Lemma stripFrontmatter_spec_witness :
  stripFrontmatter "# Title" = "# Title"
  /\ stripFrontmatter ("---" +:+ strings.nl +:+ "name: x") =
       "---" +:+ strings.nl +:+ "name: x"
  /\ stripFrontmatter ("---" +:+ strings.nl +:+ ("name: x" +:+ strings.nl)
                       +:+ "---" +:+ strings.nl +:+ "# Title") = "# Title".
Proof.
  destruct stripFrontmatter_spec as (H1 & H2 & H3).
  split; [|split].
  - apply H1. reflexivity.
  - apply H2; reflexivity.
  - apply (H3 ("name: x" +:+ strings.nl) "# Title"); reflexivity.
Defined.

(** ** Introspection of a leaf command (C6) *)

(** C6: for the help text with the lines [Usage:], [prog sub [flags]]
    and, under [Flags:], [-t, --title string   Task title (required)],
    the usage is [sub [flags]], the text has no subcommands, and its one
    flag has the names [-t, --title], the type [string] and the
    description [Task title (required)]; this is also what the
    documentation of a program with that one command shows.  The same
    holds with a description line and cobra's help flag around. *)
Theorem leaf_help_introspection :
  parseUsage Sample.leafHelp = "sub [flags]"
  /\ parseSubcommands Sample.leafHelp = []
  /\ parseFlags Sample.leafHelp
     = ["`-t, --title` (string): Task title (required)"]
  /\ (exists f,
        flagPartsOf "  -t, --title string   Task title (required)" = Some f
        /\ flagPart f = "-t, --title"
        /\ typePart f = "string"
        /\ strings.Join (descParts f) " " = "Task title (required)")
  /\ parseUsage Sample.leafHelpFull = "sub [flags]"
  /\ parseFlags Sample.leafHelpFull = parseFlags Sample.leafHelp
  /\ extractCommands Sample.progHelp "/src/dist/prog" "/skills/prog/bin/prog"
     = "### sub" +:+ strings.nl +:+ strings.nl
       +:+ "**Usage:** `/skills/prog/bin/prog sub [flags]`"
       +:+ strings.nl +:+ strings.nl
       +:+ "**Flags:**" +:+ strings.nl
       +:+ "- `-t, --title` (string): Task title (required)" +:+ strings.nl
       +:+ strings.nl.
Proof.
  repeat apply conj; try (vm_compute; reflexivity).
  eexists. repeat apply conj; vm_compute; reflexivity.
Qed.

(** ** The environment file (C8) *)

Section EnvFile.

Variable filepath_Join : list string -> string.
Variable exec_CombinedOutput : string -> list string -> option string.
Variable GetSkillDescription : Manifest.t -> string.

Local Abbreviation deploySkill :=
  (deploySkill filepath_Join exec_CombinedOutput GetSkillDescription).
Local Abbreviation getDeployPath := (getDeployPath filepath_Join).

(** The loop of [generateEnvFile] writes the lines of the configured
    variables, in the order of the manifest. *)
Lemma envLines_spec (cv : gmap string string) (vars : list Var.t) :
  envLines cv vars = spec_envFile cv vars.
Proof.
  unfold spec_envFile.
  induction vars as [|v vars IH]; [done|].
  cbn [envLines]. rewrite filter_cons.
  destruct (decide (spec_configured cv v = true)) as [Hc|Hc];
    unfold spec_configured in Hc;
    destruct (cv !! Var.Name v) as [value|] eqn:E; simpl in Hc.
  - destruct (String.eqb value "") eqn:Ev; [done|].
    cbn [negb foldr].
    unfold spec_envLine at 1. rewrite E. cbn [default].
    rewrite IH. by rewrite !strings_facts.app_assoc.
  - done.
  - destruct (String.eqb value "") eqn:Ev; [exact IH|done].
  - exact IH.
Qed.

(** C8, as the specification states it, at a skill without variables:
    the file is not the empty sequence of [KEY=VALUE] lines, it holds a
    comment line. *)
Lemma env_file_has_comment_line :
  generateEnvFile Sample.start Sample.clock
  = "# Auto-generated environment file" +:+ strings.nl
  /\ generateEnvFile Sample.start Sample.clock
     <> spec_envFile (configValues Sample.start) (Manifest.Variables Sample.clock).
Proof. split; [vm_compute; reflexivity|vm_compute; discriminate]. Qed.

(** C8, amended: the environment file is the comment line
    [# Auto-generated environment file] followed by one [NAME=value]
    line for each variable of the manifest whose configured value is not
    empty, in the order of the manifest; and a deploy whose binary was
    read and written without error then writes exactly this text to
    [.env] in the [bin] directory, asking for permission bits 0600. *)
Theorem env_file_spec (w : os.World) (st : os.state w) (m : Model)
    (s : Manifest.t) (binaryData : string) (st' : os.state w) :
  let dstBinDir := filepath_Join [getDeployPath m; "bin"] in
  let srcBinary :=
    filepath_Join [filepath_Join [projectRoot m; "dist"]; binaryNameOf s] in
  let dstBinary := filepath_Join [dstBinDir; binaryNameOf s] in
  let st1 := os.mkdirAll w dstBinDir 493 st in
  selectedSkill m = Some s ->
  getDeployPath m <> "" ->
  os.readFile w srcBinary st1 = os.Ok binaryData ->
  os.writeFile w dstBinary binaryData 493 (os.remove w dstBinary st1)
    = (None, st') ->
  generateEnvFile m s
    = "# Auto-generated environment file" +:+ strings.nl
      +:+ spec_envFile (configValues m) (Manifest.Variables s)
  /\ exists rest,
       (os.run w (deploySkill m) st).2
       = ([os.EvMkdirAll dstBinDir 493;
          os.EvReadFile srcBinary (os.Ok binaryData);
          os.EvRemove dstBinary;
          os.EvWriteFile dstBinary binaryData 493 None;
          os.EvWriteFile (filepath_Join [dstBinDir; ".env"])
            (generateEnvFile m s) 384
            (os.writeFile w (filepath_Join [dstBinDir; ".env"])
               (generateEnvFile m s) 384 st').1]
          ++ rest)%list.
Proof.
  intros dstBinDir srcBinary dstBinary st1 Hs Hp Hr Hw.
  split.
  { unfold generateEnvFile. by rewrite envLines_spec. }
  unfold deploySkill. rewrite Hs.
  destruct (String.eqb_spec (getDeployPath m) "") as [E|_]; [done|].
  cbn [os.run].
  fold dstBinDir. fold srcBinary. fold dstBinary. fold st1.
  rewrite Hr. cbn [os.run]. rewrite Hw.
  destruct (os.writeFile w (filepath_Join [dstBinDir; ".env"])
              (generateEnvFile m s) 384 st') as [r st2] eqn:Hw2.
  cbn [os.run]. rewrite Hw2.
  match goal with
  | |- context [os.run w ?p st2] => destruct (os.run w p st2) as [[a s3] tr]
  end.
  cbn. eexists. reflexivity.
Qed.

End EnvFile.

(** The amended C8 for the sample skill deployed into an empty file
    system that holds the built binary. *)
Lemma env_file_spec_witness :
  let m := Sample.confirming in
  let fs : os.state (os.memWorld []) := {[ "/src/dist/tasks" := ("ELF", 493%N) ]} in
  generateEnvFile m Sample.tasks
  = "# Auto-generated environment file" +:+ strings.nl
    +:+ "API_TOKEN=s3cr3t-token-42" +:+ strings.nl
  /\ (os.run (os.memWorld [])
        (deploySkill Sample.join Sample.progHelp Sample.description m) fs).2 !! 4
     = Some (os.EvWriteFile "/home/u/skills/tasks/bin/.env"
               (generateEnvFile m Sample.tasks) 384 None).
Proof.
  intros m fs.
  destruct (env_file_spec Sample.join Sample.progHelp Sample.description
              (os.memWorld []) fs m Sample.tasks "ELF"
              (<[ "/home/u/skills/tasks/bin/tasks" := ("ELF", 493%N) ]> fs))
    as [H1 [rest H2]].
  - vm_compute; reflexivity.
  - vm_compute; discriminate.
  - vm_compute; reflexivity.
  - vm_compute; reflexivity.
  - split.
    + rewrite H1. vm_compute; reflexivity.
    + rewrite H2. vm_compute; reflexivity.
Defined.

(** ** Rendering the documentation (C4) and failures of the help runs (C7) *)

Section Docs.

Variable filepath_Join : list string -> string.
Variable exec_CombinedOutput : string -> list string -> option string.
Variable GetSkillDescription : Manifest.t -> string.

Local Abbreviation generateSkillDocs :=
  (generateSkillDocs filepath_Join exec_CombinedOutput GetSkillDescription).
Local Abbreviation renderSkillDocs :=
  (renderSkillDocs filepath_Join exec_CombinedOutput GetSkillDescription).
Local Abbreviation extractCommands := (extractCommands exec_CombinedOutput).
Local Abbreviation commandDoc := (commandDoc exec_CombinedOutput).
Local Abbreviation subCommandDoc := (subCommandDoc exec_CombinedOutput).
Local Abbreviation runHelp := (runHelp exec_CombinedOutput).
Local Abbreviation templatePathOf := (templatePathOf filepath_Join).
Local Abbreviation outputPathOf := (outputPathOf filepath_Join).

(** What [generateSkillDocs] does in any world: it reads the template,
    writes the rendered text, and returns the answer of that write. *)
Lemma run_generateSkillDocs (w : os.World) (st : os.state w) (m : Model)
    (s : Manifest.t) :
  selectedSkill m = Some s ->
  let templateData := os.readFile w (templatePathOf s) st in
  let content := renderSkillDocs m s templateData in
  let written := os.writeFile w (outputPathOf m) content 420 st in
  os.run w (generateSkillDocs m) st
  = (written.1, written.2,
     [os.EvReadFile (templatePathOf s) templateData;
      os.EvWriteFile (outputPathOf m) content 420 written.1]).
Proof.
  intros Hs templateData content written.
  unfold generateSkillDocs. rewrite Hs. cbn [os.run].
  fold templateData. fold content. fold written.
  by destruct written.
Qed.

(** C4: rendering twice with the same template, manifest, configuration
    map, deploy path and help texts gives the same bytes: in any two
    worlds and states in which reading the template answers the same,
    the two runs write one file each, at the same path, with identical
    contents; the contents are the header built from the manifest
    followed by the template with its own header stripped and its
    placeholders replaced. *)
Theorem render_twice_identical (w1 w2 : os.World) (st1 : os.state w1)
    (st2 : os.state w2) (m : Model) (s : Manifest.t) :
  selectedSkill m = Some s ->
  os.readFile w1 (templatePathOf s) st1 = os.readFile w2 (templatePathOf s) st2 ->
  os.writes (os.run w1 (generateSkillDocs m) st1).2
  = os.writes (os.run w2 (generateSkillDocs m) st2).2
  /\ os.writes (os.run w1 (generateSkillDocs m) st1).2
     = [(outputPathOf m,
         renderSkillDocs m s (os.readFile w1 (templatePathOf s) st1), 420%N)]
  /\ forall data,
       os.readFile w1 (templatePathOf s) st1 = os.Ok data ->
       renderSkillDocs m s (os.readFile w1 (templatePathOf s) st1)
       = generateFrontmatter GetSkillDescription s
         +:+ replacePlaceholders filepath_Join exec_CombinedOutput m s
               (stripFrontmatter data).
Proof.
  intros Hs Hr.
  rewrite !(run_generateSkillDocs _ _ _ _ Hs). cbn [snd os.writes omap].
  rewrite Hr. repeat split.
  intros data Hd. rewrite Hd. reflexivity.
Qed.



End Docs.

(** C4 on the sample skill: two deploys into file systems that hold the
    same template, the second with a documentation file left from an
    earlier deploy. *)
Lemma render_twice_identical_witness :
  let template :=
    "---" +:+ strings.nl +:+ "name: old" +:+ strings.nl +:+ "---" +:+ strings.nl
    +:+ "Binary in {{SKILL_PATH}}" +:+ strings.nl +:+ "{{COMMANDS}}" in
  let fs1 : os.state (os.memWorld []) :=
    {[ "/src/skills/tasks/SKILL.template.md" := (template, 420%N) ]} in
  let fs2 : os.state (os.memWorld []) :=
    <[ "/home/u/skills/tasks/SKILL.md" := ("stale", 420%N) ]> fs1 in
  let generate :=
    generateSkillDocs Sample.join Sample.progHelp Sample.description
      Sample.confirming in
  os.writes (os.run (os.memWorld []) generate fs1).2
  = os.writes (os.run (os.memWorld []) generate fs2).2.
Proof.
  intros template fs1 fs2 generate.
  apply (render_twice_identical Sample.join Sample.progHelp Sample.description
           (os.memWorld []) (os.memWorld []) fs1 fs2
           Sample.confirming Sample.tasks).
  - vm_compute; reflexivity.
  - vm_compute; reflexivity.
Defined.


(** ** The wizard: helpers of [Update] *)

Lemma index_Some {A : Type} (l : list A) (i : Z) (x : A) :
  index l i = Some x <->
  (0 <= i < Z.of_nat (length l))%Z /\ l !! Z.to_nat i = Some x.
Proof.
  unfold index.
  destruct (Z.leb_spec 0 i), (Z.ltb_spec i (Z.of_nat (length l)));
    cbn [andb]; (split; [intros H'|intros [Hr H']]); try done; try lia.
Qed.

Lemma index_in_range {A : Type} (l : list A) (i : Z) :
  (0 <= i < Z.of_nat (length l))%Z -> is_Some (index l i).
Proof.
  intros H. destruct (lookup_lt_is_Some_2 l (Z.to_nat i)) as [x Hx]; [lia|].
  exists x. by apply index_Some.
Qed.

Lemma index_None {A : Type} (l : list A) (i : Z) :
  index l i = None <-> ~ (0 <= i < Z.of_nat (length l))%Z.
Proof.
  split.
  - intros H Hr. destruct (index_in_range l i Hr) as [x Hx]. congruence.
  - intros H. destruct (index l i) as [x|] eqn:E; [|done].
    apply index_Some in E. tauto.
Qed.

Lemma modifyAt_Some {A : Type} (f : A -> A) (l l' : list A) (i : Z) :
  modifyAt f l i = Some l' ->
  (0 <= i < Z.of_nat (length l))%Z /\ length l' = length l.
Proof.
  unfold modifyAt. destruct (index l i) as [x|] eqn:E; [|done].
  cbn. intros [= <-]. apply index_Some in E as [? _].
  by rewrite length_insert.
Qed.

Lemma modifyAt_in_range {A : Type} (f : A -> A) (l : list A) (i : Z) :
  (0 <= i < Z.of_nat (length l))%Z -> is_Some (modifyAt f l i).
Proof.
  intros H. destruct (index_in_range l i H) as [x Hx].
  unfold modifyAt. rewrite Hx. by eexists.
Qed.

Lemma focusFirst_length (l : list textinput.Model) :
  length (focusFirst l) = length l.
Proof.
  unfold focusFirst. destruct l as [|t l]; cbn; [done|].
  by rewrite length_fmap.
Qed.

Lemma focusFirst_Value (l : list textinput.Model) :
  textinput.Value <$> focusFirst l = textinput.Value <$> l.
Proof.
  unfold focusFirst. destruct l as [|t l]; [done|]. cbn. f_equal.
  rewrite <- list_fmap_compose. by apply list_fmap_ext.
Qed.

(** [tab] panics exactly when there is no input or the focus is out of
    range; otherwise the focus moves within range. *)
Lemma focusNext_Some (inputs inputs' : list textinput.Model) (focus focus' : Z) :
  focusNext inputs focus = Some (inputs', focus') ->
  length inputs' = length inputs
  /\ (0 <= focus < Z.of_nat (length inputs))%Z
  /\ (0 <= focus' < Z.of_nat (length inputs))%Z.
Proof.
  unfold focusNext.
  destruct (modifyAt textinput.Blur inputs focus) as [l1|] eqn:E1; [|done].
  cbn. apply modifyAt_Some in E1 as [Hf Hl1].
  destruct (Z.eqb_spec (Z.of_nat (length l1)) 0) as [|Hn]; [done|].
  destruct (modifyAt textinput.Focus l1 _) as [l2|] eqn:E2; [|done].
  cbn. intros [= <- <-]. apply modifyAt_Some in E2 as [Hf2 Hl2].
  rewrite Hl1 in *. repeat split; try lia.
Qed.

Lemma focusNext_None (inputs : list textinput.Model) (focus : Z) :
  focusNext inputs focus = None <->
  ~ (0 <= focus < Z.of_nat (length inputs))%Z.
Proof.
  split.
  - intros H Hr. unfold focusNext in H.
    destruct (modifyAt_in_range textinput.Blur inputs focus Hr) as [l1 E1].
    rewrite E1 in H. cbn in H.
    apply modifyAt_Some in E1 as [_ Hl1].
    destruct (Z.eqb_spec (Z.of_nat (length l1)) 0) as [|Hn]; [lia|].
    destruct (modifyAt_in_range textinput.Focus l1
                (Z.rem (focus + 1) (Z.of_nat (length l1)))) as [l2 E2].
    { pose proof (Z.rem_bound_pos (focus + 1) (Z.of_nat (length l1))). lia. }
    by rewrite E2 in H.
  - intros H. unfold focusNext.
    destruct (modifyAt textinput.Blur inputs focus) as [l1|] eqn:E1; [|done].
    apply modifyAt_Some in E1. tauto.
Qed.

Lemma focusPrev_Some (inputs inputs' : list textinput.Model) (focus focus' : Z) :
  focusPrev inputs focus = Some (inputs', focus') ->
  length inputs' = length inputs
  /\ (0 <= focus < Z.of_nat (length inputs))%Z
  /\ (0 <= focus' < Z.of_nat (length inputs))%Z.
Proof.
  unfold focusPrev.
  destruct (modifyAt textinput.Blur inputs focus) as [l1|] eqn:E1; [|done].
  cbn. apply modifyAt_Some in E1 as [Hf Hl1].
  destruct (modifyAt textinput.Focus l1 _) as [l2|] eqn:E2; [|done].
  cbn. intros [= <- <-]. apply modifyAt_Some in E2 as [Hf2 Hl2].
  rewrite Hl1 in *. repeat split; try lia.
Qed.

Lemma focusPrev_None (inputs : list textinput.Model) (focus : Z) :
  focusPrev inputs focus = None <->
  ~ (0 <= focus < Z.of_nat (length inputs))%Z.
Proof.
  split.
  - intros H Hr. unfold focusPrev in H.
    destruct (modifyAt_in_range textinput.Blur inputs focus Hr) as [l1 E1].
    rewrite E1 in H. cbn in H.
    apply modifyAt_Some in E1 as [_ Hl1].
    destruct (modifyAt_in_range textinput.Focus l1
                (if (focus - 1 <? 0)%Z then (Z.of_nat (length l1) - 1)%Z
                 else (focus - 1)%Z)) as [l2 E2].
    { destruct (Z.ltb_spec (focus - 1) 0); lia. }
    by rewrite E2 in H.
  - intros H. unfold focusPrev.
    destruct (modifyAt textinput.Blur inputs focus) as [l1|] eqn:E1; [|done].
    apply modifyAt_Some in E1. tauto.
Qed.

(** The loop of [validateConfigInputs] finds the first required variable
    whose input is empty, when there is an input for each variable. *)
Lemma validateLoop_spec (inputs : list textinput.Model) (i : nat)
    (vars : list Var.t) :
  length inputs = i + length vars ->
  validateLoop inputs i vars
  = Some ((fun v => Var.Label v +:+ " is required")
            <$> spec_firstMissing vars (drop i inputs)).
Proof.
  revert i. induction vars as [|v vars IH]; intros i Hl.
  - by destruct (drop i inputs).
  - cbn [length] in Hl.
    destruct (lookup_lt_is_Some_2 inputs i) as [input Hi]; [lia|].
    rewrite (drop_S _ _ _ Hi). cbn [validateLoop spec_firstMissing].
    rewrite Hi. cbn [mbind option_bind].
    destruct (Var.Required v); cbn [andb].
    + destruct (String.eqb (textinput.Value input) ""); [done|].
      apply IH. lia.
    + apply IH. lia.
Qed.

(** The loop of [saveConfigInputs] stores every input under the name of
    its variable. *)
Lemma saveLoop_spec (inputs : list textinput.Model) (i : nat)
    (vars : list Var.t) (cv : gmap string string) :
  length inputs = i + length vars ->
  saveLoop inputs i vars cv = Some (spec_persist vars (drop i inputs) cv).
Proof.
  revert i cv. induction vars as [|v vars IH]; intros i cv Hl.
  - by destruct (drop i inputs).
  - cbn [length] in Hl.
    destruct (lookup_lt_is_Some_2 inputs i) as [input Hi]; [lia|].
    rewrite (drop_S _ _ _ Hi). cbn [saveLoop spec_persist].
    rewrite Hi. cbn [mbind option_bind].
    apply IH. lia.
Qed.

(** No required variable is missing exactly when none has an empty
    input. *)
Lemma spec_firstMissing_None (vars : list Var.t) (inputs : list textinput.Model) :
  length inputs = length vars ->
  spec_firstMissing vars inputs = None <->
  ~ exists i v input,
      vars !! i = Some v /\ inputs !! i = Some input
      /\ Var.Required v = true /\ textinput.Value input = "".
Proof.
  revert inputs. induction vars as [|v vars IH]; intros [|input inputs] Hl;
    try done.
  - split; [|done]. intros _ (i & v & inp & H & _). by destruct i.
  - cbn [spec_firstMissing].
    destruct (Var.Required v && String.eqb (textinput.Value input) "") eqn:E.
    + split; [done|]. intros H. exfalso. apply H.
      apply andb_true_iff in E as [E1 E2]. apply String.eqb_eq in E2.
      by exists 0, v, input.
    + rewrite IH by (cbn in Hl; lia). split.
      * intros H (i & v' & inp & H1 & H2 & H3 & H4). destruct i as [|i].
        -- cbn in H1, H2. simplify_eq.
           rewrite H3 in E. rewrite H4 in E. done.
        -- apply H. by exists i, v', inp.
      * intros H (i & v' & inp & H1). apply H. by exists (S i), v', inp.
Qed.

(** The variable found is a required one with an empty input. *)
Lemma spec_firstMissing_Some (vars : list Var.t) (inputs : list textinput.Model)
    (v : Var.t) :
  spec_firstMissing vars inputs = Some v ->
  exists i input,
    vars !! i = Some v /\ inputs !! i = Some input
    /\ Var.Required v = true /\ textinput.Value input = ""
    /\ forall j v' input',
         j < i -> vars !! j = Some v' -> inputs !! j = Some input' ->
         Var.Required v' = true -> textinput.Value input' <> "".
Proof.
  revert inputs. induction vars as [|v0 vars IH]; intros [|input inputs];
    try done.
  cbn [spec_firstMissing].
  destruct (Var.Required v0 && String.eqb (textinput.Value input) "") eqn:E.
  - intros [= ->]. apply andb_true_iff in E as [E1 E2].
    apply String.eqb_eq in E2. exists 0, input. repeat split; try done.
    intros; lia.
  - intros H. destruct (IH _ H) as (i & inp & H1 & H2 & H3 & H4 & H5).
    exists (S i), inp. repeat split; try done.
    intros [|j] v' input' Hj Hv Hi Hr Hval.
    + cbn in Hv, Hi. simplify_eq. by rewrite Hr, Hval in E.
    + apply (H5 j v' input'); try done. lia.
Qed.

(** A value stored by [spec_persist] is read back under its name unless
    a later variable has the same name; names outside the manifest keep
    what the map had. *)
Lemma spec_persist_lookup (vars : list Var.t) (inputs : list textinput.Model)
    (cv : gmap string string) (i : nat) (v : Var.t) (input : textinput.Model) :
  vars !! i = Some v -> inputs !! i = Some input ->
  (forall j v', i < j -> vars !! j = Some v' -> Var.Name v' <> Var.Name v) ->
  length inputs = length vars ->
  spec_persist vars inputs cv !! Var.Name v = Some (textinput.Value input).
Proof.
  revert inputs cv i.
  induction vars as [|v0 vars IH]; intros [|input0 inputs] cv i Hv Hi Hlast Hl;
    try done.
  cbn [spec_persist]. destruct i as [|i].
  - cbn in Hv, Hi. simplify_eq. clear IH.
    assert (G : forall vs ins (c : gmap string string),
               (forall j v', vs !! j = Some v' -> Var.Name v' <> Var.Name v) ->
               spec_persist vs ins c !! Var.Name v = c !! Var.Name v).
    { induction vs as [|a vs IHv]; intros [|b ins] c Hn; try done.
      cbn [spec_persist]. rewrite IHv.
      - apply lookup_insert_ne. apply (Hn 0 a). done.
      - intros j v' Hj. apply (Hn (S j) v'). done. }
    rewrite G.
    + apply lookup_insert_eq.
    + intros j v' Hj. apply (Hlast (S j) v'); [lia|done].
  - cbn in Hv, Hi. apply (IH inputs _ i); try done.
    + intros j v' Hj Hv'. apply (Hlast (S j) v'); [lia|done].
    + cbn in Hl. lia.
Qed.

Lemma spec_persist_other (vars : list Var.t) (inputs : list textinput.Model)
    (cv : gmap string string) (k : string) :
  (forall v, v ∈ vars -> Var.Name v <> k) ->
  spec_persist vars inputs cv !! k = cv !! k.
Proof.
  revert inputs cv. induction vars as [|a vs IH]; intros [|b ins] c Hn; try done.
  cbn [spec_persist]. rewrite IH.
  - apply lookup_insert_ne. apply Hn. by left.
  - intros v Hv. apply Hn. by right.
Qed.

(** Nothing is ever taken out of the map. *)
Lemma spec_persist_keeps (vars : list Var.t) (inputs : list textinput.Model)
    (cv : gmap string string) (k : string) :
  is_Some (cv !! k) -> is_Some (spec_persist vars inputs cv !! k).
Proof.
  revert inputs cv. induction vars as [|a vs IH]; intros [|b ins] c Hk; try done.
  cbn [spec_persist]. apply IH.
  destruct (decide (Var.Name a = k)) as [->|Hne].
  - rewrite lookup_insert_eq. by eexists.
  - by rewrite lookup_insert_ne.
Qed.


(** ** The wizard: the shape of reachable states *)

Section Wizard.

Variable filepath_Join : list string -> string.
Variable textinput_clip : Z -> string -> string.
Variable textinput_Update : textinput.Model -> Msg -> textinput.Model.

Local Abbreviation Update :=
  (Update filepath_Join textinput_clip textinput_Update).
Local Abbreviation getDeployPath := (getDeployPath filepath_Join).
Local Abbreviation reachable :=
  (reachable filepath_Join textinput_clip textinput_Update).
Local Abbreviation step :=
  (step filepath_Join textinput_clip textinput_Update).
Local Abbreviation setupInputsFromManifest :=
  (setupInputsFromManifest textinput_clip).
Local Abbreviation setupDeployInputs := (setupDeployInputs textinput_clip).
Local Abbreviation inputForVariable := (inputForVariable textinput_clip).
Local Abbreviation skillExists := (skillExists filepath_Join).
Local Abbreviation handleKeyPress := (handleKeyPress filepath_Join textinput_clip).
Local Abbreviation handleSkillListView := (handleSkillListView textinput_clip).
Local Abbreviation handleConfirmView := (handleConfirmView filepath_Join).
Local Abbreviation configViewKey :=
  (configViewKey textinput_clip textinput_Update).
Local Abbreviation deployViewKey := (deployViewKey textinput_Update).

Lemma NewModel_wellFormed root ver discovered :
  wellFormed (NewModel root ver discovered).
Proof.
  destruct discovered as [[ms errs] [e|]]; split; cbn; try done; lia.
Qed.

Lemma validateConfigInputs_Some (m m' : Model) (ok : bool) :
  validateConfigInputs m = Some (m', ok) ->
  exists e, m' = set_errorMsg e m.
Proof.
  unfold validateConfigInputs. destruct (selectedSkill m) as [s|].
  - destruct (validateLoop _ _ _) as [[e|]|]; cbn; intros [= <- <-]; by eexists.
  - intros [= <- <-]. by eexists.
Qed.

Lemma saveConfigInputs_Some (m m' : Model) :
  saveConfigInputs m = Some m' -> exists cv, m' = set_configValues cv m.
Proof.
  unfold saveConfigInputs. destruct (selectedSkill m) as [s|].
  - destruct (saveLoop _ _ _ _) as [cv|]; cbn; intros [= <-]. by eexists.
  - intros [= <-]. exists (configValues m). by destruct m.
Qed.

Lemma validateDeployInputs_Some (m m' : Model) (ok : bool) :
  validateDeployInputs m = Some (m', ok) ->
  (exists e, m' = set_errorMsg e m)
  /\ (ok = true ->
      exists a b, index (deployInputs m) 0 = Some a
                  /\ index (deployInputs m) 1 = Some b
                  /\ textinput.Value a <> "" /\ textinput.Value b <> "").
Proof.
  unfold validateDeployInputs.
  destruct (index (deployInputs m) 0) as [a|] eqn:Ea; [|done]. cbn.
  destruct (String.eqb_spec (textinput.Value a) "") as [|Ha].
  { intros [= <- <-]. split; [by eexists|done]. }
  destruct (index (deployInputs m) 1) as [b|] eqn:Eb; [|done]. cbn.
  destruct (String.eqb_spec (textinput.Value b) "") as [|Hb].
  { intros [= <- <-]. split; [by eexists|done]. }
  intros [= <- <-]. split; [by eexists|]. intros _. by exists a, b.
Qed.

Lemma setupDeployInputs_facts (m : Model) :
  exists a b,
    setupDeployInputs m
    = set_deployInputs [textinput.Focus (textinput.Blur a); textinput.Blur b]
        (set_deployFocus 0
           (set_deployLabels ["Skills Folder"; "Skill Name"]
              (set_deployInputs [a; b] m))).
Proof.
  unfold setupDeployInputs. cbn. do 2 eexists. reflexivity.
Qed.

Lemma setupInputsFromManifest_Some (m : Model) (s : Manifest.t) :
  selectedSkill m = Some s ->
  setupInputsFromManifest m
  = set_configInputs
      (focusFirst (inputForVariable (configValues m) <$> Manifest.Variables s))
      (set_configFocus 0
         (set_configLabels (Var.Label <$> Manifest.Variables s)
            (set_configInputs
               (inputForVariable (configValues m) <$> Manifest.Variables s) m))).
Proof. intros H. unfold setupInputsFromManifest. by rewrite H. Qed.

Ltac wf_fields H :=
  destruct H as [Hcur [Hf0 Hf1] Hin Hsel Hdep Htar].

(** Each handler keeps the shape. *)
Lemma configViewKey_wellFormed m key m' c :
  currentView m = ViewConfig ->
  wellFormed m -> configViewKey m key = Some (m', c) -> wellFormed m'.
Proof.
  intros Hv Hwf H. wf_fields Hwf. unfold configViewKey in H.
  rewrite Hv in *. cbn in Hsel, Hdep, Htar.
  destruct (String.eqb key "esc").
  { simplify_eq. by split. }
  destruct (keyIn key ["tab"; "down"]).
  { destruct (focusNext _ _) as [[inputs focus]|] eqn:E; [|done].
    cbn in H. simplify_eq. apply focusNext_Some in E as (E1 & E2 & E3).
    split; cbn; rewrite ?Hv; try done; try lia.
    intros s Hs. rewrite E1. by apply Hin. }
  destruct (keyIn key ["shift+tab"; "up"]).
  { destruct (focusPrev _ _) as [[inputs focus]|] eqn:E; [|done].
    cbn in H. simplify_eq. apply focusPrev_Some in E as (E1 & E2 & E3).
    split; cbn; rewrite ?Hv; try done; try lia.
    intros s Hs. rewrite E1. by apply Hin. }
  destruct (keyIn key ["ctrl+d"; "enter"]).
  { destruct (validateConfigInputs m) as [[m1 ok]|] eqn:E; [|done].
    cbn in H. apply validateConfigInputs_Some in E as [e ->].
    destruct ok.
    - destruct (saveConfigInputs _) as [m2|] eqn:E2; [|done].
      cbn in H. apply saveConfigInputs_Some in E2 as [cv ->].
      destruct (setupDeployInputs_facts
                  (set_configValues cv (set_errorMsg e m))) as (a & b & Hsd).
      simplify_eq. rewrite Hsd.
      split; cbn; rewrite ?Hv; try done; try lia.
    - simplify_eq. split; cbn; rewrite ?Hv; try done. }
  unfold updateConfigInputs in H. simplify_eq.
  split; cbn; rewrite ?Hv, ?length_fmap; try done.
Qed.

Lemma deployViewKey_wellFormed m key m' c :
  currentView m = ViewDeploy ->
  wellFormed m -> deployViewKey m key = Some (m', c) -> wellFormed m'.
Proof.
  intros Hv2 Hwf H. wf_fields Hwf. unfold deployViewKey in H.
  rewrite Hv2 in *. cbn in Hsel, Hdep, Htar.
  destruct Hdep as [Hd1 Hd2]; [done|].
  destruct (String.eqb key "esc").
  { simplify_eq. split; cbn; rewrite ?Hv2, ?focusFirst_length; try done.
    lia. }
  destruct (keyIn key ["tab"; "down"]).
  { destruct (focusNext _ _) as [[inputs focus]|] eqn:E; [|done].
    cbn in H. simplify_eq. apply focusNext_Some in E as (E1 & E2 & E3).
    split; cbn; rewrite ?Hv2, ?E1; try done; try lia. }
  destruct (keyIn key ["shift+tab"; "up"]).
  { destruct (focusPrev _ _) as [[inputs focus]|] eqn:E; [|done].
    cbn in H. simplify_eq. apply focusPrev_Some in E as (E1 & E2 & E3).
    split; cbn; rewrite ?Hv2, ?E1; try done; try lia. }
  destruct (keyIn key ["ctrl+d"; "enter"]).
  { destruct (validateDeployInputs m) as [[m1 ok]|] eqn:E; [|done].
    cbn in H. apply validateDeployInputs_Some in E as [[e ->] Hok].
    destruct ok.
    - destruct Hok as (a & b & Ha & Hb & Hna & Hnb); [done|].
      unfold saveDeployInputs in H. cbn in H. rewrite Ha, Hb in H.
      cbn in H. simplify_eq.
      split; cbn; rewrite ?Hv2; try done.
      intros _. split; [|done].
      apply index_Some in Ha as [_ Ha]. apply index_Some in Hb as [_ Hb].
      destruct (deployInputs m) as [|a' [|b' [|]]]; try done.
      simpl in Ha, Hb. by simplify_eq.
    - simplify_eq. split; cbn; rewrite ?Hv2; try done. }
  unfold updateDeployInputs in H. simplify_eq.
  split; cbn; rewrite ?Hv2, ?length_fmap; try done.
Qed.

Lemma handleSkillListView_wellFormed m key m' c :
  currentView m = ViewSkillList ->
  wellFormed m -> handleSkillListView m key = Some (m', c) -> wellFormed m'.
Proof.
  intros Hview Hwf H. wf_fields Hwf. unfold handleSkillListView in H.
  rewrite Hview in *. cbn in Hsel, Hdep, Htar.
  destruct (keyIn key ["q"; "esc"]).
  { simplify_eq. split; cbn; rewrite ?Hview; try done. }
  destruct (keyIn key ["up"; "k"]).
  { destruct (0 <? skillCursor m)%Z eqn:E; simplify_eq;
      split; cbn; rewrite ?Hview; try done. lia. }
  destruct (keyIn key ["down"; "j"]).
  { destruct (_ <? _)%Z eqn:E; simplify_eq;
      split; cbn; rewrite ?Hview; try done. lia. }
  destruct (String.eqb key "enter"); [|simplify_eq; by split; rewrite ?Hview].
  destruct (_ <? _)%Z.
  { destruct (index (manifests m) _) as [s|]; [|done].
    cbn -[setupInputsFromManifest] in H.
    rewrite (setupInputsFromManifest_Some _ s) in H by reflexivity.
    simplify_eq.
    split; cbn; rewrite ?focusFirst_length, ?length_fmap; try done.
    - lia.
    - by intros ? [= <-]. }
  destruct (_ <? _)%Z; [|simplify_eq; by split; rewrite ?Hview].
  destruct (index (skillErrors m) _) as [e|]; [|done]. cbn in H.
  simplify_eq. split; cbn; rewrite ?Hview; try done.
Qed.

Lemma handleConfirmView_wellFormed stat m key m' c :
  currentView m = ViewConfirm ->
  wellFormed m -> handleConfirmView stat m key = Some (m', c) -> wellFormed m'.
Proof.
  intros Hview Hwf H. wf_fields Hwf. unfold handleConfirmView in H.
  rewrite Hview in *. cbn in Hsel, Hdep, Htar.
  destruct Hdep as [Hd1 Hd2]; [done|].
  destruct (keyIn key ["esc"; "n"]).
  { simplify_eq. split; cbn; rewrite ?Hview, ?focusFirst_length; try done. }
  destruct (keyIn key ["enter"; "y"]); [|simplify_eq; by split; rewrite ?Hview].
  destruct (skillExists stat m) as [[|]|]; [| |done]; cbn in H;
    unfold beginBuild in H; simplify_eq.
  - split; cbn; rewrite ?Hview; try done.
  - split; cbn; rewrite ?Hview; try done.
Qed.

Lemma handleOverwriteView_wellFormed m key m' c :
  currentView m = ViewOverwrite ->
  wellFormed m -> handleOverwriteView m key = Some (m', c) -> wellFormed m'.
Proof.
  intros Hview Hwf H. wf_fields Hwf. unfold handleOverwriteView in H.
  rewrite Hview in *. cbn in Hsel, Hdep, Htar.
  destruct (keyIn key ["esc"; "n"]).
  { simplify_eq. split; cbn; rewrite ?Hview; try done. }
  destruct (String.eqb key "y"); unfold beginBuild in H; simplify_eq;
    split; cbn; rewrite ?Hview; try done.
Qed.

Lemma handleDoneView_wellFormed m key m' c :
  currentView m = ViewDone ->
  wellFormed m -> handleDoneView m key = Some (m', c) -> wellFormed m'.
Proof.
  intros Hview Hwf H. wf_fields Hwf. unfold handleDoneView in H.
  rewrite Hview in *. cbn in Hsel, Hdep, Htar.
  destruct (keyIn key ["enter"; "q"; "esc"]).
  { simplify_eq. split; cbn; rewrite ?Hview; try done. }
  destruct (String.eqb key "r"); simplify_eq;
    split; cbn; rewrite ?Hview; try done.
Qed.

(** [Update] keeps the shape. *)
Lemma Update_wellFormed stat m msg m' c :
  wellFormed m -> Update stat m msg = Some (m', c) -> wellFormed m'.
Proof.
  intros Hwf H. unfold Update in H.
  destruct msg as [key|w h|output [e|]|[e|]|tag].
  - destruct (String.eqb key "ctrl+c").
    { wf_fields Hwf. simplify_eq. by split. }
    destruct (decide (currentView m = ViewConfig)) as [Hv|Hv].
    { by apply (configViewKey_wellFormed m key m' c). }
    destruct (decide (currentView m = ViewDeploy)) as [Hv2|Hv2].
    { by apply (deployViewKey_wellFormed m key m' c). }
    unfold handleKeyPress in H.
    destruct (currentView m) eqn:Hview; try done.
    + by apply (handleSkillListView_wellFormed m key m' c).
    + by apply (handleConfirmView_wellFormed stat m key m' c).
    + by apply (handleOverwriteView_wellFormed m key m' c).
    + by simplify_eq.
    + by apply (handleDoneView_wellFormed m key m' c).
  - wf_fields Hwf. simplify_eq. by split.
  - wf_fields Hwf. simplify_eq. split; cbn; try done.
  - wf_fields Hwf. simplify_eq. split; cbn; try done.
    all: intros Hx; try (apply Hsel in Hx); try (apply Hdep in Hx);
      try (apply Htar in Hx); done.
  - wf_fields Hwf. simplify_eq. split; cbn; try done.
  - wf_fields Hwf. simplify_eq. split; cbn; try done.
  - by simplify_eq.
Qed.

(** Every reachable state has the shape. *)
Theorem reachable_wellFormed m : reachable m -> wellFormed m.
Proof.
  induction 1 as [root ver d|stat m msg m' c _ IH H].
  - apply NewModel_wellFormed.
  - by apply (Update_wellFormed stat m msg m' c).
Qed.

(** A run of the event loop stays within the reachable states. *)
Lemma feed_reachable stat msgs m m' :
  reachable m ->
  feed filepath_Join textinput_clip textinput_Update stat m msgs = Some m' ->
  reachable m'.
Proof.
  revert m. induction msgs as [|msg msgs IH]; intros m Hr H.
  - cbn in H. by simplify_eq.
  - cbn in H. destruct (Update stat m msg) as [[m1 c]|] eqn:E; [|done].
    cbn in H. apply (IH m1); [|done]. by eapply reachable_step.
Qed.


(** ** Advancing from the configure view (C1) *)

Lemma Update_configView stat m key :
  currentView m = ViewConfig -> key <> "ctrl+c" ->
  Update stat m (KeyMsg key) = configViewKey m key.
Proof.
  intros Hv Hk. unfold Update.
  destruct (String.eqb_spec key "ctrl+c") as [|_]; [done|].
  by destruct (decide (currentView m = ViewConfig)).
Qed.

Lemma configViewKey_advance m key :
  key = "ctrl+d" \/ key = "enter" ->
  configViewKey m key
  = '(m1, ok) ← validateConfigInputs m;
    if ok : bool then
      m2 ← saveConfigInputs m1;
      Some (set_currentView ViewDeploy (setupDeployInputs m2), Blink)
    else Some (m1, Blink).
Proof. intros [-> | ->]; reflexivity. Qed.

(** C1: in a reachable state of the configure view, with [s] the
    selected manifest, the advance key is rejected if and only if some
    required variable has an empty input.  On rejection nothing changes
    but the error message, which names the label of the first such
    variable, so the view stays; on acceptance the error message is
    cleared, the view is the deploy view, and the value of every input
    has been stored in the configuration map under the name of its
    variable, in the order of the manifest (a variable reads back its
    value unless a later variable of the manifest has the same name). *)
Theorem config_advance stat (m : Model) (s : Manifest.t) (key : string) :
  reachable m ->
  currentView m = ViewConfig ->
  selectedSkill m = Some s ->
  key = "ctrl+d" \/ key = "enter" ->
  let vars := Manifest.Variables s in
  let inputs := configInputs m in
  let missing :=
    exists i v input,
      vars !! i = Some v /\ inputs !! i = Some input
      /\ Var.Required v = true /\ textinput.Value input = "" in
  exists m',
    Update stat m (KeyMsg key) = Some (m', Blink)
    /\ (missing <-> currentView m' = ViewConfig)
    /\ (missing ->
        exists v, spec_firstMissing vars inputs = Some v
                  /\ v ∈ vars /\ Var.Required v = true
                  /\ m' = set_errorMsg (Var.Label v +:+ " is required") m)
    /\ (~ missing ->
        currentView m' = ViewDeploy
        /\ errorMsg m' = ""
        /\ configValues m' = spec_persist vars inputs (configValues m)
        /\ forall i v input,
             vars !! i = Some v -> inputs !! i = Some input ->
             (forall j v', i < j -> vars !! j = Some v' ->
                           Var.Name v' <> Var.Name v) ->
             configValues m' !! Var.Name v = Some (textinput.Value input)).
Proof.
  intros Hr Hv Hs Hk vars inputs missing.
  pose proof (reachable_wellFormed m Hr) as Hwf.
  pose proof (wf_inputs m Hwf s Hs) as Hlen. fold vars inputs in Hlen.
  rewrite Update_configView by (done || by destruct Hk as [-> | ->]).
  rewrite configViewKey_advance by done.
  unfold validateConfigInputs, saveConfigInputs. rewrite Hs.
  rewrite validateLoop_spec by (cbn; exact Hlen).
  rewrite drop_0. fold vars inputs.
  pose proof (spec_firstMissing_None vars inputs Hlen) as Hnone.
  fold missing in Hnone.
  destruct (spec_firstMissing vars inputs) as [v|] eqn:E.
  - assert (Hm : missing).
    { destruct (spec_firstMissing_Some _ _ _ E) as (i & input & H1 & H2 & H3 & H4 & _).
      by exists i, v, input. }
    cbn. eexists. split; [reflexivity|]. cbn. repeat split; try done.
    intros _. exists v. repeat split; try done.
    + destruct (spec_firstMissing_Some _ _ _ E) as (i & input & H1 & _).
      by eapply list_elem_of_lookup_2.
    + by destruct (spec_firstMissing_Some _ _ _ E) as (i & input & _ & _ & H3 & _).
  - assert (Hm : ~ missing) by by apply Hnone.
    cbn. rewrite Hs.
    rewrite saveLoop_spec by (cbn; exact Hlen).
    rewrite drop_0. cbn.
    destruct (setupDeployInputs_facts
                (set_configValues
                   (spec_persist (Manifest.Variables s) (configInputs m)
                      (configValues m))
                   (set_errorMsg "" m))) as (a & b & ->).
    eexists. split; [reflexivity|]. cbn. repeat split; try done.
    intros i v input H1 H2 H3. by eapply spec_persist_lookup.
Qed.

(** ** Affirming in the confirm view (C2) *)

Lemma Update_otherView stat m key :
  currentView m <> ViewConfig -> currentView m <> ViewDeploy ->
  key <> "ctrl+c" ->
  Update stat m (KeyMsg key) = handleKeyPress stat m key.
Proof.
  intros Hv1 Hv2 Hk. unfold Update.
  destruct (String.eqb_spec key "ctrl+c") as [|_]; [done|].
  destruct (decide (currentView m = ViewConfig)); [done|].
  by destruct (decide (currentView m = ViewDeploy)).
Qed.

Lemma handleConfirmView_affirm stat m key :
  key = "enter" \/ key = "y" ->
  handleConfirmView stat m key
  = exists_ ← skillExists stat m;
    if exists_ : bool
    then Some (set_currentView ViewOverwrite m, CmdNil)
    else Some (beginBuild m).
Proof. intros [-> | ->]; reflexivity. Qed.

(** C2: in a reachable state of the confirm view, the deploy path is
    [filepath.Join] of the values of the two deploy inputs (the skills
    folder and the skill name); and, [filepath.Join] giving a non-empty
    path for a non-empty first element, affirming moves to the overwrite
    view if and only if [os.Stat] finds [bin/<binary-name>] under that
    path, the binary name being the manifest's build binary or, when
    that is empty, the manifest's name; otherwise it moves to the
    building view and returns the build command for the new state. *)
Theorem confirm_affirm stat (m : Model) (key : string) :
  reachable m ->
  currentView m = ViewConfirm ->
  key = "enter" \/ key = "y" ->
  (forall a b, a <> "" -> filepath_Join [a; b] <> "") ->
  getDeployPath m = filepath_Join (textinput.Value <$> deployInputs m)
  /\ exists s,
       selectedSkill m = Some s
       /\ let binaryName :=
            if String.eqb (BuildConfig.Binary (Manifest.Build s)) ""
            then Manifest.Name s
            else BuildConfig.Binary (Manifest.Build s) in
          let binaryPath := filepath_Join [getDeployPath m; "bin"; binaryName] in
          exists m' c,
            Update stat m (KeyMsg key) = Some (m', c)
            /\ (currentView m' = ViewOverwrite <-> stat binaryPath = true)
            /\ (stat binaryPath = true ->
                m' = set_currentView ViewOverwrite m /\ c = CmdNil)
            /\ (stat binaryPath = false ->
                currentView m' = ViewBuilding
                /\ building m' = true
                /\ c = startBuildCmd m'
                /\ selectedSkill m' = Some s
                /\ configValues m' = configValues m
                /\ getDeployPath m' = getDeployPath m).
Proof.
  intros Hr Hv Hk Hjoin.
  pose proof (reachable_wellFormed m Hr) as Hwf.
  destruct (wf_target m Hwf) as (Hvals & Hne1 & Hne2); [by rewrite Hv|].
  destruct (wf_selected m Hwf) as [s Hs]; [by rewrite Hv|].
  split; [by rewrite Hvals|].
  exists s. split; [done|]. intros binaryName binaryPath.
  rewrite Update_otherView;
    [|by rewrite Hv|by rewrite Hv|by destruct Hk as [-> | ->]].
  unfold handleKeyPress. rewrite Hv.
  rewrite handleConfirmView_affirm by done.
  unfold skillExists. rewrite Hs.
  destruct (String.eqb_spec (getDeployPath m) "") as [E|_].
  { exfalso. by apply (Hjoin (skillsFolder m) (skillFolderName m)). }
  cbn [mbind option_bind]. unfold binaryNameOf.
  fold binaryName. fold binaryPath.
  destruct (stat binaryPath) eqn:Est.
  - do 2 eexists. split; [reflexivity|]. cbn. repeat split; try done.
  - do 2 eexists. split; [reflexivity|]. cbn. repeat split; try done.
Qed.

(** ** Totality of [Update] and unhandled messages (C3) *)

(** X14: a message without a case of its own leaves the state as it is. *)
Lemma unhandled_unchanged stat m msg :
  unhandled m msg = true -> Update stat m msg = Some (m, CmdNil).
Proof.
  destruct msg as [key| | | |tag]; try done. cbn [unhandled].
  intros [Hk H]%andb_true_iff.
  apply negb_true_iff, String.eqb_neq in Hk.
  destruct (currentView m) eqn:Hv; cbn in H; try done.
  all: rewrite Update_otherView by (done || by rewrite Hv).
  all: unfold handleKeyPress; rewrite Hv; try done.
  all: apply negb_true_iff in H.
  - unfold handleSkillListView. cbn in H.
    repeat (apply orb_false_iff in H as [? H]).
    unfold keyIn. cbn [existsb].
    repeat match goal with E : String.eqb _ _ = false |- _ => rewrite E; clear E end.
    done.
  - unfold handleConfirmView. cbn in H.
    repeat (apply orb_false_iff in H as [? H]).
    unfold keyIn. cbn [existsb].
    repeat match goal with E : String.eqb _ _ = false |- _ => rewrite E; clear E end.
    done.
  - unfold handleOverwriteView. cbn in H.
    repeat (apply orb_false_iff in H as [? H]).
    unfold keyIn. cbn [existsb].
    repeat match goal with E : String.eqb _ _ = false |- _ => rewrite E; clear E end.
    done.
  - unfold handleDoneView. cbn in H.
    repeat (apply orb_false_iff in H as [? H]).
    unfold keyIn. cbn [existsb].
    repeat match goal with E : String.eqb _ _ = false |- _ => rewrite E; clear E end.
    done.
Qed.

(** The focus keys of the configure view panic when there is no input:
    [m.configInputs[m.configFocus]] is out of range. *)
Lemma focus_keys_panic stat m key :
  currentView m = ViewConfig -> configInputs m = [] ->
  key ∈ ["tab"; "down"; "shift+tab"; "up"] ->
  Update stat m (KeyMsg key) = None.
Proof.
  intros Hv Hnil Hk.
  assert (Hf : forall f, focusNext (configInputs m) f = None
                         /\ focusPrev (configInputs m) f = None).
  { intros f. rewrite focusNext_None, focusPrev_None, Hnil. cbn. lia. }
  rewrite Update_configView;
    [|done|set_unfold; by destruct Hk as [->|[->|[->|[->|[]]]]]].
  unfold configViewKey.
  set_unfold. destruct Hk as [->|[->|[->|[->|[]]]]]; cbn;
    by rewrite ?(proj1 (Hf _)), ?(proj2 (Hf _)).
Qed.

(** In every other well-formed state [Update] returns. *)
Lemma Update_total stat m msg :
  wellFormed m ->
  (currentView m = ViewConfig -> configInputs m <> []) ->
  is_Some (Update stat m msg).
Proof.
  intros Hwf Hne. wf_fields Hwf.
  destruct msg as [key|w h|output [e|]|[e|]|tag]; try by eexists.
  unfold Update.
  destruct (String.eqb key "ctrl+c"); [by eexists|].
  destruct (decide (currentView m = ViewConfig)) as [Hv|Hv].
  { rewrite Hv in *. cbn in Hsel. destruct Hsel as [s Hs]; [done|].
    assert (Hrange : (0 <= configFocus m < Z.of_nat (length (configInputs m)))%Z).
    { destruct (configInputs m); [by destruct Hne|]. cbn in *. lia. }
    unfold configViewKey.
    destruct (String.eqb key "esc"); [by eexists|].
    destruct (keyIn key ["tab"; "down"]).
    { destruct (focusNext _ _) as [[??]|] eqn:E; [by eexists|].
      by apply focusNext_None in E. }
    destruct (keyIn key ["shift+tab"; "up"]).
    { destruct (focusPrev _ _) as [[??]|] eqn:E; [by eexists|].
      by apply focusPrev_None in E. }
    destruct (keyIn key ["ctrl+d"; "enter"]); [|by eexists].
    unfold validateConfigInputs, saveConfigInputs. rewrite Hs.
    rewrite validateLoop_spec by (cbn; by apply Hin).
    destruct (spec_firstMissing _ _); cbn; [by eexists|].
    rewrite Hs. rewrite saveLoop_spec by (cbn; by apply Hin).
    by eexists. }
  destruct (decide (currentView m = ViewDeploy)) as [Hv2|Hv2].
  { rewrite Hv2 in *. cbn in Hdep. destruct Hdep as [Hl Hf]; [done|].
    destruct (deployInputs m) as [|a [|b [|]]] eqn:Hd; try done.
    unfold deployViewKey.
    destruct (String.eqb key "esc"); [by eexists|].
    destruct (keyIn key ["tab"; "down"]).
    { destruct (focusNext _ _) as [[??]|] eqn:E; [by eexists|].
      rewrite Hd in E. apply focusNext_None in E. cbn in E. lia. }
    destruct (keyIn key ["shift+tab"; "up"]).
    { destruct (focusPrev _ _) as [[??]|] eqn:E; [by eexists|].
      rewrite Hd in E. apply focusPrev_None in E. cbn in E. lia. }
    destruct (keyIn key ["ctrl+d"; "enter"]); [|by eexists].
    unfold validateDeployInputs, saveDeployInputs. rewrite Hd.
    change (index [a; b] 0) with (Some a).
    change (index [a; b] 1) with (Some b). cbn.
    destruct (String.eqb (textinput.Value a) ""); [by eexists|].
    destruct (String.eqb (textinput.Value b) ""); [by eexists|].
    cbn. rewrite Hd.
    change (index [a; b] 0) with (Some a).
    change (index [a; b] 1) with (Some b). by eexists. }
  unfold handleKeyPress.
  destruct (currentView m) eqn:Hview; try done; try by eexists.
  - unfold handleSkillListView.
    destruct (keyIn key ["q"; "esc"]); [by eexists|].
    destruct (keyIn key ["up"; "k"]); [destruct (_ <? _)%Z; by eexists|].
    destruct (keyIn key ["down"; "j"]); [destruct (_ <? _)%Z; by eexists|].
    destruct (String.eqb key "enter"); [|by eexists].
    destruct (Z.ltb_spec (skillCursor m) (Z.of_nat (length (manifests m)))).
    { destruct (index_in_range (manifests m) (skillCursor m)) as [s Hs]; [lia|].
      rewrite Hs. by eexists. }
    destruct (Z.ltb_spec (skillCursor m)
                (Z.of_nat (length (manifests m))
                 + Z.of_nat (length (skillErrors m)))); [|by eexists].
    destruct (index_in_range (skillErrors m)
                (skillCursor m - Z.of_nat (length (manifests m)))) as [e He];
      [lia|].
    rewrite He. by eexists.
  - unfold handleConfirmView. cbn in Hsel.
    destruct Hsel as [s Hs]; [done|].
    destruct (keyIn key ["esc"; "n"]); [by eexists|].
    destruct (keyIn key ["enter"; "y"]); [|by eexists].
    unfold skillExists. rewrite Hs.
    destruct (String.eqb _ ""); cbn; [by eexists|].
    destruct (stat _); by eexists.
  - unfold handleOverwriteView.
    destruct (keyIn key ["esc"; "n"]); [by eexists|].
    destruct (String.eqb key "y"); by eexists.
  - unfold handleDoneView.
    destruct (keyIn key ["enter"; "q"; "esc"]); [by eexists|].
    destruct (String.eqb key "r"); by eexists.
Qed.

(** C3, at the state the wizard reaches when a skill without variables
    is selected: the state is reachable, it is in the configure view
    with no input, and each of the four focus keys makes [Update]
    panic. *)
Theorem focus_keys_panic_on_skill_without_variables stat :
  let start := NewModel "/src" "v1" ([Sample.clock], [], None) in
  exists m c,
    Update stat start (KeyMsg "enter") = Some (m, c)
    /\ reachable m
    /\ currentView m = ViewConfig
    /\ selectedSkill m = Some Sample.clock
    /\ configInputs m = []
    /\ Update stat m (KeyMsg "tab") = None
    /\ Update stat m (KeyMsg "down") = None
    /\ Update stat m (KeyMsg "shift+tab") = None
    /\ Update stat m (KeyMsg "up") = None.
Proof.
  intros start.
  assert (H : exists m c, Update stat start (KeyMsg "enter") = Some (m, c)
                          /\ currentView m = ViewConfig
                          /\ selectedSkill m = Some Sample.clock
                          /\ configInputs m = []).
  { do 2 eexists. split; [vm_compute; reflexivity|]. by cbn. }
  destruct H as (m & c & HU & Hv & Hs & Hnil).
  exists m, c. split; [done|]. split.
  { eapply reachable_step; [apply reachable_init|exact HU]. }
  repeat split; try done; apply focus_keys_panic; try done; set_solver.
Qed.

(** ** The configuration map over a session (C10) *)

Local Abbreviation quietStep :=
  (quietStep filepath_Join textinput_clip textinput_Update).
Local Abbreviation feedQuiet :=
  (feedQuiet filepath_Join textinput_clip textinput_Update).

Lemma saveLoop_result (inputs : list textinput.Model) (i : nat)
    (vars : list Var.t) (cv cv' : gmap string string) :
  saveLoop inputs i vars cv = Some cv' ->
  cv' = spec_persist vars (drop i inputs) cv.
Proof.
  revert i cv. induction vars as [|v vars IH]; intros i cv H.
  - cbn in H. simplify_eq. by destruct (drop i inputs).
  - cbn [saveLoop] in H.
    destruct (inputs !! i) as [input|] eqn:Hi; [|done].
    cbn [mbind option_bind] in H.
    rewrite (drop_S _ _ _ Hi). cbn [spec_persist]. by apply IH.
Qed.

Lemma keyIn_elem (key : string) (keys : list string) :
  keyIn key keys = true <-> key ∈ keys.
Proof.
  unfold keyIn. induction keys as [|k keys IH]; cbn.
  - split; [done|]. by intros ?%elem_of_nil.
  - rewrite orb_true_iff, IH, elem_of_cons.
    by rewrite String.eqb_eq.
Qed.

(** The only transition that writes to the map is the accepted advance
    of the configure view, which stores the inputs of the selected
    skill; every other transition leaves the map as it is. *)
Lemma Update_configValues stat m msg m' c :
  Update stat m msg = Some (m', c) ->
  configValues m' = configValues m
  \/ (isAdvance m msg = true
      /\ exists s, selectedSkill m = Some s
                   /\ currentView m' = ViewDeploy
                   /\ configValues m'
                      = spec_persist (Manifest.Variables s) (configInputs m)
                          (configValues m)).
Proof.
  intros H. unfold Update in H.
  destruct msg as [key|w h|output [e|]|[e|]|tag]; try (simplify_eq; by left).
  destruct (String.eqb key "ctrl+c"); [simplify_eq; by left|].
  destruct (decide (currentView m = ViewConfig)) as [Hv|Hv].
  { unfold configViewKey in H.
    destruct (String.eqb key "esc"); [simplify_eq; by left|].
    destruct (keyIn key ["tab"; "down"]).
    { destruct (focusNext _ _) as [[??]|]; [|done]. cbn in H.
      simplify_eq. by left. }
    destruct (keyIn key ["shift+tab"; "up"]).
    { destruct (focusPrev _ _) as [[??]|]; [|done]. cbn in H.
      simplify_eq. by left. }
    destruct (keyIn key ["ctrl+d"; "enter"]) eqn:Kadv;
      [|unfold updateConfigInputs in H; simplify_eq; by left].
    destruct (validateConfigInputs m) as [[m1 ok]|] eqn:E; [|done].
    cbn [mbind option_bind] in H.
    apply validateConfigInputs_Some in E as [e ->].
    destruct ok; [|simplify_eq; by left].
    unfold saveConfigInputs in H.
    change (selectedSkill (set_errorMsg e m)) with (selectedSkill m) in H.
    destruct (selectedSkill m) as [s|] eqn:Hs.
    - destruct (saveLoop _ _ _ _) as [cv|] eqn:E2; [|done].
      cbn [mbind option_bind] in H.
      destruct (setupDeployInputs_facts
                  (set_configValues cv (set_errorMsg e m))) as (a & b & Hsd).
      rewrite Hsd in H. simplify_eq. right. split.
      { unfold isAdvance. rewrite Kadv. by rewrite bool_decide_eq_true_2. }
      exists s. split; [done|]. split; [done|].
      apply saveLoop_result in E2. by rewrite drop_0 in E2.
    - cbn [mbind option_bind] in H.
      destruct (setupDeployInputs_facts (set_errorMsg e m)) as (a & b & Hsd).
      rewrite Hsd in H. simplify_eq. by left. }
  destruct (decide (currentView m = ViewDeploy)) as [Hv2|Hv2].
  { unfold deployViewKey in H.
    destruct (String.eqb key "esc"); [simplify_eq; by left|].
    destruct (keyIn key ["tab"; "down"]).
    { destruct (focusNext _ _) as [[??]|]; [|done]. cbn in H.
      simplify_eq. by left. }
    destruct (keyIn key ["shift+tab"; "up"]).
    { destruct (focusPrev _ _) as [[??]|]; [|done]. cbn in H.
      simplify_eq. by left. }
    destruct (keyIn key ["ctrl+d"; "enter"]);
      [|unfold updateDeployInputs in H; simplify_eq; by left].
    destruct (validateDeployInputs m) as [[m1 ok]|] eqn:E; [|done].
    cbn [mbind option_bind] in H.
    apply validateDeployInputs_Some in E as [[e ->] _].
    destruct ok; [|simplify_eq; by left].
    unfold saveDeployInputs in H.
    destruct (index _ 0); [|done]. destruct (index _ 1); [|done].
    cbn in H. simplify_eq. by left. }
  unfold handleKeyPress in H.
  destruct (currentView m) eqn:Hview; try done; try (simplify_eq; by left).
  - unfold handleSkillListView in H.
    destruct (keyIn key ["q"; "esc"]); [simplify_eq; by left|].
    destruct (keyIn key ["up"; "k"]);
      [destruct (_ <? _)%Z; simplify_eq; by left|].
    destruct (keyIn key ["down"; "j"]);
      [destruct (_ <? _)%Z; simplify_eq; by left|].
    destruct (String.eqb key "enter"); [|simplify_eq; by left].
    destruct (_ <? _)%Z.
    { destruct (index (manifests m) _) as [s|]; [|done].
      cbn -[setupInputsFromManifest] in H.
      rewrite (setupInputsFromManifest_Some _ s) in H by reflexivity.
      simplify_eq. by left. }
    destruct (_ <? _)%Z; [|simplify_eq; by left].
    destruct (index (skillErrors m) _); [|done]. cbn in H.
    simplify_eq. by left.
  - unfold handleConfirmView in H.
    destruct (keyIn key ["esc"; "n"]); [simplify_eq; by left|].
    destruct (keyIn key ["enter"; "y"]); [|simplify_eq; by left].
    destruct (skillExists stat m) as [[|]|]; [| |done]; cbn in H;
      unfold beginBuild in H; simplify_eq; by left.
  - unfold handleOverwriteView in H.
    destruct (keyIn key ["esc"; "n"]); [simplify_eq; by left|].
    destruct (String.eqb key "y"); unfold beginBuild in H; simplify_eq; by left.
  - unfold handleDoneView in H.
    destruct (keyIn key ["enter"; "q"; "esc"]); [simplify_eq; by left|].
    destruct (String.eqb key "r"); simplify_eq; by left.
Qed.

Lemma step_keeps_values m m' (k : string) :
  step m m' ->
  is_Some (configValues m !! k) -> is_Some (configValues m' !! k).
Proof.
  intros (stat & msg & c & H) Hk.
  destruct (Update_configValues _ _ _ _ _ H) as [-> | (_ & s & _ & _ & ->)];
    [done|].
  by apply spec_persist_keeps.
Qed.

(** A transition on another message than the advance key of the
    configure view leaves the map as it is, and so does any sequence of
    such transitions. *)
Lemma quietStep_configValues m m' :
  quietStep m m' -> configValues m' = configValues m.
Proof.
  intros (stat & msg & c & Hq & H).
  destruct (Update_configValues _ _ _ _ _ H) as [-> | (Ha & _)]; [done|].
  congruence.
Qed.

Lemma quiet_run_configValues m m' :
  rtc quietStep m m' -> configValues m' = configValues m.
Proof.
  induction 1 as [|a b d Hab _ IH]; [done|].
  rewrite IH. by apply quietStep_configValues.
Qed.

Lemma feedQuiet_rtc stat msgs m m' :
  feedQuiet stat m msgs = Some m' -> rtc quietStep m m'.
Proof.
  revert m. induction msgs as [|msg msgs IH]; intros m H; cbn in H.
  - injection H as <-. apply rtc_refl.
  - destruct (isAdvance m msg) eqn:Ha; [done|].
    destruct (Update stat m msg) as [[m1 c]|] eqn:E; [|done]. cbn in H.
    eapply rtc_l; [|by apply IH]. by exists stat, msg, c.
Qed.

Lemma inputForVariable_Value cv (v : Var.t) (val : string) :
  cv !! Var.Name v = Some val ->
  textinput.Value (inputForVariable cv v) = textinput_clip 200 val.
Proof. intros H. unfold inputForVariable. by rewrite H. Qed.

(** [enter] on a manifest of the skill list gives each variable whose
    name is in the map an input with the saved value. *)
Lemma enter_prefills stat m s i v val :
  currentView m = ViewSkillList ->
  index (manifests m) (skillCursor m) = Some s ->
  Manifest.Variables s !! i = Some v ->
  configValues m !! Var.Name v = Some val ->
  exists m',
    Update stat m (KeyMsg "enter") = Some (m', Blink)
    /\ currentView m' = ViewConfig
    /\ selectedSkill m' = Some s
    /\ configValues m' = configValues m
    /\ exists input,
         configInputs m' !! i = Some input
         /\ textinput.Value input = textinput_clip 200 val.
Proof.
  intros Hv Hidx Hvar Hval.
  rewrite Update_otherView by (done || by rewrite Hv).
  unfold handleKeyPress. rewrite Hv.
  unfold handleSkillListView.
  change (keyIn "enter" ["q"; "esc"]) with false.
  change (keyIn "enter" ["up"; "k"]) with false.
  change (keyIn "enter" ["down"; "j"]) with false.
  change (String.eqb "enter" "enter") with true. cbv iota.
  pose proof (proj1 (index_Some _ _ _) Hidx) as [Hrange _].
  destruct (Z.ltb_spec (skillCursor m) (Z.of_nat (length (manifests m))));
    [|lia].
  rewrite Hidx. cbn -[setupInputsFromManifest].
  rewrite (setupInputsFromManifest_Some _ s) by reflexivity.
  eexists. split; [reflexivity|]. cbn.
  repeat split; try done.
  assert (Hl : (textinput.Value
                 <$> focusFirst (inputForVariable (configValues m)
                                   <$> Manifest.Variables s)) !! i
               = Some (textinput_clip 200 val)).
  { rewrite focusFirst_Value, <- list_fmap_compose, list_lookup_fmap, Hvar.
    cbn. f_equal. by apply inputForVariable_Value. }
  rewrite list_lookup_fmap in Hl.
  destruct (focusFirst _ !! i) as [input|]; [|done].
  cbn in Hl. exists input. split; [done|]. by simplify_eq.
Qed.

(** C10: the configuration map is keyed by variable name alone and lives
    in the one model of the session.  No transition takes a name out of
    it, nor does any sequence of transitions; restarting from the done
    view leaves it as it is; and a transition leaves alone every name
    that is not a variable of the selected skill.  When a skill is
    selected in the skill list, the input of each of its variables whose
    name is in the map holds the value saved under that name, whichever
    skill it was saved for, as [SetValue] takes it for an input of
    character limit 200.

    The map changes in one transition only: the advance key of the
    configure view, when it is accepted, stores the inputs of the
    selected skill; every other transition leaves the whole map, names
    and values, as it is.  So over any sequence of transitions without
    that key in the configure view the map is the same at the end, and a
    value that is in the map under the name of a variable is the value
    of the input of that variable when a skill with it is selected at
    the end of the sequence. *)
Theorem config_values_persist :
  (forall m m' (k : string),
     step m m' ->
     is_Some (configValues m !! k) -> is_Some (configValues m' !! k))
  /\ (forall m m' (k : string),
        rtc step m m' ->
        is_Some (configValues m !! k) -> is_Some (configValues m' !! k))
  /\ (forall stat m,
        currentView m = ViewDone ->
        exists m', Update stat m (KeyMsg "r") = Some (m', CmdNil)
                   /\ currentView m' = ViewSkillList
                   /\ configValues m' = configValues m)
  /\ (forall stat m msg m' c (k : string),
        Update stat m msg = Some (m', c) ->
        (forall s v, selectedSkill m = Some s ->
                     v ∈ Manifest.Variables s -> Var.Name v <> k) ->
        configValues m' !! k = configValues m !! k)
  /\ (forall stat m s i v val,
        currentView m = ViewSkillList ->
        index (manifests m) (skillCursor m) = Some s ->
        Manifest.Variables s !! i = Some v ->
        configValues m !! Var.Name v = Some val ->
        exists m',
          Update stat m (KeyMsg "enter") = Some (m', Blink)
          /\ currentView m' = ViewConfig
          /\ selectedSkill m' = Some s
          /\ configValues m' = configValues m
          /\ exists input,
               configInputs m' !! i = Some input
               /\ textinput.Value input = textinput_clip 200 val)
  /\ (forall stat m msg m' c,
        Update stat m msg = Some (m', c) ->
        configValues m' = configValues m
        \/ (isAdvance m msg = true
            /\ exists s,
                 selectedSkill m = Some s
                 /\ currentView m' = ViewDeploy
                 /\ configValues m'
                    = spec_persist (Manifest.Variables s) (configInputs m)
                        (configValues m)))
  /\ (forall m m',
        rtc quietStep m m' -> configValues m' = configValues m)
  /\ (forall stat m m' s i v val,
        rtc quietStep m m' ->
        configValues m !! Var.Name v = Some val ->
        currentView m' = ViewSkillList ->
        index (manifests m') (skillCursor m') = Some s ->
        Manifest.Variables s !! i = Some v ->
        exists m'' input,
          Update stat m' (KeyMsg "enter") = Some (m'', Blink)
          /\ currentView m'' = ViewConfig
          /\ selectedSkill m'' = Some s
          /\ configValues m'' = configValues m
          /\ configInputs m'' !! i = Some input
          /\ textinput.Value input = textinput_clip 200 val).
Proof.
  repeat apply conj.
  - apply step_keeps_values.
  - intros m m' k Hsteps. induction Hsteps as [|a b d Hab _ IH]; [done|].
    intros Hk. apply IH. by apply (step_keeps_values a b).
  - intros stat m Hv. eexists.
    rewrite Update_otherView by (done || by rewrite Hv).
    unfold handleKeyPress. rewrite Hv. cbn. done.
  - intros stat m msg m' c k H Hk.
    destruct (Update_configValues _ _ _ _ _ H)
      as [-> | (_ & s & Hs & _ & ->)]; [done|].
    apply spec_persist_other. intros v Hv. by apply (Hk s).
  - apply enter_prefills.
  - apply Update_configValues.
  - apply quiet_run_configValues.
  - intros stat m m' s i v val Hrun Hval Hv Hidx Hvar.
    pose proof (quiet_run_configValues m m' Hrun) as Hcv.
    destruct (enter_prefills stat m' s i v val Hv Hidx Hvar)
      as (m'' & HU & Hv' & Hs & Hcv' & input & Hi & Hval');
      [by rewrite Hcv|].
    exists m'', input. repeat split; try done. by rewrite Hcv'.
Qed.

End Wizard.

(** The samples of the wizard are reachable states. *)
Lemma Sample_reachable (msgs : list Msg) (m : Model) :
  feed Sample.join Sample.clip Sample.inputUpdate Sample.noFile
    Sample.start msgs = Some m ->
  reachable Sample.join Sample.clip Sample.inputUpdate m.
Proof.
  apply feed_reachable. apply reachable_init.
Qed.

Lemma Sample_join_nonempty (a b : string) :
  a <> "" -> Sample.join [a; b] <> "".
Proof.
  intros Ha. unfold Sample.join. rewrite filter_cons.
  destruct (decide (a <> "")) as [_|]; [|done].
  destruct a as [|c a]; [done|].
  destruct (filter _ [b]); cbn; [done|].
  by rewrite strings_facts.app_cons.
Qed.

(** C1 on the sample skill, whose token is required: with the token
    left empty the advance is rejected with the label of the token in
    the error; with the token typed it is accepted and the token is in
    the map. *)
Lemma config_advance_witness :
  (exists m',
     Update Sample.join Sample.clip Sample.inputUpdate Sample.noFile
       Sample.chosen (KeyMsg "enter") = Some (m', Blink)
     /\ currentView m' = ViewConfig
     /\ errorMsg m' = "API Token is required")
  /\ (exists m',
        Update Sample.join Sample.clip Sample.inputUpdate Sample.noFile
          Sample.typed (KeyMsg "enter") = Some (m', Blink)
        /\ currentView m' = ViewDeploy
        /\ configValues m' !! "API_TOKEN" = Some "s3cr3t-token-42").
Proof.
  split.
  - destruct (config_advance Sample.join Sample.clip Sample.inputUpdate
                Sample.noFile Sample.chosen Sample.tasks "enter")
      as (m' & HU & Hiff & Hrej & _).
    + apply (Sample_reachable [KeyMsg "enter"]). vm_compute; reflexivity.
    + vm_compute; reflexivity.
    + vm_compute; reflexivity.
    + right; reflexivity.
    + assert (Hm : exists i v input,
                 Manifest.Variables Sample.tasks !! i = Some v
                 /\ configInputs Sample.chosen !! i = Some input
                 /\ Var.Required v = true /\ textinput.Value input = "").
      { exists 0. do 2 eexists. repeat split; vm_compute; reflexivity. }
      exists m'. split; [exact HU|]. split; [by apply Hiff|].
      destruct (Hrej Hm) as (v & Hv & _ & _ & ->).
      vm_compute in Hv. injection Hv as <-. vm_compute; reflexivity.
  - destruct (config_advance Sample.join Sample.clip Sample.inputUpdate
                Sample.noFile Sample.typed Sample.tasks "enter")
      as (m' & HU & Hiff & _ & Hacc).
    + apply (Sample_reachable [KeyMsg "enter"; KeyMsg "s3cr3t-token-42"]).
      vm_compute; reflexivity.
    + vm_compute; reflexivity.
    + vm_compute; reflexivity.
    + right; reflexivity.
    + assert (Hm : ~ exists i v input,
                 Manifest.Variables Sample.tasks !! i = Some v
                 /\ configInputs Sample.typed !! i = Some input
                 /\ Var.Required v = true /\ textinput.Value input = "").
      { intros (i & v & input & H1 & H2 & H3 & H4).
        destruct i as [|[|i]]; vm_compute in H1, H2;
          try discriminate; simplify_eq; vm_compute in H3, H4; discriminate. }
      destruct (Hacc Hm) as (Hview & _ & _ & Hlook).
      exists m'. split; [exact HU|]. split; [exact Hview|].
      assert (Hi : exists input,
                 configInputs Sample.typed !! 0 = Some input
                 /\ textinput.Value input = "s3cr3t-token-42").
      { eexists. split; vm_compute; reflexivity. }
      destruct Hi as (input & Hi & Hval). rewrite <- Hval.
      apply (Hlook 0 Sample.apiToken input); [vm_compute; reflexivity|exact Hi|].
      intros [|[|j]] v' Hj Hv'; try lia; vm_compute in Hv'; try discriminate.
      simplify_eq. vm_compute. discriminate.
Defined.

(** C2 on the sample skill in the confirm view: with no file at the
    deploy path the wizard starts the build, and with the binary of an
    earlier deploy in place it asks before overwriting. *)
Lemma confirm_affirm_witness :
  getDeployPath Sample.join Sample.confirming = "/home/u/skills/tasks"
  /\ (exists m' c,
        Update Sample.join Sample.clip Sample.inputUpdate Sample.noFile
          Sample.confirming (KeyMsg "y") = Some (m', c)
        /\ currentView m' = ViewBuilding /\ c = startBuildCmd m')
  /\ (exists m' c,
        Update Sample.join Sample.clip Sample.inputUpdate Sample.deployedBefore
          Sample.confirming (KeyMsg "y") = Some (m', c)
        /\ currentView m' = ViewOverwrite).
Proof.
  assert (Hr : reachable Sample.join Sample.clip Sample.inputUpdate
                 Sample.confirming).
  { apply (Sample_reachable
             [KeyMsg "enter"; KeyMsg "s3cr3t-token-42"; KeyMsg "enter";
              KeyMsg "/home/u/skills"; KeyMsg "enter"]).
    vm_compute; reflexivity. }
  split; [vm_compute; reflexivity|]. split.
  - destruct (confirm_affirm Sample.join Sample.clip Sample.inputUpdate
                Sample.noFile Sample.confirming "y" Hr)
      as (_ & s & Hs & m' & c & HU & _ & _ & Hbuild).
    + vm_compute; reflexivity.
    + right; reflexivity.
    + apply Sample_join_nonempty.
    + destruct Hbuild as (Hv & _ & Hc & _); [reflexivity|].
      by exists m', c.
  - destruct (confirm_affirm Sample.join Sample.clip Sample.inputUpdate
                Sample.deployedBefore Sample.confirming "y" Hr)
      as (_ & s & Hs & m' & c & HU & Hiff & _ & _).
    + vm_compute; reflexivity.
    + right; reflexivity.
    + apply Sample_join_nonempty.
    + exists m', c. split; [exact HU|]. apply Hiff.
      vm_compute in Hs. injection Hs as <-. vm_compute; reflexivity.
Defined.

(** C10 on the sample session: the token saved for the skill [tasks] is
    still in the map after the deploy and the restart, and fills the
    token input of the skill [notes] when that is selected.  The accepted
    advance stored the inputs of [tasks]; from then to the restart the
    map has not changed. *)
Lemma config_values_persist_witness :
  is_Some (configValues Sample.restarted !! "API_TOKEN")
  /\ (exists m' input,
        Update Sample.join Sample.clip Sample.inputUpdate Sample.noFile
          Sample.restarted (KeyMsg "enter") = Some (m', Blink)
        /\ selectedSkill m' = Some Sample.notes
        /\ configInputs m' !! 0 = Some input
        /\ textinput.Value input = "s3cr3t-token-42")
  /\ configValues Sample.configured
     = spec_persist (Manifest.Variables Sample.tasks)
         (configInputs Sample.typed) (configValues Sample.typed)
  /\ configValues Sample.restarted = configValues Sample.configured
  /\ (exists m'' input,
        Update Sample.join Sample.clip Sample.inputUpdate Sample.noFile
          Sample.restarted (KeyMsg "enter") = Some (m'', Blink)
        /\ selectedSkill m'' = Some Sample.notes
        /\ configValues m'' = configValues Sample.configured
        /\ configInputs m'' !! 0 = Some input
        /\ textinput.Value input = "s3cr3t-token-42").
Proof.
  destruct (config_values_persist Sample.join Sample.clip Sample.inputUpdate)
    as (Hstep & _ & Hrestart & _ & Hfill & Heffect & Hquiet & Hlater).
  assert (Hrun : rtc (quietStep Sample.join Sample.clip Sample.inputUpdate)
                   Sample.configured Sample.restarted).
  { apply (feedQuiet_rtc Sample.join Sample.clip Sample.inputUpdate
             Sample.noFile
             [KeyMsg "/home/u/skills"; KeyMsg "enter"; KeyMsg "y";
              buildCompleteMsg "Built: /src/dist/tasks" None;
              deployCompleteMsg None; KeyMsg "r"; KeyMsg "down";
              KeyMsg "down"]).
    vm_compute; reflexivity. }
  repeat apply conj.
  - (* the restart from the done view *)
    pose (done := Sample.after
            [KeyMsg "enter"; KeyMsg "s3cr3t-token-42"; KeyMsg "enter";
             KeyMsg "/home/u/skills"; KeyMsg "enter"; KeyMsg "y";
             buildCompleteMsg "Built: /src/dist/tasks" None;
             deployCompleteMsg None]).
    destruct (Hrestart Sample.noFile done) as (m1 & HU1 & _ & Hcv);
      [vm_compute; reflexivity|].
    assert (H1 : is_Some (configValues m1 !! "API_TOKEN")).
    { rewrite Hcv. vm_compute. by eexists. }
    assert (E : m1 = Sample.after
            [KeyMsg "enter"; KeyMsg "s3cr3t-token-42"; KeyMsg "enter";
             KeyMsg "/home/u/skills"; KeyMsg "enter"; KeyMsg "y";
             buildCompleteMsg "Built: /src/dist/tasks" None;
             deployCompleteMsg None; KeyMsg "r"]).
    { vm_compute in HU1. injection HU1 as <-. vm_compute; reflexivity. }
    assert (H2 : is_Some (configValues
              (Sample.after
                 [KeyMsg "enter"; KeyMsg "s3cr3t-token-42"; KeyMsg "enter";
                  KeyMsg "/home/u/skills"; KeyMsg "enter"; KeyMsg "y";
                  buildCompleteMsg "Built: /src/dist/tasks" None;
                  deployCompleteMsg None; KeyMsg "r"; KeyMsg "down"])
              !! "API_TOKEN")).
    { apply (Hstep m1); [|exact H1]. exists Sample.noFile, (KeyMsg "down"), CmdNil.
      rewrite E. vm_compute; reflexivity. }
    eapply Hstep; [|exact H2].
    exists Sample.noFile, (KeyMsg "down"), CmdNil. vm_compute; reflexivity.
  - destruct (Hfill Sample.noFile Sample.restarted Sample.notes 0
                Sample.apiToken "s3cr3t-token-42")
      as (m' & HU & _ & Hs & _ & input & Hi & Hval);
      try (vm_compute; reflexivity).
    by exists m', input.
  - destruct (Heffect Sample.noFile Sample.typed (KeyMsg "enter")
                Sample.configured Blink)
      as [E | (_ & s & Hs & _ & E)].
    + vm_compute; reflexivity.
    + apply (f_equal (fun cv : gmap string string => cv !! "API_TOKEN")) in E.
      vm_compute in E. discriminate E.
    + vm_compute in Hs. injection Hs as <-. exact E.
  - exact (Hquiet Sample.configured Sample.restarted Hrun).
  - destruct (Hlater Sample.noFile Sample.configured Sample.restarted
                Sample.notes 0 Sample.apiToken "s3cr3t-token-42" Hrun)
      as (m'' & input & HU & _ & Hs & Hcv & Hi & Hval);
      try (vm_compute; reflexivity).
    by exists m'', input.
Defined.

(** ** Secrets in the views (C9) *)

(** C9, as the specification states it, at the sample session with the
    token [hunter2]: the confirm view shows the secret in full. *)
Lemma short_secret_shown_in_full :
  Var.Type_ Sample.apiToken = "secret"
  /\ configValues Sample.confirmingShort !! Var.Name Sample.apiToken
     = Some "hunter2"
  /\ currentView Sample.confirmingShort = ViewConfirm
  /\ confirmValue Sample.apiToken "hunter2" = "hunter2"
  /\ exists text,
       ModelView Sample.join Sample.plain Sample.inputView
         Sample.confirmingShort = Some text
       /\ strings.Contains text "API Token:   hunter2" = true.
Proof.
  repeat apply conj; try (vm_compute; reflexivity).
  eexists. split; vm_compute; reflexivity.
Qed.

Section SecretViews.

Variable filepath_Join : list string -> string.
Variable Render : Style -> string -> string.
Variable textinput_View : textinput.Model -> string.
Variable textinput_clip : Z -> string -> string.

Local Abbreviation renderConfirm := (renderConfirm filepath_Join Render).
Local Abbreviation ModelView :=
  (ModelView filepath_Join Render textinput_View).
Local Abbreviation confirmLine := (confirmLine Render).
Local Abbreviation inputForVariable := (inputForVariable textinput_clip).

Lemma writeEach_ext {A : Type} (f g : A -> string) (l : list A) :
  (forall x, x ∈ l -> f x = g x) -> writeEach f l = writeEach g l.
Proof.
  intros H. unfold writeEach. induction l as [|x l IH]; [done|].
  cbn [foldr]. rewrite (H x) by by left. rewrite IH; [done|].
  intros y Hy. apply H. by right.
Qed.

Lemma focusFirst_Echo (l : list textinput.Model) :
  textinput.Echo <$> focusFirst l = textinput.Echo <$> l.
Proof.
  unfold focusFirst. destruct l as [|t l]; [done|]. cbn. f_equal.
  rewrite <- list_fmap_compose. by apply list_fmap_ext.
Qed.

Lemma inputForVariable_Echo cv (v : Var.t) :
  textinput.Echo (inputForVariable cv v)
  = if String.eqb (Var.Type_ v) "secret"
    then textinput.EchoPassword else textinput.EchoNormal.
Proof.
  unfold inputForVariable. by destruct (cv !! Var.Name v).
Qed.

(** C9, amended: in the confirm view a secret longer than eight bytes
    appears as its first eight bytes followed by three dots, and a
    secret of at most eight bytes appears in full; the confirm view
    depends on the configuration map through what it so shows for each
    variable of the selected skill and nothing else, and no other view
    depends on the map at all; the input created for a secret variable
    is in password echo mode, and so are the inputs of the secret
    variables of a skill once it is selected. *)
Theorem secret_preview :
  (forall v value,
     Var.Type_ v = "secret" ->
     (8 < String.length value ->
      confirmValue v value = strings.take 8 value +:+ "...")
     /\ (String.length value <= 8 -> confirmValue v value = value))
  /\ (forall m cv,
        (forall s v, selectedSkill m = Some s -> v ∈ Manifest.Variables s ->
                     confirmValue v (default "" (cv !! Var.Name v))
                     = confirmValue v (default "" (configValues m !! Var.Name v))) ->
        renderConfirm (set_configValues cv m) = renderConfirm m)
  /\ (forall m cv,
        currentView m <> ViewConfirm ->
        ModelView (set_configValues cv m) = ModelView m)
  /\ (forall cv v,
        Var.Type_ v = "secret" ->
        textinput.Echo (inputForVariable cv v) = textinput.EchoPassword)
  /\ (forall m s i v input,
        selectedSkill m = Some s ->
        Manifest.Variables s !! i = Some v ->
        Var.Type_ v = "secret" ->
        configInputs (setupInputsFromManifest textinput_clip m) !! i
          = Some input ->
        textinput.Echo input = textinput.EchoPassword).
Proof.
  repeat apply conj.
  - intros v value Hs. unfold confirmValue. rewrite Hs.
    change (String.eqb "secret" "secret") with true. cbn [andb]. split.
    + intros H. apply Nat.ltb_lt in H. by rewrite H.
    + intros H. destruct (Nat.ltb_spec 8 (String.length value)); [lia|done].
  - intros m cv H. unfold renderConfirm.
    change (selectedSkill (set_configValues cv m)) with (selectedSkill m).
    change (configValues (set_configValues cv m)) with cv.
    change (skillsFolder (set_configValues cv m)) with (skillsFolder m).
    change (skillFolderName (set_configValues cv m)) with (skillFolderName m).
    change (getDeployPath filepath_Join (set_configValues cv m))
      with (getDeployPath filepath_Join m).
    destruct (selectedSkill m) as [s|] eqn:Hs; [|done].
    rewrite (writeEach_ext (confirmLine cv) (confirmLine (configValues m)));
      [done|].
    intros v Hv. unfold confirmLine. by rewrite (H s v).
  - intros m cv Hv. unfold ModelView.
    change (quitting (set_configValues cv m)) with (quitting m).
    change (currentView (set_configValues cv m)) with (currentView m).
    change (errorMsg (set_configValues cv m)) with (errorMsg m).
    change (version (set_configValues cv m)) with (version m).
    destruct (quitting m); [done|].
    by destruct (currentView m).
  - intros cv v Hs. by rewrite inputForVariable_Echo, Hs.
  - intros m s i v input Hs Hv Ht Hi.
    unfold setupInputsFromManifest in Hi. rewrite Hs in Hi. cbn in Hi.
    assert (He : (textinput.Echo
                    <$> focusFirst (inputForVariable (configValues m)
                                      <$> Manifest.Variables s)) !! i
                 = Some textinput.EchoPassword).
    { rewrite focusFirst_Echo, <- list_fmap_compose, list_lookup_fmap, Hv.
      cbn. by rewrite inputForVariable_Echo, Ht. }
    rewrite list_lookup_fmap, Hi in He. cbn in He. by simplify_eq.
Qed.

End SecretViews.

(** The amended C9 on the sample sessions: the long token is cut in the
    confirm view, the short one is not, and the token input of the
    selected skill is in password mode. *)
Lemma secret_preview_witness :
  confirmValue Sample.apiToken "s3cr3t-token-42" = "s3cr3t-t..."
  /\ confirmValue Sample.apiToken "hunter2" = "hunter2"
  /\ (exists input,
        configInputs Sample.chosen !! 0 = Some input
        /\ textinput.Echo input = textinput.EchoPassword)
  /\ ModelView Sample.join Sample.plain Sample.inputView
       (set_configValues ∅ Sample.typed)
     = ModelView Sample.join Sample.plain Sample.inputView Sample.typed.
Proof.
  destruct (secret_preview Sample.join Sample.plain Sample.inputView Sample.clip)
    as (Hcut & _ & Hother & _ & Hecho).
  repeat apply conj.
  - destruct (Hcut Sample.apiToken "s3cr3t-token-42") as [H _];
      [reflexivity|]. rewrite H; [reflexivity|]. vm_compute. lia.
  - destruct (Hcut Sample.apiToken "hunter2") as [_ H]; [reflexivity|].
    apply H. vm_compute. lia.
  - assert (Hi : exists input, configInputs Sample.chosen !! 0 = Some input).
    { eexists. vm_compute. reflexivity. }
    destruct Hi as [input Hi]. exists input. split; [exact Hi|].
    apply (Hecho (set_currentView ViewConfig
                    (set_selectedSkill (Some Sample.tasks) Sample.start))
             Sample.tasks 0 Sample.apiToken input);
      try reflexivity.
    rewrite <- Hi. vm_compute. reflexivity.
  - apply Hother. vm_compute. discriminate.
Defined.

(** * Further properties of the wizard *)

Section WizardMore.

Variable filepath_Join : list string -> string.
Variable textinput_clip : Z -> string -> string.
Variable textinput_Update : textinput.Model -> Msg -> textinput.Model.

Local Abbreviation Update :=
  (Update filepath_Join textinput_clip textinput_Update).
Local Abbreviation getDeployPath := (getDeployPath filepath_Join).
Local Abbreviation reachable :=
  (reachable filepath_Join textinput_clip textinput_Update).
Local Abbreviation step :=
  (step filepath_Join textinput_clip textinput_Update).
Local Abbreviation setupInputsFromManifest :=
  (setupInputsFromManifest textinput_clip).
Local Abbreviation setupDeployInputs := (setupDeployInputs textinput_clip).
Local Abbreviation inputForVariable := (inputForVariable textinput_clip).
Local Abbreviation skillExists := (skillExists filepath_Join).
Local Abbreviation handleKeyPress := (handleKeyPress filepath_Join textinput_clip).
Local Abbreviation handleSkillListView := (handleSkillListView textinput_clip).
Local Abbreviation handleConfirmView := (handleConfirmView filepath_Join).
Local Abbreviation configViewKey :=
  (configViewKey textinput_clip textinput_Update).
Local Abbreviation deployViewKey := (deployViewKey textinput_Update).

Ltac case_if H :=
  match type of H with
  | (if ?b then _ else _) = _ => destruct b eqn:?E
  end.

(** The cases of [Update]: [H] is [Update stat m msg = Some (m', c)];
    in each case [m'] is replaced by what it is and [tac] is run. *)
Ltac update_cases H tac :=
  unfold Update in H;
  match type of H with
  | match ?msg with _ => _ end = _ =>
      destruct msg as [?key|?w ?h|?output [?e|]|[?e|]|?tag]
  end;
  [ destruct (String.eqb _ "ctrl+c"); [simplify_eq; tac|];
    match type of H with
    | context [decide (?x = ViewConfig)] =>
        destruct (decide (x = ViewConfig)) as [?Hv|?Hv]
    end;
    [ unfold configViewKey in H;
      destruct (String.eqb _ "esc"); [simplify_eq; tac|];
      destruct (keyIn _ ["tab"; "down"]);
      [ destruct (focusNext _ _) as [[??]|] eqn:?E; [|done]; cbn in H;
        simplify_eq; tac |];
      destruct (keyIn _ ["shift+tab"; "up"]);
      [ destruct (focusPrev _ _) as [[??]|] eqn:?E; [|done]; cbn in H;
        simplify_eq; tac |];
      destruct (keyIn _ ["ctrl+d"; "enter"]);
      [|unfold updateConfigInputs in H; simplify_eq; tac];
      destruct (validateConfigInputs _) as [[? [|]]|] eqn:?E; [| |done];
      cbn [mbind option_bind] in H;
      apply validateConfigInputs_Some in E as [? ->];
      [|simplify_eq; tac];
      destruct (saveConfigInputs _) as [?|] eqn:?E2; [|done];
      cbn [mbind option_bind] in H;
      apply saveConfigInputs_Some in E2 as [? ->];
      match type of H with
      | context [setupDeployInputs ?x] =>
          let a := fresh "a" in
          let b := fresh "b" in
          let Hsd := fresh "Hsd" in
          destruct (setupDeployInputs_facts textinput_clip x) as (a & b & Hsd);
          rewrite Hsd in H
      end;
      simplify_eq; tac
    |];
    match type of H with
    | context [decide (?x = ViewDeploy)] =>
        destruct (decide (x = ViewDeploy)) as [?Hv|?Hv]
    end;
    [ unfold deployViewKey in H;
      destruct (String.eqb _ "esc"); [simplify_eq; tac|];
      destruct (keyIn _ ["tab"; "down"]);
      [ destruct (focusNext _ _) as [[??]|] eqn:?E; [|done]; cbn in H;
        simplify_eq; tac |];
      destruct (keyIn _ ["shift+tab"; "up"]);
      [ destruct (focusPrev _ _) as [[??]|] eqn:?E; [|done]; cbn in H;
        simplify_eq; tac |];
      destruct (keyIn _ ["ctrl+d"; "enter"]);
      [|unfold updateDeployInputs in H; simplify_eq; tac];
      destruct (validateDeployInputs _) as [[? [|]]|] eqn:?E; [| |done];
      cbn [mbind option_bind] in H;
      apply validateDeployInputs_Some in E as [[? ->] ?];
      [|simplify_eq; tac];
      unfold saveDeployInputs in H;
      destruct (index _ 0) eqn:?E0; [|done];
      destruct (index _ 1) eqn:?E1; [|done];
      cbn in H; simplify_eq; tac
    |];
    unfold handleKeyPress in H;
    match type of H with
    | match currentView ?m with _ => _ end = _ =>
        destruct (currentView m) eqn:?Hview; try done
    end;
    [ unfold handleSkillListView in H;
      destruct (keyIn _ ["q"; "esc"]); [simplify_eq; tac|];
      destruct (keyIn _ ["up"; "k"]);
      [case_if H; simplify_eq; tac|];
      destruct (keyIn _ ["down"; "j"]);
      [case_if H; simplify_eq; tac|];
      destruct (String.eqb _ "enter"); [|simplify_eq; tac];
      case_if H;
      [ destruct (index (manifests _) _) as [?s|] eqn:?Ei; [|done];
        cbn -[setupInputsFromManifest] in H;
        rewrite (setupInputsFromManifest_Some textinput_clip _ s) in H
          by reflexivity;
        simplify_eq; tac |];
      case_if H; [|simplify_eq; tac];
      destruct (index (skillErrors _) _) eqn:?Ei; [|done]; cbn in H;
      simplify_eq; tac
    | unfold handleConfirmView in H;
      destruct (keyIn _ ["esc"; "n"]); [simplify_eq; tac|];
      destruct (keyIn _ ["enter"; "y"]) eqn:?K; [|simplify_eq; tac];
      destruct (skillExists _ _) as [[|]|] eqn:?Ex; [| |done]; cbn in H;
      unfold beginBuild in H; simplify_eq; tac
    | unfold handleOverwriteView in H;
      destruct (keyIn _ ["esc"; "n"]); [simplify_eq; tac|];
      destruct (String.eqb _ "y") eqn:?K; unfold beginBuild in H;
      simplify_eq; tac
    | simplify_eq; tac
    | unfold handleDoneView in H;
      destruct (keyIn _ ["enter"; "q"; "esc"]); [simplify_eq; tac|];
      destruct (String.eqb _ "r"); simplify_eq; tac ]
  | simplify_eq; tac
  | simplify_eq; tac
  | simplify_eq; tac
  | simplify_eq; tac
  | simplify_eq; tac
  | simplify_eq; tac ].

Ltac use_focus_facts :=
  repeat match goal with
         | E : focusNext _ _ = Some _ |- _ =>
             apply focusNext_Some in E as (? & ? & ?)
         | E : focusPrev _ _ = Some _ |- _ =>
             apply focusPrev_Some in E as (? & ? & ?)
         | E : (_ <? _)%Z = true |- _ => apply Z.ltb_lt in E
         | E : (_ <? _)%Z = false |- _ => apply Z.ltb_ge in E
         end.

(** No transition touches what was found at start. *)
Lemma Update_sameCatalog stat m msg m' c :
  Update stat m msg = Some (m', c) -> sameCatalog m m'.
Proof.
  intros H. update_cases H ltac:(by repeat split).
Qed.

(** Every transition keeps the state coherent. *)
Lemma Update_coherent stat m msg m' c :
  coherent m -> Update stat m msg = Some (m', c) -> coherent m'.
Proof.
  intros [[Hc0 Hc1] Hl Hd Hs He Hx Hcur] H.
  update_cases H
    ltac:(solve [use_focus_facts; split; cbn;
                 rewrite ?focusFirst_length, ?length_fmap;
                 repeat match goal with
                        | Hv : currentView _ = _ |- _ =>
                            rewrite Hv in *; clear Hv
                        end;
                 try done; try lia; try congruence; auto;
                 try (intros ? [= <-];
                      match goal with
                      | Ei : index _ _ = Some _ |- _ =>
                          apply index_Some in Ei as [_ Ei];
                          by eapply list_elem_of_lookup_2
                      end);
                 try (intros _;
                      match goal with
                      | Ei : index _ _ = Some _ |- _ =>
                          by apply index_Some in Ei as [_ Ei]
                      end)]).
Qed.

Lemma NewModel_coherent root ver discovered :
  coherent (NewModel root ver discovered).
Proof.
  destruct discovered as [[ms errs] [e|]]; split; cbn; try done; try lia; auto.
Qed.

Lemma reachable_coherent m : reachable m -> coherent m.
Proof.
  induction 1 as [root ver d|stat m msg m' c _ IH H].
  - apply NewModel_coherent.
  - by apply (Update_coherent stat m msg m' c).
Qed.

(** ** The shape of every reachable state *)

(** X1: in every state the wizard reaches: the cursor is not negative and is
    on an entry of the skill list when the list is not empty; a selected
    skill is one of the manifests found at start and has one input and
    one label per variable; a skill and a failed skill are never
    selected together; while a skill is being configured (in the
    configure, deploy, confirm and overwrite views) it is the manifest
    under the cursor; from the deploy view on there are two deploy
    inputs with their labels and the focus on one of them; and in the
    confirm and overwrite views the saved deploy target is what the two
    deploy inputs hold, neither being empty. *)
Theorem reachable_state_shape m :
  reachable m ->
  ((0 <= skillCursor m)%Z
   /\ (skillCursor m = 0%Z
       \/ (skillCursor m < Z.of_nat (length (manifests m))
                           + Z.of_nat (length (skillErrors m)))%Z))
  /\ (forall s, selectedSkill m = Some s ->
                s ∈ manifests m
                /\ length (configInputs m) = length (Manifest.Variables s)
                /\ length (configLabels m) = length (Manifest.Variables s))
  /\ (selectedSkill m = None \/ selectedError m = None)
  /\ (configuring (currentView m) = true ->
      exists s, selectedSkill m = Some s
                /\ manifests m !! Z.to_nat (skillCursor m) = Some s)
  /\ (targeting (currentView m) = true ->
      length (deployInputs m) = 2 /\ length (deployLabels m) = 2
      /\ (0 <= deployFocus m < 2)%Z)
  /\ (targeted (currentView m) = true ->
      textinput.Value <$> deployInputs m = [skillsFolder m; skillFolderName m]
      /\ skillsFolder m <> "" /\ skillFolderName m <> "").
Proof.
  intros Hr.
  pose proof (reachable_wellFormed _ _ _ m Hr) as [_ _ Hin Hsel Hdep Htar].
  pose proof (reachable_coherent m Hr) as [Hc Hl Hd Hs He Hx Hcur].
  repeat apply conj; try done; try tauto;
    try (intros Hv; destruct (Hdep Hv) as [H1 H2]; repeat split;
         try done; try lia; by rewrite Hd).
  - intros s E. repeat split; [by apply Hs|by apply Hin|].
    rewrite Hl. by apply Hin.
  - intros Hv. destruct (Hsel Hv) as [s E]. exists s. split; [done|].
    by rewrite Hcur.
Qed.

(** ** When [Update] panics *)

(** X2: in a reachable state [Update] panics in one case only: a focus key
    ([tab], [down], [shift+tab], [up]) in the configure view of a skill
    without variables.  Every other message, in every reachable state,
    gives a new state and a command. *)
Theorem Update_panics_iff stat m msg :
  reachable m ->
  Update stat m msg = None
  <-> currentView m = ViewConfig
      /\ configInputs m = []
      /\ exists key, msg = KeyMsg key
                     /\ key ∈ ["tab"; "down"; "shift+tab"; "up"].
Proof.
  intros Hr. pose proof (reachable_wellFormed _ _ _ m Hr) as Hwf. split.
  - intros H.
    destruct (decide (currentView m = ViewConfig)) as [Hv|Hv].
    2:{ destruct (Update_total filepath_Join textinput_clip textinput_Update stat m msg Hwf) as [x Hx]; [done|].
        congruence. }
    destruct (configInputs m) as [|t l] eqn:Hnil.
    2:{ destruct (Update_total filepath_Join textinput_clip textinput_Update stat m msg Hwf) as [x Hx];
          [by rewrite Hnil|]. congruence. }
    split; [done|]. split; [done|].
    destruct msg as [key|w h|output [e|]|[e|]|tag]; try done.
    exists key. split; [done|].
    unfold Update in H.
    destruct (String.eqb key "ctrl+c"); [done|].
    destruct (decide (currentView m = ViewConfig)); [|done].
    unfold configViewKey in H.
    destruct (String.eqb key "esc"); [done|].
    destruct (keyIn key ["tab"; "down"]) eqn:K1.
    { apply keyIn_elem in K1. set_unfold. tauto. }
    destruct (keyIn key ["shift+tab"; "up"]) eqn:K2.
    { apply keyIn_elem in K2. set_unfold. tauto. }
    exfalso.
    destruct (keyIn key ["ctrl+d"; "enter"]); [|done].
    destruct (wf_selected m Hwf) as [s Hs]; [by rewrite Hv|].
    pose proof (wf_inputs m Hwf s Hs) as Hlen.
    unfold validateConfigInputs, saveConfigInputs in H. rewrite Hs in H.
    rewrite validateLoop_spec in H by (cbn; exact Hlen).
    destruct (spec_firstMissing _ _); cbn in H; [done|].
    rewrite Hs in H. rewrite saveLoop_spec in H by (cbn; exact Hlen).
    done.
  - intros (Hv & Hnil & key & -> & Hk). by apply focus_keys_panic.
Qed.

(** ** Advancing from the deploy view *)

Lemma Update_deployView stat m key :
  currentView m = ViewDeploy -> key <> "ctrl+c" ->
  Update stat m (KeyMsg key) = deployViewKey m key.
Proof.
  intros Hv Hk. unfold Update.
  destruct (String.eqb_spec key "ctrl+c") as [|_]; [done|].
  destruct (decide (currentView m = ViewConfig)) as [E|_]; [congruence|].
  by destruct (decide (currentView m = ViewDeploy)).
Qed.

Lemma deployViewKey_advance m key :
  key = "ctrl+d" \/ key = "enter" ->
  deployViewKey m key
  = '(m1, ok) ← validateDeployInputs m;
    if ok : bool then
      m2 ← saveDeployInputs m1;
      Some (set_currentView ViewConfirm m2, CmdNil)
    else Some (m1, CmdNil).
Proof. intros [-> | ->]; reflexivity. Qed.

(** X3: in a reachable state of the deploy view there are two inputs, the
    skills folder and the skill name, and the advance key looks at them
    in that order: an empty skills folder is refused with [Skills Folder
    is required], else an empty skill name with [Skill Name is
    required], the state being otherwise unchanged; when neither is
    empty the error is cleared, both values are saved as the deploy
    target and the view becomes the confirm view.  No command is
    returned in any case. *)
Theorem deploy_advance stat m key :
  reachable m ->
  currentView m = ViewDeploy ->
  key = "ctrl+d" \/ key = "enter" ->
  exists a b,
    deployInputs m = [a; b]
    /\ Update stat m (KeyMsg key)
       = Some
           (if String.eqb (textinput.Value a) ""
            then set_errorMsg "Skills Folder is required" m
            else if String.eqb (textinput.Value b) ""
                 then set_errorMsg "Skill Name is required" m
                 else set_currentView ViewConfirm
                        (set_skillFolderName (textinput.Value b)
                           (set_skillsFolder (textinput.Value a)
                              (set_errorMsg "" m))),
            CmdNil).
Proof.
  intros Hr Hv Hk.
  pose proof (reachable_wellFormed _ _ _ m Hr) as Hwf.
  destruct (wf_deploy m Hwf) as [Hl _]; [by rewrite Hv|].
  destruct (deployInputs m) as [|a [|b [|]]] eqn:Hd; try done.
  exists a, b. split; [done|].
  rewrite Update_deployView by (done || by destruct Hk as [-> | ->]).
  rewrite deployViewKey_advance by done.
  unfold validateDeployInputs, saveDeployInputs. rewrite Hd.
  change (index [a; b] 0) with (Some a).
  change (index [a; b] 1) with (Some b). cbn [mbind option_bind].
  destruct (String.eqb (textinput.Value a) ""); [done|].
  destruct (String.eqb (textinput.Value b) ""); [done|].
  cbn. rewrite Hd.
  change (index [a; b] 0) with (Some a).
  change (index [a; b] 1) with (Some b). done.
Qed.

(** ** Going back *)

Lemma focusFirst_focusedAt (l : list textinput.Model) :
  focusedAt (focusFirst l) 0.
Proof.
  unfold focusFirst, focusedAt. destruct l as [|t l]; [done|].
  rewrite fmap_cons. intros [|j] x H.
  - by simplify_eq/=.
  - rewrite lookup_cons in H.
    apply list_lookup_fmap_Some in H as (y & ? & ?). by subst.
Qed.

(** X4: going back keeps what was entered.  [esc] in the deploy view gives
    the configure view with the values of the variable inputs, the
    configuration map and the deploy inputs as they were, the error
    cleared and the focus on the first input alone; [esc] or [n] in the
    confirm view gives the deploy view with the values of the deploy
    inputs and the saved target as they were and the focus on the first
    input alone; [esc] or [n] in the overwrite view changes nothing but
    the view, back to confirm; and [esc] in the configure view changes
    nothing but the view, back to the skill list, and the error, which
    is cleared. *)
Theorem back_keeps_entries stat m :
  (currentView m = ViewDeploy ->
   exists m',
     Update stat m (KeyMsg "esc") = Some (m', Blink)
     /\ currentView m' = ViewConfig
     /\ textinput.Value <$> configInputs m' = textinput.Value <$> configInputs m
     /\ configValues m' = configValues m
     /\ deployInputs m' = deployInputs m
     /\ selectedSkill m' = selectedSkill m
     /\ errorMsg m' = ""
     /\ configFocus m' = 0%Z
     /\ focusedAt (configInputs m') 0)
  /\ (forall key,
        currentView m = ViewConfirm -> key = "esc" \/ key = "n" ->
        exists m',
          Update stat m (KeyMsg key) = Some (m', Blink)
          /\ currentView m' = ViewDeploy
          /\ textinput.Value <$> deployInputs m'
             = textinput.Value <$> deployInputs m
          /\ skillsFolder m' = skillsFolder m
          /\ skillFolderName m' = skillFolderName m
          /\ configValues m' = configValues m
          /\ selectedSkill m' = selectedSkill m
          /\ deployFocus m' = 0%Z
          /\ focusedAt (deployInputs m') 0)
  /\ (forall key,
        currentView m = ViewOverwrite -> key = "esc" \/ key = "n" ->
        Update stat m (KeyMsg key) = Some (set_currentView ViewConfirm m, CmdNil))
  /\ (currentView m = ViewConfig ->
      Update stat m (KeyMsg "esc")
      = Some (set_errorMsg "" (set_currentView ViewSkillList m), CmdNil)).
Proof.
  repeat apply conj.
  - intros Hv. rewrite Update_deployView by done.
    eexists. split; [reflexivity|]. cbn.
    rewrite focusFirst_Value. repeat split; try done.
    apply focusFirst_focusedAt.
  - intros key Hv Hk.
    rewrite Update_otherView
      by (by rewrite Hv || by destruct Hk as [-> | ->]).
    unfold handleKeyPress. rewrite Hv.
    assert (E : handleConfirmView stat m key
                = Some (set_deployInputs (focusFirst (deployInputs m))
                          (set_deployFocus 0 (set_currentView ViewDeploy m)),
                        Blink)) by (by destruct Hk as [-> | ->]).
    rewrite E. eexists. split; [reflexivity|]. cbn.
    rewrite focusFirst_Value. repeat split; try done.
    apply focusFirst_focusedAt.
  - intros key Hv Hk.
    rewrite Update_otherView
      by (by rewrite Hv || by destruct Hk as [-> | ->]).
    unfold handleKeyPress. rewrite Hv. by destruct Hk as [-> | ->].
  - intros Hv. by rewrite Update_configView.
Qed.

(** ** Selecting an entry of the skill list *)

(** The values [setupInputsFromManifest] puts in the inputs. *)
Lemma inputForVariable_Value_full cv (v : Var.t) :
  textinput.Value (inputForVariable cv v)
  = match cv !! Var.Name v with
    | Some val => textinput_clip 200 val
    | None => ""
    end.
Proof. unfold inputForVariable. by destruct (cv !! Var.Name v). Qed.

Lemma handleSkillListView_enter m :
  handleSkillListView m "enter"
  = let totalItems := (Z.of_nat (length (manifests m))
                       + Z.of_nat (length (skillErrors m)))%Z in
    if (skillCursor m <? Z.of_nat (length (manifests m)))%Z then
      s ← index (manifests m) (skillCursor m);
      Some (setupInputsFromManifest
              (set_currentView ViewConfig
                 (set_selectedError None (set_selectedSkill (Some s) m))),
            Blink)
    else if (skillCursor m <? totalItems)%Z then
      e ← index (skillErrors m)
            (skillCursor m - Z.of_nat (length (manifests m)));
      Some (set_errorMsg (SkillError.Error e)
              (set_selectedSkill None (set_selectedError (Some e) m)),
            CmdNil)
    else Some (m, CmdNil).
Proof. reflexivity. Qed.

(** X5: [enter] in the skill list of a reachable state.  On a manifest: the
    wizard goes to the configure view with that manifest selected, no
    failed skill selected, one label per variable, each input holding
    what the configuration map has under the name of its variable (as
    [SetValue] takes it for the limit of 200 characters) or nothing, and
    the focus on the first input alone; the error message is left as it
    was, so the error of a failed skill looked at before stays on
    screen.  On a failed skill: the wizard stays in the skill list,
    shows the error of that skill and has no manifest selected.  With
    nothing found at start, [enter] does nothing. *)
Theorem select_entry stat m :
  reachable m ->
  currentView m = ViewSkillList ->
  (forall s,
     manifests m !! Z.to_nat (skillCursor m) = Some s ->
     exists m',
       Update stat m (KeyMsg "enter") = Some (m', Blink)
       /\ currentView m' = ViewConfig
       /\ selectedSkill m' = Some s
       /\ selectedError m' = None
       /\ errorMsg m' = errorMsg m
       /\ configValues m' = configValues m
       /\ configLabels m' = Var.Label <$> Manifest.Variables s
       /\ textinput.Value <$> configInputs m'
          = (fun v => match configValues m !! Var.Name v with
                      | Some val => textinput_clip 200 val
                      | None => ""
                      end) <$> Manifest.Variables s
       /\ configFocus m' = 0%Z
       /\ focusedAt (configInputs m') 0)
  /\ (forall e,
        (Z.of_nat (length (manifests m)) <= skillCursor m)%Z ->
        skillErrors m
          !! Z.to_nat (skillCursor m - Z.of_nat (length (manifests m)))
        = Some e ->
        Update stat m (KeyMsg "enter")
        = Some (set_errorMsg (SkillError.Error e)
                  (set_selectedSkill None (set_selectedError (Some e) m)),
                CmdNil))
  /\ (manifests m = [] -> skillErrors m = [] ->
      Update stat m (KeyMsg "enter") = Some (m, CmdNil)).
Proof.
  intros Hr Hv.
  pose proof (reachable_coherent m Hr) as [[Hc0 Hc1] _ _ _ _ _ _].
  rewrite !Update_otherView by (done || by rewrite Hv).
  unfold handleKeyPress. rewrite Hv. rewrite handleSkillListView_enter.
  cbv zeta. repeat apply conj.
  - intros s Hs.
    assert (Hlt : (skillCursor m < Z.of_nat (length (manifests m)))%Z).
    { apply lookup_lt_Some in Hs. lia. }
    destruct (Z.ltb_spec (skillCursor m) (Z.of_nat (length (manifests m))));
      [|lia].
    assert (Hi : index (manifests m) (skillCursor m) = Some s).
    { apply index_Some. split; [lia|done]. }
    rewrite Hi. cbn [mbind option_bind].
    rewrite (setupInputsFromManifest_Some _ _ s) by reflexivity.
    eexists. split; [reflexivity|]. cbn.
    rewrite focusFirst_Value, <- list_fmap_compose.
    repeat split; try done.
    + apply list_fmap_ext. intros i v _. cbn.
      apply inputForVariable_Value_full.
    + apply focusFirst_focusedAt.
  - intros e Hge He.
    destruct (Z.ltb_spec (skillCursor m) (Z.of_nat (length (manifests m))));
      [lia|].
    assert (Hlt : (skillCursor m - Z.of_nat (length (manifests m))
                   < Z.of_nat (length (skillErrors m)))%Z).
    { apply lookup_lt_Some in He. lia. }
    destruct (Z.ltb_spec (skillCursor m)
                (Z.of_nat (length (manifests m))
                 + Z.of_nat (length (skillErrors m)))); [|lia].
    assert (Hi : index (skillErrors m)
                   (skillCursor m - Z.of_nat (length (manifests m)))
                 = Some e).
    { apply index_Some. split; [lia|done]. }
    by rewrite Hi.
  - intros Hm He. rewrite Hm, He. cbn [length].
    change (Z.of_nat 0) with 0%Z.
    by rewrite !(proj2 (Z.ltb_ge _ _)) by lia.
Qed.

(** ** The deploy inputs made on leaving the configure view *)

(** X6: when the advance key of the configure view gives the deploy view,
    the deploy view has two inputs, labelled [Skills Folder] and [Skill
    Name], with limits of 200 and 100 characters, the focus on the first
    alone.  The skills folder input holds the skills folder saved
    before, or nothing; the skill name input holds the folder name saved
    before or, when none was saved, the name of the selected manifest,
    which is also its placeholder.  The saved target itself is left as
    it was. *)
Theorem deploy_prefill stat m s key m' c :
  currentView m = ViewConfig ->
  selectedSkill m = Some s ->
  key = "ctrl+d" \/ key = "enter" ->
  Update stat m (KeyMsg key) = Some (m', c) ->
  currentView m' = ViewDeploy ->
  exists a b,
    deployInputs m' = [a; b]
    /\ deployLabels m' = ["Skills Folder"; "Skill Name"]
    /\ deployFocus m' = 0%Z
    /\ textinput.focus a = true /\ textinput.focus b = false
    /\ textinput.CharLimit a = 200%Z /\ textinput.CharLimit b = 100%Z
    /\ textinput.Placeholder a = "/path/to/.claude/skills/"
    /\ textinput.Placeholder b = Manifest.Name s
    /\ textinput.Value a
       = (if String.eqb (skillsFolder m) "" then ""
          else textinput_clip 200 (skillsFolder m))
    /\ textinput.Value b
       = textinput_clip 100
           (if String.eqb (skillFolderName m) "" then Manifest.Name s
            else skillFolderName m)
    /\ skillsFolder m' = skillsFolder m
    /\ skillFolderName m' = skillFolderName m
    /\ selectedSkill m' = Some s.
Proof.
  intros Hv Hs Hk H Hv'.
  rewrite Update_configView in H by (done || by destruct Hk as [-> | ->]).
  rewrite configViewKey_advance in H by done.
  destruct (validateConfigInputs m) as [[m1 [|]]|] eqn:E; [| |done];
    cbn [mbind option_bind] in H;
    apply validateConfigInputs_Some in E as [e ->];
    [|simplify_eq; cbn in Hv'; congruence].
  destruct (saveConfigInputs _) as [m2|] eqn:E2; [|done].
  cbn [mbind option_bind] in H.
  apply saveConfigInputs_Some in E2 as [cv ->].
  simplify_eq. unfold setupDeployInputs. cbn. rewrite Hs.
  do 2 eexists. split; [reflexivity|].
  destruct (String.eqb (skillsFolder m) ""),
    (String.eqb (skillFolderName m) ""); cbn; repeat split; done.
Qed.

(** ** Coming back to a skill *)

Lemma enter_on_manifest stat m s :
  currentView m = ViewSkillList ->
  index (manifests m) (skillCursor m) = Some s ->
  Update stat m (KeyMsg "enter")
  = Some (set_configInputs
            (focusFirst
               (inputForVariable (configValues m) <$> Manifest.Variables s))
            (set_configFocus 0
               (set_configLabels (Var.Label <$> Manifest.Variables s)
                  (set_configInputs
                     (inputForVariable (configValues m)
                        <$> Manifest.Variables s)
                     (set_currentView ViewConfig
                        (set_selectedError None
                           (set_selectedSkill (Some s) m)))))),
          Blink).
Proof.
  intros Hv Hi.
  rewrite Update_otherView by (done || by rewrite Hv).
  unfold handleKeyPress. rewrite Hv, handleSkillListView_enter.
  cbv zeta.
  assert (Hlt : (skillCursor m <? Z.of_nat (length (manifests m)))%Z = true).
  { apply index_Some in Hi as [? Hi]. apply lookup_lt_Some in Hi.
    apply Z.ltb_lt. lia. }
  rewrite Hlt, Hi. cbn [mbind option_bind].
  by rewrite (setupInputsFromManifest_Some _ _ s) by reflexivity.
Qed.

(** X7: leaving the configure view of a reachable state with [esc] and
    choosing the same skill again with [enter] gives the configure view
    of that skill with every input holding what the configuration map
    has for its variable, or nothing: what was typed since the last
    accepted advance is dropped, the map is as it was and the errors are
    cleared. *)
Theorem reselect_drops_unsaved stat m s :
  reachable m ->
  currentView m = ViewConfig ->
  selectedSkill m = Some s ->
  exists m',
    feed filepath_Join textinput_clip textinput_Update stat m
      [KeyMsg "esc"; KeyMsg "enter"] = Some m'
    /\ currentView m' = ViewConfig
    /\ selectedSkill m' = Some s
    /\ configValues m' = configValues m
    /\ errorMsg m' = ""
    /\ configFocus m' = 0%Z
    /\ textinput.Value <$> configInputs m'
       = (fun v => match configValues m !! Var.Name v with
                   | Some val => textinput_clip 200 val
                   | None => ""
                   end) <$> Manifest.Variables s.
Proof.
  intros Hr Hv Hs.
  pose proof (reachable_coherent m Hr) as [[Hc0 _] _ _ _ _ _ Hcur].
  specialize (Hcur ltac:(by rewrite Hv)). rewrite Hs in Hcur.
  cbn [feed]. rewrite Update_configView by done.
  change (configViewKey m "esc")
    with (Some (set_errorMsg "" (set_currentView ViewSkillList m), CmdNil)).
  cbn [mbind option_bind].
  rewrite (enter_on_manifest _ _ s);
    [|done|apply index_Some; cbn; split; [|done];
           apply lookup_lt_Some in Hcur; lia].
  cbn [mbind option_bind]. eexists. split; [reflexivity|]. cbn.
  rewrite focusFirst_Value, <- list_fmap_compose.
  repeat split; try done.
  apply list_fmap_ext. intros i v _. cbn. apply inputForVariable_Value_full.
Qed.

(** ** Where the build and the deployment are started *)

(** X8: a transition returns the build command exactly in two cases:
    the affirming key of the confirm view when no deployed binary is
    found at the target, and [y] in the overwrite view; the command
    carries the new state, which is the old one in the building view
    with the messages cleared.  A transition returns the deploy command
    exactly in one case: the completion of a build without error,
    whatever the view; the command carries the new state, which is the
    old one with the build output stored.  In each of these cases the
    transition is made and the command returned. *)
Theorem build_and_deploy_commands stat m msg m' m0 :
  (Update stat m msg = Some (m', startBuildCmd m0)
   <-> m0 = m'
       /\ m' = set_statusMsg ""
                 (set_errorMsg ""
                    (set_building true (set_currentView ViewBuilding m)))
       /\ exists key,
            msg = KeyMsg key
            /\ ((currentView m = ViewConfirm /\ key ∈ ["enter"; "y"]
                 /\ skillExists stat m = Some false)
                \/ (currentView m = ViewOverwrite /\ key = "y")))
  /\ (Update stat m msg = Some (m', deploySkillCmd m0)
      <-> m0 = m'
          /\ exists output,
               msg = buildCompleteMsg output None
               /\ m' = set_buildOutput output (set_building false m)).
Proof.
  split; split.
  - intros H.
    remember (startBuildCmd m0) as c eqn:Hc.
    update_cases H ltac:(solve [
      repeat apply conj; try done;
      eexists; (split; [reflexivity|]);
      first [ left; repeat apply conj; try done; by apply keyIn_elem
            | right; split; [done|]; by apply String.eqb_eq ] ]).
  - intros (-> & -> & key & -> & Hcase).
    destruct Hcase as [(Hv & Hk & Hx) | (Hv & ->)].
    + assert (Hkey : key = "enter" \/ key = "y").
      { set_unfold. tauto. }
      rewrite Update_otherView
        by (by rewrite Hv || by destruct Hkey as [-> | ->]).
      unfold handleKeyPress. rewrite Hv.
      unfold handleConfirmView. rewrite Hx.
      by destruct Hkey as [-> | ->].
    + rewrite Update_otherView by (by rewrite Hv || done).
      unfold handleKeyPress. by rewrite Hv.
  - intros H.
    remember (deploySkillCmd m0) as c eqn:Hc.
    update_cases H ltac:(solve [
      split; [done|]; eexists; split; reflexivity ]).
  - intros (-> & output & -> & ->). reflexivity.
Qed.

(** X9: after the affirming key of the confirm view has started the build,
    a build without error gives the deploy command for a state with the
    selected skill, the configuration map, the project root and the
    deploy path that were confirmed, and a deployment without error then
    gives the done view with the success message and no error; a build
    with an error gives the done view with that error and no command, so
    nothing is deployed. *)
Theorem confirmed_data_reaches_deploy stat stat1 stat2 m key output :
  currentView m = ViewConfirm ->
  key = "enter" \/ key = "y" ->
  skillExists stat m = Some false ->
  exists m1 m2 m3,
    Update stat m (KeyMsg key) = Some (m1, startBuildCmd m1)
    /\ Update stat1 m1 (buildCompleteMsg output None)
       = Some (m2, deploySkillCmd m2)
    /\ Update stat2 m2 (deployCompleteMsg None) = Some (m3, CmdNil)
    /\ selectedSkill m2 = selectedSkill m
    /\ configValues m2 = configValues m
    /\ projectRoot m2 = projectRoot m
    /\ getDeployPath m2 = getDeployPath m
    /\ currentView m3 = ViewDone
    /\ statusMsg m3 = "Skill deployed successfully!"
    /\ errorMsg m3 = ""
    /\ buildOutput m3 = output
    /\ forall e,
         exists m4,
           Update stat1 m1 (buildCompleteMsg output (Some e))
           = Some (m4, CmdNil)
           /\ currentView m4 = ViewDone
           /\ errorMsg m4 = e /\ statusMsg m4 = ""
           /\ buildOutput m4 = output.
Proof.
  intros Hv Hk Hex.
  rewrite Update_otherView by (by rewrite Hv || by destruct Hk as [-> | ->]).
  unfold handleKeyPress. rewrite Hv.
  assert (E : handleConfirmView stat m key = Some (beginBuild m)).
  { unfold handleConfirmView. rewrite Hex.
    by destruct Hk as [-> | ->]. }
  rewrite E. unfold beginBuild.
  do 3 eexists. split; [reflexivity|].
  split; [reflexivity|]. split; [reflexivity|].
  repeat apply conj; try done.
  intros e. eexists. split; [reflexivity|]. done.
Qed.

(** ** The catalogue *)

Lemma feed_rtc stat msgs m m' :
  feed filepath_Join textinput_clip textinput_Update stat m msgs = Some m' ->
  rtc step m m'.
Proof.
  revert m. induction msgs as [|msg msgs IH]; intros m H; cbn in H.
  - injection H as <-. apply rtc_refl.
  - destruct (Update stat m msg) as [[m1 c]|] eqn:E; [|done]. cbn in H.
    eapply rtc_l; [|by apply IH]. by exists stat, msg, c.
Qed.

(** X10: no sequence of transitions changes the skills found at start, the
    skills that failed to load, the project root or the version. *)
Theorem catalog_never_changes m m' :
  rtc step m m' -> sameCatalog m m'.
Proof.
  induction 1 as [m|m m1 m2 (stat & msg & c & H) _ IH].
  - by repeat split.
  - apply Update_sameCatalog in H.
    destruct H as (H1 & H2 & H3 & H4), IH as (I1 & I2 & I3 & I4).
    repeat split; congruence.
Qed.

(** ** The saved deploy target *)



(** ** Moving the focus *)

Lemma modifyAt_eq {A : Type} (f : A -> A) (l : list A) (i : Z) (l' : list A) :
  modifyAt f l i = Some l' ->
  exists x, l !! Z.to_nat i = Some x /\ l' = <[Z.to_nat i := f x]> l.
Proof.
  unfold modifyAt. destruct (index l i) as [x|] eqn:E; [|done].
  cbn. intros [= <-]. apply index_Some in E as [_ E]. by exists x.
Qed.

Lemma Blur_Focus t : textinput.Blur (textinput.Focus t) = textinput.Blur t.
Proof. done. Qed.

Lemma Blur_Blur t : textinput.Blur (textinput.Blur t) = textinput.Blur t.
Proof. done. Qed.

Lemma Value_Blur (l : list textinput.Model) :
  textinput.Value <$> (textinput.Blur <$> l) = textinput.Value <$> l.
Proof. rewrite <- list_fmap_compose. by apply list_fmap_ext. Qed.

(** Blurring one input and focusing another changes nothing but the
    focus flags, and keeps the focus on one input alone. *)
Lemma refocus_spec (inputs : list textinput.Model) (a b : nat) x y :
  inputs !! a = Some x ->
  <[a := textinput.Blur x]> inputs !! b = Some y ->
  let inputs' := <[b := textinput.Focus y]> (<[a := textinput.Blur x]> inputs) in
  textinput.Blur <$> inputs' = textinput.Blur <$> inputs
  /\ (focusedAt inputs (Z.of_nat a) -> focusedAt inputs' (Z.of_nat b)).
Proof.
  intros Ha Hb inputs'. split.
  - unfold inputs'. rewrite !list_fmap_insert, Blur_Focus, Blur_Blur.
    assert (Hb' : <[a:=textinput.Blur x]> (textinput.Blur <$> inputs) !! b
                  = Some (textinput.Blur y)).
    { rewrite <- (Blur_Blur x), <- list_fmap_insert, list_lookup_fmap, Hb.
      done. }
    rewrite (list_insert_id _ b _ Hb'). apply list_insert_id.
    by rewrite list_lookup_fmap, Ha.
  - intros Hf j t Hj. unfold inputs' in Hj.
    destruct (decide (j = b)) as [->|Hjb].
    + rewrite list_lookup_insert_eq in Hj
        by (by eapply lookup_lt_Some).
      simplify_eq. cbn. symmetry. by apply Z.eqb_eq.
    + rewrite list_lookup_insert_ne in Hj by done.
      assert (Hne : (Z.of_nat j =? Z.of_nat b)%Z = false)
        by (apply Z.eqb_neq; lia).
      rewrite Hne.
      destruct (decide (j = a)) as [->|Hja].
      * rewrite list_lookup_insert_eq in Hj by (by eapply lookup_lt_Some).
        by simplify_eq.
      * rewrite list_lookup_insert_ne in Hj by done.
        rewrite (Hf j t Hj). apply Z.eqb_neq. lia.
Qed.

Lemma focusNext_spec (inputs inputs' : list textinput.Model) (focus focus' : Z) :
  focusNext inputs focus = Some (inputs', focus') ->
  focus' = ((focus + 1) `mod` Z.of_nat (length inputs))%Z
  /\ textinput.Blur <$> inputs' = textinput.Blur <$> inputs
  /\ (focusedAt inputs focus -> focusedAt inputs' focus').
Proof.
  intros H. pose proof (focusNext_Some _ _ _ _ H) as (_ & Hf & Hf').
  unfold focusNext in H.
  destruct (modifyAt textinput.Blur inputs focus) as [l1|] eqn:E1; [|done].
  cbn in H. pose proof (modifyAt_Some _ _ _ _ E1) as [_ Hl1].
  apply modifyAt_eq in E1 as (x & Hx & ->).
  destruct (Z.eqb_spec (Z.of_nat (length (<[Z.to_nat focus:=textinput.Blur x]> inputs))) 0)
    as [|Hn]; [done|].
  destruct (modifyAt textinput.Focus _ _) as [l2|] eqn:E2; [|done].
  cbn in H. apply modifyAt_eq in E2 as (y & Hy & ->).
  injection H as <- <-. rewrite Hl1 in *.
  split; [apply Z.rem_mod_nonneg; lia|].
  destruct (refocus_spec inputs _ _ x y Hx Hy) as [HB HF].
  split; [exact HB|].
  rewrite !Z2Nat.id in HF by lia. exact HF.
Qed.

Lemma focusPrev_spec (inputs inputs' : list textinput.Model) (focus focus' : Z) :
  focusPrev inputs focus = Some (inputs', focus') ->
  focus' = ((focus - 1) `mod` Z.of_nat (length inputs))%Z
  /\ textinput.Blur <$> inputs' = textinput.Blur <$> inputs
  /\ (focusedAt inputs focus -> focusedAt inputs' focus').
Proof.
  intros H. pose proof (focusPrev_Some _ _ _ _ H) as (_ & Hf & Hf').
  unfold focusPrev in H.
  destruct (modifyAt textinput.Blur inputs focus) as [l1|] eqn:E1; [|done].
  cbn in H. pose proof (modifyAt_Some _ _ _ _ E1) as [_ Hl1].
  apply modifyAt_eq in E1 as (x & Hx & ->).
  destruct (modifyAt textinput.Focus _ _) as [l2|] eqn:E2; [|done].
  cbn in H. apply modifyAt_eq in E2 as (y & Hy & ->).
  injection H as <- <-. rewrite Hl1 in *.
  split.
  { destruct (Z.ltb_spec (focus - 1) 0).
    - replace focus with 0%Z by lia. cbn.
      change (-1)%Z with (- (1))%Z.
      destruct (decide (Z.of_nat (length inputs) = 1%Z)) as [->|]; [done|].
      rewrite Z.mod_opp_l_nz; rewrite ?Z.mod_1_l; lia.
    - symmetry. apply Z.mod_small. lia. }
  destruct (refocus_spec inputs _ _ x y Hx Hy) as [HB HF].
  split; [exact HB|].
  rewrite !Z2Nat.id in HF by lia. exact HF.
Qed.

Lemma focusNext_is_Some (inputs : list textinput.Model) (focus : Z) :
  (0 <= focus < Z.of_nat (length inputs))%Z -> is_Some (focusNext inputs focus).
Proof.
  intros Hf. unfold focusNext.
  destruct (modifyAt_in_range textinput.Blur inputs focus Hf) as [l1 E1].
  rewrite E1. cbn. apply modifyAt_Some in E1 as [_ Hl1].
  destruct (Z.eqb_spec (Z.of_nat (length l1)) 0) as [|Hn]; [lia|].
  destruct (modifyAt_in_range textinput.Focus l1
              (Z.rem (focus + 1) (Z.of_nat (length l1)))) as [l2 E2].
  { rewrite Z.rem_mod_nonneg by lia. apply Z.mod_pos_bound. lia. }
  rewrite E2. by eexists.
Qed.

Lemma focusPrev_is_Some (inputs : list textinput.Model) (focus : Z) :
  (0 <= focus < Z.of_nat (length inputs))%Z -> is_Some (focusPrev inputs focus).
Proof.
  intros Hf. unfold focusPrev.
  destruct (modifyAt_in_range textinput.Blur inputs focus Hf) as [l1 E1].
  rewrite E1. cbn. apply modifyAt_Some in E1 as [_ Hl1].
  destruct (modifyAt_in_range textinput.Focus l1
              (if (focus - 1 <? 0)%Z then (Z.of_nat (length l1) - 1)%Z
               else (focus - 1)%Z)) as [l2 E2].
  { destruct (Z.ltb_spec (focus - 1) 0); lia. }
  rewrite E2. by eexists.
Qed.

(** Two lists of inputs that differ at most in their focus flags and
    have the focus on the same input alone are the same list. *)
Lemma focusedAt_unique (l l' : list textinput.Model) (focus : Z) :
  textinput.Blur <$> l' = textinput.Blur <$> l ->
  focusedAt l focus -> focusedAt l' focus -> l' = l.
Proof.
  intros HB Hl Hl'. apply list_eq. intros j.
  assert (Hj : (textinput.Blur <$> l') !! j = (textinput.Blur <$> l) !! j)
    by (by rewrite HB).
  rewrite !list_lookup_fmap in Hj.
  destruct (l !! j) as [t|] eqn:E, (l' !! j) as [t'|] eqn:E'; try done.
  cbn in Hj. apply Hl in E. apply Hl' in E'.
  destruct t, t'. cbn in *. unfold textinput.Blur in Hj. cbn in Hj.
  by simplify_eq.
Qed.

(** X11: the focus keys of the configure view, in a reachable state with at
    least one input: [tab] or [down] moves the focus to the next input,
    from the last one to the first; no value changes; and when the
    focused input is the only one with the focus, the same holds after
    the key, and [shift+tab] or [up] then gives back the state the first
    key was pressed in. *)
Theorem focus_round_trip stat m k1 k2 :
  reachable m ->
  currentView m = ViewConfig ->
  configInputs m <> [] ->
  k1 ∈ ["tab"; "down"] ->
  k2 ∈ ["shift+tab"; "up"] ->
  exists m1 m2,
    Update stat m (KeyMsg k1) = Some (m1, Blink)
    /\ Update stat m1 (KeyMsg k2) = Some (m2, Blink)
    /\ configFocus m1
       = ((configFocus m + 1) `mod` Z.of_nat (length (configInputs m)))%Z
    /\ configFocus m2 = configFocus m
    /\ textinput.Value <$> configInputs m1 = textinput.Value <$> configInputs m
    /\ textinput.Value <$> configInputs m2 = textinput.Value <$> configInputs m
    /\ (focusedAt (configInputs m) (configFocus m) ->
        focusedAt (configInputs m1) (configFocus m1) /\ m2 = m).
Proof.
  intros Hr Hv Hne Hk1 Hk2.
  pose proof (reachable_wellFormed _ _ _ m Hr) as Hwf.
  destruct (wf_focus m Hwf) as [Hf0 Hf1].
  assert (Hlen : (0 < Z.of_nat (length (configInputs m)))%Z).
  { destruct (configInputs m); [done|cbn; lia]. }
  assert (Hf : (0 <= configFocus m < Z.of_nat (length (configInputs m)))%Z)
    by lia.
  assert (K1 : keyIn k1 ["tab"; "down"] = true) by (by apply keyIn_elem).
  assert (K2 : keyIn k2 ["shift+tab"; "up"] = true) by (by apply keyIn_elem).
  assert (E1 : configViewKey m k1
               = '(inputs, focus) ← focusNext (configInputs m) (configFocus m);
                 Some (set_configFocus focus (set_configInputs inputs m), Blink)).
  { unfold configViewKey. rewrite K1.
    set_unfold. by destruct Hk1 as [-> | [-> | []]]. }
  assert (E2 : forall m1, configViewKey m1 k2
               = '(inputs, focus) ← focusPrev (configInputs m1) (configFocus m1);
                 Some (set_configFocus focus (set_configInputs inputs m1), Blink)).
  { intros m1. unfold configViewKey. rewrite K2.
    set_unfold. by destruct Hk2 as [-> | [-> | []]]. }
  destruct (focusNext_is_Some _ _ Hf) as [[l1 f1] EN].
  pose proof (focusNext_Some _ _ _ _ EN) as (Hl1 & _ & Hf1').
  destruct (focusPrev_is_Some l1 f1) as [[l2 f2] EP]; [by rewrite Hl1|].
  exists (set_configFocus f1 (set_configInputs l1 m)),
         (set_configFocus f2
            (set_configInputs l2
               (set_configFocus f1 (set_configInputs l1 m)))).
  rewrite !Update_configView, E1, E2
    by (done || set_unfold; by destruct Hk1 as [-> | [-> | []]];
                            destruct Hk2 as [-> | [-> | []]]).
  cbn [configInputs configFocus set_configFocus set_configInputs].
  rewrite EN, EP. cbn [mbind option_bind].
  apply focusNext_spec in EN as (Hfoc1 & HB1 & HF1).
  apply focusPrev_spec in EP as (Hfoc2 & HB2 & HF2).
  assert (Hback : f2 = configFocus m).
  { rewrite Hfoc2, Hfoc1, Hl1.
    rewrite Zminus_mod_idemp_l.
    replace (configFocus m + 1 - 1)%Z with (configFocus m) by lia.
    apply Z.mod_small. lia. }
  split; [reflexivity|]. split; [reflexivity|].
  cbn [configInputs configFocus set_configFocus set_configInputs].
  repeat apply conj; try done.
  - by rewrite <- Value_Blur, HB1, Value_Blur.
  - by rewrite <- Value_Blur, HB2, HB1, Value_Blur.
  - intros HF. split; [by apply HF1|].
    rewrite Hback in *.
    assert (l2 = configInputs m) as ->.
    { apply (focusedAt_unique _ _ (configFocus m)); [congruence|done|].
      apply HF2, HF1. done. }
    by destruct m.
Qed.

(** ** The views never fail *)

Section Rendering.

Variable Render : Style -> string -> string.
Variable textinput_View : textinput.Model -> string.

Lemma mapM_imap_is_Some {A B : Type} (f : nat -> A -> option B) (l : list A) :
  (forall i x, l !! i = Some x -> is_Some (f i x)) ->
  is_Some (mapM id (imap f l)).
Proof.
  intros H. apply mapM_is_Some, Forall_lookup. intros i y Hy.
  rewrite list_lookup_imap in Hy.
  destruct (l !! i) as [x|] eqn:E; [|done]. cbn in Hy. simplify_eq.
  by apply H.
Qed.

(** X12: [View] indexes the labels by the position of each input, in the
    configure and in the deploy view.  In a reachable state there is a
    label for every input, so [View] returns a screen and never fails
    with an index out of range. *)
Theorem View_never_panics m :
  reachable m ->
  is_Some (ModelView filepath_Join Render textinput_View m).
Proof.
  intros Hr. pose proof (reachable_coherent m Hr) as [_ Hc Hd _ _ _ _].
  unfold ModelView. destruct (quitting m); [by eexists|].
  assert (HC : is_Some (renderConfig Render textinput_View m)).
  { unfold renderConfig.
    match goal with
    | |- is_Some (mapM id (imap ?f ?l) ≫= _) =>
        destruct (mapM_imap_is_Some f l) as [blocks ->]; [|by eexists]
    end.
    intros i x Hx. apply lookup_lt_Some in Hx. rewrite <- Hc in Hx.
    destruct (lookup_lt_is_Some_2 _ _ Hx) as [label ->]. by eexists. }
  assert (HD : is_Some (renderDeploy Render textinput_View m)).
  { unfold renderDeploy.
    match goal with
    | |- is_Some (mapM id (imap ?f ?l) ≫= _) =>
        destruct (mapM_imap_is_Some f l) as [blocks ->]; [|by eexists]
    end.
    intros i x Hx. apply lookup_lt_Some in Hx. rewrite <- Hd in Hx.
    destruct (lookup_lt_is_Some_2 _ _ Hx) as [label ->]. by eexists. }
  destruct (currentView m); cbn [mbind option_bind]; try by eexists.
  - destruct HC as [c ->]. by eexists.
  - destruct HD as [c ->]. by eexists.
Qed.

(** X13: leaving the wizard.  A transition from a state that is not quitting
    returns the quit command exactly when it sets the quitting flag;
    [ctrl+c] does so in every view; and the screen of a quitting state
    is the one line [Goodbye!]. *)
Theorem quit_iff_quitting stat m msg m' c :
  Update stat m msg = Some (m', c) ->
  quitting m = false ->
  (c = Quit <-> quitting m' = true)
  /\ (msg = KeyMsg "ctrl+c" -> c = Quit)
  /\ (quitting m' = true ->
      ModelView filepath_Join Render textinput_View m'
      = Some ("Goodbye!" +:+ strings.nl)).
Proof.
  intros H Hq.
  assert (Hview : quitting m' = true ->
            ModelView filepath_Join Render textinput_View m'
            = Some ("Goodbye!" +:+ strings.nl)).
  { intros E. unfold ModelView. by rewrite E. }
  split; [|split; [|exact Hview]]; clear Hview.
  - update_cases H ltac:(solve [
      split; [done|done]
    | split; [discriminate|cbn; congruence] ]).
  - intros ->. unfold Update in H. cbn in H. by simplify_eq.
Qed.

End Rendering.

End WizardMore.

(** * Further properties of the build and the deployment *)

Section BuildDeploy.

Variable filepath_Join : list string -> string.
Variable exec_CombinedOutput : string -> list string -> option string.
Variable GetSkillDescription : Manifest.t -> string.
Variable go_CombinedOutput : string -> list string -> string * option string.

Local Abbreviation deploySkill :=
  (deploySkill filepath_Join exec_CombinedOutput GetSkillDescription).
Local Abbreviation generateSkillDocs :=
  (generateSkillDocs filepath_Join exec_CombinedOutput GetSkillDescription).
Local Abbreviation renderSkillDocs :=
  (renderSkillDocs filepath_Join exec_CombinedOutput GetSkillDescription).
Local Abbreviation replacePlaceholders :=
  (replacePlaceholders filepath_Join exec_CombinedOutput).
Local Abbreviation extractCommands := (extractCommands exec_CombinedOutput).
Local Abbreviation commandDoc := (commandDoc exec_CombinedOutput).
Local Abbreviation getDeployPath := (getDeployPath filepath_Join).
Local Abbreviation templatePathOf := (templatePathOf filepath_Join).
Local Abbreviation outputPathOf := (outputPathOf filepath_Join).
Local Abbreviation startBuild := (startBuild filepath_Join go_CombinedOutput).
Local Abbreviation buildOutputPath := (buildOutputPath filepath_Join).

(** What [generateSkillDocs] does in any world, as one equation. *)
Lemma generateSkillDocs_run (w : os.World) (st : os.state w) (m : Model)
    (s : Manifest.t) :
  selectedSkill m = Some s ->
  os.run w (generateSkillDocs m) st
  = let templateData := os.readFile w (templatePathOf s) st in
    let content := renderSkillDocs m s templateData in
    let written := os.writeFile w (outputPathOf m) content 420 st in
    (written.1, written.2,
     [os.EvReadFile (templatePathOf s) templateData;
      os.EvWriteFile (outputPathOf m) content 420 written.1]).
Proof.
  intros Hs. unfold generateSkillDocs. rewrite Hs. cbn [os.run].
  cbv zeta. by destruct (os.writeFile w _ _ 420 st).
Qed.

Lemma run_bind {A B : Type} (w : os.World) (p : os.Proc A)
    (f : A -> os.Proc B) (st : os.state w) :
  os.run w (os.bind p f) st
  = let '(a, st1, tr1) := os.run w p st in
    let '(b, st2, tr2) := os.run w (f a) st1 in
    (b, st2, (tr1 ++ tr2)%list).
Proof.
  revert st. induction p as [a|path perm k IH|path k IH|path k IH
                            |path data perm k IH|path k IH]; intros st;
    cbn [os.bind os.run].
  - by destruct (os.run w (f a) st) as [[??]?].
  - rewrite IH. destruct (os.run w k _) as [[a st1] tr1].
    by destruct (os.run w (f a) st1) as [[??]?].
  - rewrite IH. destruct (os.run w (k _) _) as [[a st1] tr1].
    by destruct (os.run w (f a) st1) as [[??]?].
  - rewrite IH. destruct (os.run w k _) as [[a st1] tr1].
    by destruct (os.run w (f a) st1) as [[??]?].
  - destruct (os.writeFile w path data perm st) as [r s1].
    rewrite IH. destruct (os.run w (k r) s1) as [[a st1] tr1].
    by destruct (os.run w (f a) st1) as [[??]?].
  - rewrite IH. destruct (os.run w k _) as [[a st1] tr1].
    by destruct (os.run w (f a) st1) as [[??]?].
Qed.

(** X15: a deployment reports success exactly when it made these eight calls
    in this order, each write answered without error: create the [bin]
    directory with bits 0755, read the built binary, remove the deployed
    binary, write the binary with bits 0755, write the environment file
    with bits 0600, read the template, write the documentation with bits
    0644, and remove the build directory. *)
Theorem deploy_success_trace (w : os.World) (st : os.state w) (m : Model)
    (s : Manifest.t) :
  selectedSkill m = Some s ->
  let dstBinDir := filepath_Join [getDeployPath m; "bin"] in
  let distDir := filepath_Join [projectRoot m; "dist"] in
  let srcBinary := filepath_Join [distDir; binaryNameOf s] in
  let dstBinary := filepath_Join [dstBinDir; binaryNameOf s] in
  (os.run w (deploySkill m) st).1.1 = deployCompleteMsg None
  <-> exists binaryData templateData,
        (os.run w (deploySkill m) st).2
        = [os.EvMkdirAll dstBinDir 493;
           os.EvReadFile srcBinary (os.Ok binaryData);
           os.EvRemove dstBinary;
           os.EvWriteFile dstBinary binaryData 493 None;
           os.EvWriteFile (filepath_Join [dstBinDir; ".env"])
             (generateEnvFile m s) 384 None;
           os.EvReadFile (templatePathOf s) templateData;
           os.EvWriteFile (outputPathOf m)
             (renderSkillDocs m s templateData) 420 None;
           os.EvRemoveAll distDir].
Proof.
  intros Hs dstBinDir distDir srcBinary dstBinary.
  unfold deploySkill. rewrite Hs.
  destruct (String.eqb (getDeployPath m) "").
  { cbn. split; [done|]. by intros (? & ? & ?). }
  cbn [os.run].
  fold dstBinDir. fold distDir. fold srcBinary. fold dstBinary.
  destruct (os.readFile w srcBinary _) as [binaryData|e].
  2:{ cbn. split; [done|]. by intros (? & ? & ?). }
  cbn [os.run].
  destruct (os.writeFile w dstBinary binaryData 493 _) as [[e|] st1].
  { cbn. split; [done|]. by intros (? & ? & ?). }
  cbn [os.run].
  destruct (os.writeFile w _ (generateEnvFile m s) 384 st1) as [[e|] st2].
  { cbn. split; [done|]. by intros (? & ? & ?). }
  rewrite run_bind, (generateSkillDocs_run _ _ _ s Hs). cbv zeta.
  destruct (os.writeFile w (outputPathOf m) _ 420 st2) as [[e|] st3].
  { cbn. split; [done|]. by intros (? & ? & ?). }
  cbn. split; [|done]. intros _. by do 2 eexists.
Qed.

Ltac not_in_trace H :=
  repeat (apply elem_of_cons in H as [H|H]; [discriminate H|]);
  by apply elem_of_nil in H.

(** X16: a deployment always sends a [deployCompleteMsg].  Without a selected
    skill or with an empty deploy path it touches nothing.  When it
    reports an error it has not removed the build directory.  When the
    built binary cannot be read it stops after the read with the error
    [failed to read binary], having removed and written nothing: a
    binary deployed before stays in place. *)
Theorem deploy_failures (w : os.World) (st : os.state w) (m : Model) :
  let r := os.run w (deploySkill m) st in
  (exists err, r.1.1 = deployCompleteMsg err)
  /\ (selectedSkill m = None \/ getDeployPath m = "" ->
      r.1.2 = st /\ r.2 = [])
  /\ (forall e, r.1.1 = deployCompleteMsg (Some e) ->
                forall p, os.EvRemoveAll p ∉ r.2)
  /\ (forall s e,
        selectedSkill m = Some s -> getDeployPath m <> "" ->
        let dstBinDir := filepath_Join [getDeployPath m; "bin"] in
        os.readFile w (buildOutputPath m s) (os.mkdirAll w dstBinDir 493 st)
        = os.Err e ->
        r = (deployCompleteMsg (Some ("failed to read binary: " +:+ e)),
             os.mkdirAll w dstBinDir 493 st,
             [os.EvMkdirAll dstBinDir 493;
              os.EvReadFile (buildOutputPath m s) (os.Err e)])).
Proof.
  intros r. subst r. unfold deploySkill, buildOutputPath.
  destruct (selectedSkill m) as [s|] eqn:Hs.
  2:{ cbn. repeat apply conj; try done.
      - by eexists.
      - intros _ _ p Hp. by apply elem_of_nil in Hp. }
  destruct (String.eqb_spec (getDeployPath m) "") as [Hp|Hp].
  { cbn. repeat apply conj; try done.
    - by eexists.
    - intros _ _ p Hp'. by apply elem_of_nil in Hp'. }
  cbn [os.run].
  destruct (os.readFile w _ _) as [binaryData|e0] eqn:Hread.
  2:{ cbn. repeat apply conj.
      - by eexists.
      - intros [?|?]; done.
      - intros _ _ p Hp'. not_in_trace Hp'.
      - intros s' e [= <-] _ He. cbv zeta in He. congruence. }
  cbn [os.run].
  destruct (os.writeFile w _ binaryData 493 _) as [[e1|] st1].
  { cbn. repeat apply conj.
    - by eexists.
    - intros [?|?]; done.
    - intros _ _ p Hp'. not_in_trace Hp'.
    - intros s' e [= <-] _ He. cbv zeta in He. congruence. }
  cbn [os.run].
  destruct (os.writeFile w _ (generateEnvFile m s) 384 st1) as [[e2|] st2].
  { cbn. repeat apply conj.
    - by eexists.
    - intros [?|?]; done.
    - intros _ _ p Hp'. not_in_trace Hp'.
    - intros s' e [= <-] _ He. cbv zeta in He. congruence. }
  rewrite run_bind, (generateSkillDocs_run _ _ _ s Hs). cbv zeta.
  destruct (os.writeFile w (outputPathOf m) _ 420 st2) as [[e3|] st3].
  { cbn. repeat apply conj.
    - by eexists.
    - intros [?|?]; done.
    - intros _ _ p Hp'. not_in_trace Hp'.
    - intros s' e [= <-] _ He. cbv zeta in He. congruence. }
  cbn. repeat apply conj.
  - by eexists.
  - intros [?|?]; done.
  - done.
  - intros s' e [= <-] _ He. cbv zeta in He. congruence.
Qed.

(** X17: [startBuild] makes one call, the creation of the build directory,
    and sends a [buildCompleteMsg]: with the error [no skill selected]
    when no skill is selected, else with an error that starts with
    [build failed] or with the output [Built:] and the path of the
    binary.  That path is the one a deployment of the same state reads
    the binary from, right after creating the [bin] directory. *)
Theorem build_feeds_deploy (w : os.World) (st : os.state w)
    (w' : os.World) (st' : os.state w') (m : Model) :
  (selectedSkill m = None ->
   os.run w (startBuild m) st
   = (buildCompleteMsg "" (Some "no skill selected"), st, []))
  /\ (forall s,
        selectedSkill m = Some s ->
        let distDir := filepath_Join [projectRoot m; "dist"] in
        (exists output err,
           os.run w (startBuild m) st
           = (buildCompleteMsg output err, os.mkdirAll w distDir 493 st,
              [os.EvMkdirAll distDir 493])
           /\ (err = None -> output = "Built: " +:+ buildOutputPath m s)
           /\ (forall e, err = Some e ->
                         strings.HasPrefix e "build failed: " = true))
        /\ (getDeployPath m <> "" ->
            exists r rest,
              (os.run w' (deploySkill m) st').2
              = os.EvMkdirAll (filepath_Join [getDeployPath m; "bin"]) 493
                  :: os.EvReadFile (buildOutputPath m s) r :: rest)).
Proof.
  split.
  - intros Hs. unfold startBuild. by rewrite Hs.
  - intros s Hs distDir. split.
    + unfold startBuild. rewrite Hs. cbn [os.run]. fold distDir.
      destruct (go_CombinedOutput _ _) as [output [e|]]; cbn.
      * do 2 eexists. split; [reflexivity|]. split; [done|].
        intros ? [= <-]. apply strings_facts.HasPrefix_app.
      * do 2 eexists. split; [reflexivity|]. split; [done|]. done.
    + intros Hp. unfold deploySkill. rewrite Hs.
      destruct (String.eqb_spec (getDeployPath m) "") as [|_]; [done|].
      cbn [os.run]. unfold buildOutputPath.
      match goal with
      | |- context [os.run w' ?p ?s] =>
          destruct (os.run w' p s) as [[a s3] tr]
      end.
      cbn. by do 2 eexists.
Qed.

(** ** The documentation *)

(** X18: the text put in place of the commands placeholder is never empty:
    when the help of the binary gives nothing to write, it is the
    instruction to run the binary with [--help]. *)
Theorem extractCommands_never_empty (binaryPath displayPath : string) :
  extractCommands binaryPath displayPath <> "".
Proof.
  assert (Hf : helpFallback displayPath <> "").
  { unfold helpFallback. by rewrite strings_facts.app_cons. }
  unfold extractCommands.
  destruct (runHelp _ _ _) as [output|]; [|done].
  destruct (length (parseSubcommands output) =? 0)%nat; [done|].
  destruct (String.length _ =? 0)%nat eqn:E; [done|].
  intros Hb. rewrite Hb in E. done.
Qed.

Lemma HasPrefix_app_l (s a b : string) :
  strings.HasPrefix s (a +:+ b) = true -> strings.HasPrefix s a = true.
Proof.
  revert s. induction a as [|c a IH]; intros s;
    [intros _; apply strings_facts.HasPrefix_nil|].
  rewrite strings_facts.app_cons. destruct s as [|d s]; [done|]. cbn.
  destruct (Ascii.eqb d c); [apply IH|done].
Qed.

Lemma Index_None_HasPrefix (s sub : string) :
  strings.Index s sub = None -> strings.HasPrefix s sub = false.
Proof.
  destruct s as [|c s]; cbn [strings.Index].
  - by destruct (strings.HasPrefix "" sub).
  - by destruct (strings.HasPrefix (String c s) sub).
Qed.

Lemma Index_None_tail (c : ascii) (s sub : string) :
  strings.Index (String c s) sub = None -> strings.Index s sub = None.
Proof.
  cbn [strings.Index].
  destruct (strings.HasPrefix (String c s) sub); [done|].
  by destruct (strings.Index s sub).
Qed.

Lemma Index_None_ext (s a b : string) :
  strings.Index s a = None -> strings.Index s (a +:+ b) = None.
Proof.
  induction s as [|c s IH]; intros H.
  - pose proof (Index_None_HasPrefix _ _ H) as Hp. cbn [strings.Index].
    destruct (strings.HasPrefix "" (a +:+ b)) eqn:E; [|done].
    apply HasPrefix_app_l in E. congruence.
  - pose proof (Index_None_HasPrefix _ _ H) as Hp.
    apply Index_None_tail in H. cbn [strings.Index].
    destruct (strings.HasPrefix (String c s) (a +:+ b)) eqn:E.
    + apply HasPrefix_app_l in E. congruence.
    + by rewrite IH.
Qed.

(** Replacing a text that does not occur changes nothing. *)
Lemma Replace_absent (s old new : string) (n : option nat) :
  strings.Index s old = None -> strings.Replace s old new n = s.
Proof.
  unfold strings.Replace. revert n.
  induction s as [|c s IH]; intros n H; [done|].
  pose proof (Index_None_HasPrefix _ _ H) as Hp.
  apply Index_None_tail in H. cbn [strings.replace_go].
  destruct n as [[|n]|]; [done| |]; rewrite Hp, IH; done.
Qed.

(** X19: a template without two opening braces in a row has no placeholder,
    and [replacePlaceholders] returns it as it is, whatever the state,
    the manifest and the help of the binary. *)
Theorem replacePlaceholders_no_placeholder (m : Model) (s : Manifest.t)
    (content : string) :
  strings.Index content "{{" = None ->
  replacePlaceholders m s content = content.
Proof.
  intros H. unfold replacePlaceholders. cbv zeta.
  assert (H1 : forall new n,
             strings.Replace content "{{SKILL_PATH}}" new n = content).
  { intros. apply Replace_absent.
    apply (Index_None_ext content "{{" "SKILL_PATH}}" H). }
  assert (H2 : forall new n,
             strings.Replace content "{{PROJECT_IDS_TABLE}}" new n = content).
  { intros. apply Replace_absent.
    apply (Index_None_ext content "{{" "PROJECT_IDS_TABLE}}" H). }
  assert (H3 : forall new n,
             strings.Replace content "{{COMMANDS}}" new n = content).
  { intros. apply Replace_absent.
    apply (Index_None_ext content "{{" "COMMANDS}}" H). }
  rewrite H1.
  destruct (configValues m !! "PROJECT_IDS") as [ids|];
    [destruct (negb (String.eqb ids ""))|]; by rewrite H2, H3.
Qed.

(** What [stripFrontmatter] makes of a text with a complete header. *)
Lemma stripFrontmatter_header (hdr body : string) :
  strings.Index (strings.nl +:+ hdr +:+ "--") "---" = None ->
  stripFrontmatter ("---" +:+ strings.nl +:+ hdr +:+ "---" +:+ body)
  = strings.TrimLeft body strings.nl.
Proof.
  intros H. unfold stripFrontmatter.
  rewrite strings_facts.HasPrefix_app. cbn [negb].
  change (strings.drop 3 ("---" +:+ ?x)) with x.
  rewrite <- (strings_facts.app_assoc strings.nl hdr).
  rewrite <- (strings_facts.app_assoc strings.nl hdr) in H.
  rewrite (strings_facts.Index_closing _ _ H).
  replace (String.length (strings.nl +:+ hdr) + 3)
    with (String.length ((strings.nl +:+ hdr) +:+ "---")).
  2:{ rewrite strings_facts.length_app. simpl. lia. }
  rewrite <- (strings_facts.app_assoc (strings.nl +:+ hdr) "---").
  by rewrite strings_facts.drop_app_length.
Qed.

(** X20: the header [generateFrontmatter] writes is one [stripFrontmatter]
    takes off again: when the name and the description of the skill
    bring no three dashes in a row into the header, stripping the header
    followed by any body gives the body without its leading line feeds;
    so the documentation written for a skill without template, read
    back, is the basic documentation. *)
Theorem generated_header_strips_off (m : Model) (s : Manifest.t) :
  let hdr := "name: " +:+ Manifest.Name s +:+ strings.nl
             +:+ "description: " +:+ GetSkillDescription s +:+ strings.nl in
  strings.Index (strings.nl +:+ hdr +:+ "--") "---" = None ->
  (forall body,
     stripFrontmatter (generateFrontmatter GetSkillDescription s +:+ body)
     = strings.TrimLeft body strings.nl)
  /\ (forall e,
        stripFrontmatter (renderSkillDocs m s (os.Err e))
        = generateBasicDocs s).
Proof.
  intros hdr H.
  assert (E : forall body,
            generateFrontmatter GetSkillDescription s +:+ body
            = "---" +:+ strings.nl +:+ hdr +:+ "---"
              +:+ (strings.nl +:+ strings.nl +:+ body)).
  { intros body. unfold generateFrontmatter, hdr.
    by rewrite !strings_facts.app_assoc. }
  assert (G : forall body,
            stripFrontmatter (generateFrontmatter GetSkillDescription s +:+ body)
            = strings.TrimLeft body strings.nl).
  { intros body. rewrite E, (stripFrontmatter_header hdr _ H). done. }
  split; [exact G|].
  intros e. unfold renderSkillDocs. rewrite G.
  unfold generateBasicDocs. by rewrite strings_facts.app_cons.
Qed.

End BuildDeploy.

(** * Further properties of the help parsers *)

Lemma parseSubcommands_lines_sound (b : bool) (lines : list string) (c : string) :
  c ∈ parseSubcommands_lines b lines ->
  c <> "help" /\ c <> "completion"
  /\ exists line,
       line ∈ lines
       /\ strings.Fields (strings.TrimSpace line) !! 0 = Some c
       /\ strings.HasPrefix (strings.TrimSpace line) "Available Commands:" = false.
Proof.
  revert b. induction lines as [|line rest IH]; intros b H.
  { by apply elem_of_nil in H. }
  assert (Hrec : forall b', c ∈ parseSubcommands_lines b' rest ->
            c <> "help" /\ c <> "completion"
            /\ exists l,
                 l ∈ line :: rest
                 /\ strings.Fields (strings.TrimSpace l) !! 0 = Some c
                 /\ strings.HasPrefix (strings.TrimSpace l)
                      "Available Commands:" = false).
  { intros b' H'. destruct (IH b' H') as (? & ? & l & ? & ? & ?).
    repeat split; try done. exists l. split; [by apply elem_of_cons; right|done]. }
  cbn [parseSubcommands_lines] in H. cbv zeta in H.
  destruct (strings.HasPrefix (strings.TrimSpace line) "Available Commands:")
    eqn:Ha; [by eapply Hrec|].
  destruct b; [|by eapply Hrec].
  destruct (String.eqb (strings.TrimSpace line) ""
            || strings.HasSuffix (strings.TrimSpace line) ":").
  { destruct (strings.HasSuffix (strings.TrimSpace line) ":"
              && negb (strings.HasPrefix (strings.TrimSpace line) "Available")).
    - by apply elem_of_nil in H.
    - by eapply Hrec. }
  destruct (strings.Fields (strings.TrimSpace line)) as [|cmdName ws] eqn:Ef;
    [by eapply Hrec|].
  destruct (negb (String.eqb cmdName "help")
            && negb (String.eqb cmdName "completion")) eqn:En;
    [|by eapply Hrec].
  apply elem_of_cons in H as [->|H]; [|by eapply Hrec].
  apply andb_true_iff in En as [E1 E2].
  apply negb_true_iff, String.eqb_neq in E1, E2.
  repeat split; try done. exists line.
  split; [by apply elem_of_cons; left|]. by rewrite Ef.
Qed.

Lemma parseSubcommands_lines_none (lines : list string) :
  (forall line, line ∈ lines ->
     strings.HasPrefix (strings.TrimSpace line) "Available Commands:" = false) ->
  parseSubcommands_lines false lines = [].
Proof.
  induction lines as [|line rest IH]; intros H; [done|].
  cbn [parseSubcommands_lines]. cbv zeta.
  rewrite (H line) by (by apply elem_of_cons; left).
  apply IH. intros l Hl. apply H. by apply elem_of_cons; right.
Qed.

(** X21: every command [parseSubcommands] returns is the first word of a line
    of the help text, that line not being the [Available Commands:]
    heading, and is neither [help] nor [completion]; a help text without
    the heading gives no command. *)
Theorem parseSubcommands_sound (helpText : string) :
  (forall c,
     c ∈ parseSubcommands helpText ->
     c <> "help" /\ c <> "completion"
     /\ exists line,
          line ∈ strings.Split helpText strings.nl
          /\ strings.Fields (strings.TrimSpace line) !! 0 = Some c
          /\ strings.HasPrefix (strings.TrimSpace line)
               "Available Commands:" = false)
  /\ ((forall line,
         line ∈ strings.Split helpText strings.nl ->
         strings.HasPrefix (strings.TrimSpace line) "Available Commands:"
         = false) ->
      parseSubcommands helpText = []).
Proof.
  split.
  - intros c. apply parseSubcommands_lines_sound.
  - apply parseSubcommands_lines_none.
Qed.

Lemma parseFlags_lines_sound (b : bool) (lines : list string) (f : string) :
  f ∈ parseFlags_lines b lines ->
  f <> "" /\ strings.Contains f "--help" = false
  /\ exists line,
       line ∈ lines
       /\ strings.HasPrefix (strings.TrimSpace line) "-" = true
       /\ f = formatFlag (strings.TrimSpace line).
Proof.
  revert b. induction lines as [|line rest IH]; intros b H.
  { by apply elem_of_nil in H. }
  assert (Hrec : forall b', f ∈ parseFlags_lines b' rest ->
            f <> "" /\ strings.Contains f "--help" = false
            /\ exists l,
                 l ∈ line :: rest
                 /\ strings.HasPrefix (strings.TrimSpace l) "-" = true
                 /\ f = formatFlag (strings.TrimSpace l)).
  { intros b' H'. destruct (IH b' H') as (? & ? & l & ? & ? & ?).
    repeat split; try done. exists l. split; [by apply elem_of_cons; right|done]. }
  cbn [parseFlags_lines] in H. cbv zeta in H.
  destruct (strings.HasPrefix (strings.TrimSpace line) "Flags:");
    [by eapply Hrec|].
  destruct b; [|by eapply Hrec].
  destruct (String.eqb (strings.TrimSpace line) ""); [by eapply Hrec|].
  destruct (strings.HasSuffix (strings.TrimSpace line) ":");
    [by apply elem_of_nil in H|].
  destruct (strings.HasPrefix (strings.TrimSpace line) "-") eqn:Hd;
    [|by eapply Hrec].
  destruct (negb (String.eqb (formatFlag (strings.TrimSpace line)) "")
            && negb (strings.Contains (formatFlag (strings.TrimSpace line))
                       "--help")) eqn:En;
    [|by eapply Hrec].
  apply elem_of_cons in H as [->|H]; [|by eapply Hrec].
  apply andb_true_iff in En as [E1 E2].
  apply negb_true_iff in E1, E2. apply String.eqb_neq in E1.
  repeat split; try done. exists line.
  split; [by apply elem_of_cons; left|done].
Qed.

Lemma parseFlags_lines_none (lines : list string) :
  (forall line, line ∈ lines ->
     strings.HasPrefix (strings.TrimSpace line) "Flags:" = false) ->
  parseFlags_lines false lines = [].
Proof.
  induction lines as [|line rest IH]; intros H; [done|].
  cbn [parseFlags_lines]. cbv zeta.
  rewrite (H line) by (by apply elem_of_cons; left).
  apply IH. intros l Hl. apply H. by apply elem_of_cons; right.
Qed.

(** A flag line of fewer than two words formats to nothing. *)
Lemma formatFlag_short (line : string) :
  length (strings.Fields line) < 2 -> formatFlag line = "".
Proof.
  intros H. unfold formatFlag, flagPartsOf.
  destruct (Nat.ltb_spec (length (strings.Fields line)) 2); [done|lia].
Qed.

(** X22: every entry [parseFlags] returns is what [formatFlag] makes of a
    line of the help text that starts with a dash, is not empty and does
    not mention [--help]; the line has at least two words; a help text
    without a [Flags:] heading gives no entry. *)
Theorem parseFlags_sound (helpOutput : string) :
  (forall f,
     f ∈ parseFlags helpOutput ->
     f <> "" /\ strings.Contains f "--help" = false
     /\ exists line,
          line ∈ strings.Split helpOutput strings.nl
          /\ strings.HasPrefix (strings.TrimSpace line) "-" = true
          /\ 2 <= length (strings.Fields (strings.TrimSpace line))
          /\ f = formatFlag (strings.TrimSpace line))
  /\ ((forall line,
         line ∈ strings.Split helpOutput strings.nl ->
         strings.HasPrefix (strings.TrimSpace line) "Flags:" = false) ->
      parseFlags helpOutput = []).
Proof.
  split.
  - intros f Hf.
    destruct (parseFlags_lines_sound _ _ _ Hf) as (Hne & Hh & line & Hl & Hd & ->).
    repeat split; try done. exists line. repeat split; try done.
    destruct (Nat.le_gt_cases 2
                (length (strings.Fields (strings.TrimSpace line))))
      as [|Hlt]; [done|].
    by apply formatFlag_short in Hlt.
  - apply parseFlags_lines_none.
Qed.

Lemma parseDescription_lines_sound (lines : list string) :
  parseDescription_lines lines = ""
  \/ exists i line,
       lines !! i = Some line
       /\ (forall j l, j < i -> lines !! j = Some l -> strings.TrimSpace l = "")
       /\ parseDescription_lines lines = strings.TrimSpace line
       /\ strings.TrimSpace line <> ""
       /\ strings.HasPrefix (strings.TrimSpace line) "Usage:" = false.
Proof.
  induction lines as [|line rest IH]; [by left|].
  cbn [parseDescription_lines]. cbv zeta.
  destruct (String.eqb_spec (strings.TrimSpace line) "") as [E1|E1],
    (strings.HasPrefix (strings.TrimSpace line) "Usage:") eqn:E2;
    cbn [negb andb]; try by left.
  - destruct IH as [IH|(i & l & Hl & Hb & IH & Hn & Hu)]; [by left|].
    right. exists (S i), l. repeat split; try done.
    intros [|j] l' Hj Hl'; cbn in Hl'; [by simplify_eq|].
    apply (Hb j); [lia|done].
  - right. exists 0, line. repeat split; try done. intros j l Hj. lia.
Qed.

Lemma parseUsage_lines_sound (lines : list string) :
  parseUsage_lines lines = ""
  \/ exists i line next w1 w2 ws,
       lines !! i = Some line /\ lines !! S i = Some next
       /\ strings.HasPrefix (strings.TrimSpace line) "Usage:" = true
       /\ strings.Fields (strings.TrimSpace next) = w1 :: w2 :: ws
       /\ parseUsage_lines lines = strings.Join (w2 :: ws) " ".
Proof.
  induction lines as [|line rest IH]; [by left|].
  assert (Hrec : parseUsage_lines rest = ""
            \/ exists i l next w1 w2 ws,
                 (line :: rest) !! i = Some l
                 /\ (line :: rest) !! S i = Some next
                 /\ strings.HasPrefix (strings.TrimSpace l) "Usage:" = true
                 /\ strings.Fields (strings.TrimSpace next) = w1 :: w2 :: ws
                 /\ parseUsage_lines rest = strings.Join (w2 :: ws) " ").
  { destruct IH as [IH|(i & l & next & w1 & w2 & ws & ? & ? & ? & ? & ?)];
      [by left|].
    right. by exists (S i), l, next, w1, w2, ws. }
  cbn [parseUsage_lines].
  destruct (strings.HasPrefix (strings.TrimSpace line) "Usage:") eqn:Hu;
    [|exact Hrec].
  destruct rest as [|next rest']; [exact Hrec|].
  destruct (strings.Fields (strings.TrimSpace next)) as [|w1 [|w2 ws]] eqn:Ef;
    [exact Hrec|exact Hrec|].
  right. by exists 0, line, next, w1, w2, ws.
Qed.

(** X23: the description [parseDescription] returns is empty or the first
    line of the help text that is not blank, without its surrounding
    white space, that line not starting with [Usage:]; the usage
    [parseUsage] returns is empty or the words after the first of the
    line that follows a [Usage:] line, joined by single spaces, that
    line having at least two words. *)
Theorem description_and_usage_sound (helpOutput : string) :
  let lines := strings.Split helpOutput strings.nl in
  (parseDescription helpOutput = ""
   \/ exists i line,
        lines !! i = Some line
        /\ (forall j l, j < i -> lines !! j = Some l ->
                        strings.TrimSpace l = "")
        /\ parseDescription helpOutput = strings.TrimSpace line
        /\ strings.TrimSpace line <> ""
        /\ strings.HasPrefix (strings.TrimSpace line) "Usage:" = false)
  /\ (parseUsage helpOutput = ""
      \/ exists i line next w1 w2 ws,
           lines !! i = Some line /\ lines !! S i = Some next
           /\ strings.HasPrefix (strings.TrimSpace line) "Usage:" = true
           /\ strings.Fields (strings.TrimSpace next) = w1 :: w2 :: ws
           /\ parseUsage helpOutput = strings.Join (w2 :: ws) " ").
Proof.
  split.
  - apply parseDescription_lines_sound.
  - apply parseUsage_lines_sound.
Qed.

(** * The project root *)

Section ProjectRootFacts.

Variable filepath_Join : list string -> string.
Variable filepath_Dir : string -> string.
Variable stat : string -> bool.

Local Abbreviation findProjectRoot :=
  (findProjectRoot filepath_Join filepath_Dir stat).
Local Abbreviation GetProjectRoot :=
  (GetProjectRoot filepath_Join filepath_Dir stat).

(** A directory that holds both [go.mod] and [skills]. *)
Local Abbreviation marked dir :=
  (stat (filepath_Join [dir; "go.mod"]) && stat (filepath_Join [dir; "skills"])).

(** The [k]-th parent of a directory. *)
Local Abbreviation up dir k := (Nat.iter k filepath_Dir dir).

Lemma findProjectRoot_Some (n : nat) (dir r : string) :
  findProjectRoot n dir = Some r ->
  exists k, k < n /\ r = up dir k /\ marked r = true
            /\ forall j, j < k ->
                 marked (up dir j) = false /\ up dir (S j) <> up dir j.
Proof.
  revert dir. induction n as [|n IH]; intros dir H; [done|].
  cbn [findProjectRoot] in H.
  destruct (marked dir) eqn:Em.
  - injection H as <-. exists 0.
    split; [lia|]. split; [done|]. split; [done|]. intros j Hj. lia.
  - cbv zeta in H.
    destruct (String.eqb_spec (filepath_Dir dir) dir) as [|Hne]; [done|].
    destruct (IH _ H) as (k & Hk & -> & Hm & Hbelow).
    exists (S k). rewrite Nat.iter_succ_r.
    split; [lia|]. split; [done|]. split; [done|].
    intros [|j] Hj; [by split|].
    rewrite (Nat.iter_succ_r (S j)), (Nat.iter_succ_r j).
    apply Hbelow. lia.
Qed.

Lemma findProjectRoot_found (n k : nat) (dir : string) :
  k < n ->
  marked (up dir k) = true ->
  (forall j, j < k -> marked (up dir j) = false /\ up dir (S j) <> up dir j) ->
  findProjectRoot n dir = Some (up dir k).
Proof.
  revert k dir. induction n as [|n IH]; intros k dir Hk Hm Hbelow; [lia|].
  cbn [findProjectRoot].
  destruct k as [|k].
  - cbn in Hm. by rewrite Hm.
  - destruct (Hbelow 0 ltac:(lia)) as [H0 H1]. cbn in H0, H1. rewrite H0.
    cbv zeta.
    destruct (String.eqb_spec (filepath_Dir dir) dir) as [|_]; [done|].
    rewrite Nat.iter_succ_r. apply IH; [lia|by rewrite <- Nat.iter_succ_r|].
    intros j Hj. rewrite <- (Nat.iter_succ_r (S j)), <- (Nat.iter_succ_r j).
    apply Hbelow. lia.
Qed.

(** X24: [GetProjectRoot] returns the nearest of the working directory and
    its first nine parents that holds both [go.mod] and [skills], the
    walk upwards ending where a directory is its own parent; it returns
    the working directory when there is none.  What it returns is always
    the working directory or a parent that holds both. *)
Theorem GetProjectRoot_spec (cwd : string) :
  (forall k,
     k < 10 -> marked (up cwd k) = true ->
     (forall j, j < k ->
        marked (up cwd j) = false /\ up cwd (S j) <> up cwd j) ->
     GetProjectRoot cwd = up cwd k)
  /\ ((forall k,
         k < 10 ->
         (forall j, j < k -> up cwd (S j) <> up cwd j) ->
         marked (up cwd k) = false) ->
      GetProjectRoot cwd = cwd)
  /\ (GetProjectRoot cwd = cwd
      \/ exists k, 0 < k < 10 /\ GetProjectRoot cwd = up cwd k
                   /\ marked (GetProjectRoot cwd) = true).
Proof.
  unfold GetProjectRoot. repeat apply conj.
  - intros k Hk Hm Hbelow.
    by rewrite (findProjectRoot_found 10 k cwd Hk Hm Hbelow).
  - intros Hnone.
    destruct (findProjectRoot 10 cwd) as [r|] eqn:E; [|done].
    apply findProjectRoot_Some in E as (k & Hk & -> & Hm & Hbelow).
    rewrite Hnone in Hm; [done|done|]. intros j Hj. by apply Hbelow.
  - destruct (findProjectRoot 10 cwd) as [r|] eqn:E; [|by left].
    apply findProjectRoot_Some in E as (k & Hk & -> & Hm & Hbelow).
    destruct k as [|k]; [by left|].
    right. exists (S k). cbn [default]. split; [lia|]. by split.
Qed.

End ProjectRootFacts.

(** * The further properties on the samples *)

(** The shape of the sample state in the confirm view: the skill
    [tasks] is selected, is one of the manifests found, and the deploy
    target is what was typed. *)
Lemma reachable_state_shape_witness :
  Sample.tasks ∈ manifests Sample.confirming
  /\ textinput.Value <$> deployInputs Sample.confirming
     = [skillsFolder Sample.confirming; skillFolderName Sample.confirming]
  /\ skillsFolder Sample.confirming <> "".
Proof.
  destruct (reachable_state_shape Sample.join Sample.clip Sample.inputUpdate
              Sample.confirming)
    as (_ & Hsel & _ & _ & _ & Htar).
  - apply (Sample_reachable
             [KeyMsg "enter"; KeyMsg "s3cr3t-token-42"; KeyMsg "enter";
              KeyMsg "/home/u/skills"; KeyMsg "enter"]).
    vm_compute; reflexivity.
  - destruct (Hsel Sample.tasks) as (H1 & _); [vm_compute; reflexivity|].
    destruct Htar as (H2 & H3 & _); [vm_compute; reflexivity|].
    by repeat split.
Defined.

(** [tab] panics in the configure view of the skill [clock], which has
    no variable, and does not in that of [tasks]. *)
Lemma Update_panics_iff_witness :
  Update Sample.join Sample.clip Sample.inputUpdate Sample.noFile
    Scene.clockChosen (KeyMsg "tab") = None
  /\ Update Sample.join Sample.clip Sample.inputUpdate Sample.noFile
       Sample.chosen (KeyMsg "tab") <> None.
Proof.
  split.
  - apply Update_panics_iff.
    + apply (Sample_reachable [KeyMsg "down"; KeyMsg "enter"]).
      vm_compute; reflexivity.
    + split; [vm_compute; reflexivity|]. split; [vm_compute; reflexivity|].
      exists "tab". split; [reflexivity|]. apply list_elem_of_here.
  - intros H. apply Update_panics_iff in H as (_ & H & _).
    + vm_compute in H. discriminate H.
    + apply (Sample_reachable [KeyMsg "enter"]). vm_compute; reflexivity.
Defined.

(** The sample deploy view with the skills folder left empty: the
    advance is refused. *)
Lemma deploy_advance_witness :
  exists m',
    Update Sample.join Sample.clip Sample.inputUpdate Sample.noFile
      Sample.configured (KeyMsg "enter") = Some (m', CmdNil)
    /\ errorMsg m' = "Skills Folder is required".
Proof.
  destruct (deploy_advance Sample.join Sample.clip Sample.inputUpdate
              Sample.noFile Sample.configured "enter")
    as (a & b & Hd & HU).
  - apply (Sample_reachable
             [KeyMsg "enter"; KeyMsg "s3cr3t-token-42"; KeyMsg "enter"]).
    vm_compute; reflexivity.
  - vm_compute; reflexivity.
  - by right.
  - vm_compute in Hd. injection Hd as <- <-.
    eexists. split; [exact HU|]. vm_compute; reflexivity.
Defined.

(** [esc] in the sample deploy view: the token typed before is still in
    its input. *)
Lemma back_keeps_entries_witness :
  exists m',
    Update Sample.join Sample.clip Sample.inputUpdate Sample.noFile
      Sample.configured (KeyMsg "esc") = Some (m', Blink)
    /\ currentView m' = ViewConfig
    /\ textinput.Value <$> configInputs m' = ["s3cr3t-token-42"; ""].
Proof.
  destruct (back_keeps_entries Sample.join Sample.clip Sample.inputUpdate
              Sample.noFile Sample.configured) as (H & _).
  destruct H as (m' & HU & Hv & Hval & _); [vm_compute; reflexivity|].
  exists m'. split; [exact HU|]. split; [exact Hv|].
  rewrite Hval. vm_compute; reflexivity.
Defined.

(** [enter] on the skill [tasks] of the sample list and on the failed
    skill of the second list. *)
Lemma select_entry_witness :
  (exists m',
     Update Sample.join Sample.clip Sample.inputUpdate Sample.noFile
       Sample.start (KeyMsg "enter") = Some (m', Blink)
     /\ configLabels m' = ["API Token"; "API URL"])
  /\ (exists m',
        Update Sample.join Sample.clip Sample.inputUpdate Sample.noFile
          Scene.onBroken (KeyMsg "enter") = Some (m', CmdNil)
        /\ errorMsg m' = "yaml: line 3: did not find expected key"
        /\ selectedSkill m' = None).
Proof.
  split.
  - destruct (select_entry Sample.join Sample.clip Sample.inputUpdate
                Sample.noFile Sample.start) as (H & _).
    + apply reachable_init.
    + reflexivity.
    + destruct (H Sample.tasks) as (m' & HU & _ & _ & _ & _ & _ & Hl & _);
        [vm_compute; reflexivity|].
      exists m'. split; [exact HU|]. rewrite Hl. vm_compute; reflexivity.
  - destruct (select_entry Sample.join Sample.clip Sample.inputUpdate
                Sample.noFile Scene.onBroken) as (_ & H & _).
    + apply (feed_reachable Sample.join Sample.clip Sample.inputUpdate
               Sample.noFile [KeyMsg "down"] Scene.withBroken);
        [apply reachable_init|vm_compute; reflexivity].
    + vm_compute; reflexivity.
    + eexists. split; [apply (H Scene.broken)|].
      * vm_compute. discriminate.
      * vm_compute; reflexivity.
      * split; vm_compute; reflexivity.
Defined.

(** The deploy inputs of the sample session: the skill name input holds
    the name of the skill. *)
Lemma deploy_prefill_witness :
  exists a b,
    deployInputs Sample.configured = [a; b]
    /\ textinput.Value a = ""
    /\ textinput.Value b = "tasks"
    /\ textinput.focus a = true.
Proof.
  destruct (deploy_prefill Sample.join Sample.clip Sample.inputUpdate
              Sample.noFile Sample.typed Sample.tasks "enter"
              Sample.configured Blink)
    as (a & b & Hd & _ & _ & Hfa & _ & _ & _ & _ & _ & Ha & Hb & _).
  - vm_compute; reflexivity.
  - vm_compute; reflexivity.
  - by right.
  - vm_compute; reflexivity.
  - vm_compute; reflexivity.
  - exists a, b. split; [exact Hd|]. split; [exact Ha|].
    split; [exact Hb|exact Hfa].
Defined.

(** Leaving the sample configure view with the token typed but not
    accepted, and coming back: the token is gone. *)
Lemma reselect_drops_unsaved_witness :
  exists m',
    feed Sample.join Sample.clip Sample.inputUpdate Sample.noFile Sample.typed
      [KeyMsg "esc"; KeyMsg "enter"] = Some m'
    /\ textinput.Value <$> configInputs m' = [""; ""].
Proof.
  destruct (reselect_drops_unsaved Sample.join Sample.clip Sample.inputUpdate
              Sample.noFile Sample.typed Sample.tasks)
    as (m' & HF & _ & _ & _ & _ & _ & Hval).
  - apply (Sample_reachable [KeyMsg "enter"; KeyMsg "s3cr3t-token-42"]).
    vm_compute; reflexivity.
  - vm_compute; reflexivity.
  - vm_compute; reflexivity.
  - exists m'. split; [exact HF|]. rewrite Hval. vm_compute; reflexivity.
Defined.

(** [y] in the sample confirm view: the build command carries the state
    after the key, which is the confirm state moved to the building
    view; and [y] in the overwrite view of the same session starts the
    build. *)
Lemma build_and_deploy_commands_witness :
  Scene.building
  = set_statusMsg ""
      (set_errorMsg ""
         (set_building true (set_currentView ViewBuilding Sample.confirming)))
  /\ skillExists Sample.join Sample.noFile Sample.confirming = Some false
  /\ (let overwrite := set_currentView ViewOverwrite Sample.confirming in
      let m' := set_statusMsg ""
                  (set_errorMsg ""
                     (set_building true
                        (set_currentView ViewBuilding overwrite))) in
      Update Sample.join Sample.clip Sample.inputUpdate Sample.deployedBefore
        overwrite (KeyMsg "y") = Some (m', startBuildCmd m')).
Proof.
  assert (A : Scene.building
              = set_statusMsg ""
                  (set_errorMsg ""
                     (set_building true
                        (set_currentView ViewBuilding Sample.confirming)))
              /\ skillExists Sample.join Sample.noFile Sample.confirming
                 = Some false).
  { destruct (build_and_deploy_commands Sample.join Sample.clip
                Sample.inputUpdate Sample.noFile Sample.confirming
                (KeyMsg "y") Scene.building Scene.building) as [[H _] _].
    destruct H as (_ & E & key & _ & [(_ & _ & Hx)|(Hv & _)]).
    - vm_compute; reflexivity.
    - split; [exact E|exact Hx].
    - vm_compute in Hv. discriminate Hv. }
  destruct A as [A1 A2]. split; [exact A1|]. split; [exact A2|].
  intros overwrite m'.
  apply (build_and_deploy_commands Sample.join Sample.clip
           Sample.inputUpdate Sample.deployedBefore overwrite (KeyMsg "y")
           m' m').
  split; [reflexivity|]. split; [reflexivity|].
  exists "y". split; [reflexivity|]. right. split; reflexivity.
Defined.

(** The sample session from the confirm view to the deploy command: the
    skill and the deploy path are those confirmed. *)
Lemma confirmed_data_reaches_deploy_witness :
  exists m1 m2,
    Update Sample.join Sample.clip Sample.inputUpdate Sample.noFile
      Sample.confirming (KeyMsg "y") = Some (m1, startBuildCmd m1)
    /\ Update Sample.join Sample.clip Sample.inputUpdate Sample.noFile m1
         (buildCompleteMsg "Built: /src/dist/tasks" None)
       = Some (m2, deploySkillCmd m2)
    /\ selectedSkill m2 = Some Sample.tasks
    /\ getDeployPath Sample.join m2 = "/home/u/skills/tasks".
Proof.
  destruct (confirmed_data_reaches_deploy Sample.join Sample.clip
              Sample.inputUpdate Sample.noFile Sample.noFile Sample.noFile
              Sample.confirming "y" "Built: /src/dist/tasks")
    as (m1 & m2 & m3 & H1 & H2 & _ & Hs & _ & _ & Hp & _).
  - vm_compute; reflexivity.
  - by right.
  - vm_compute; reflexivity.
  - exists m1, m2. split; [exact H1|]. split; [exact H2|].
    split; [rewrite Hs|rewrite Hp]; vm_compute; reflexivity.
Defined.

(** After a whole sample session and a restart the skills found at
    start are as they were. *)
Lemma catalog_never_changes_witness :
  manifests Sample.restarted = [Sample.tasks; Sample.clock; Sample.notes]
  /\ projectRoot Sample.restarted = "/src".
Proof.
  destruct (catalog_never_changes Sample.join Sample.clip Sample.inputUpdate
              Sample.start Sample.restarted) as (H1 & _ & H3 & _).
  - apply (feed_rtc Sample.join Sample.clip Sample.inputUpdate Sample.noFile
             [KeyMsg "enter"; KeyMsg "s3cr3t-token-42"; KeyMsg "enter";
              KeyMsg "/home/u/skills"; KeyMsg "enter"; KeyMsg "y";
              buildCompleteMsg "Built: /src/dist/tasks" None;
              deployCompleteMsg None; KeyMsg "r"; KeyMsg "down";
              KeyMsg "down"]).
    vm_compute; reflexivity.
  - split; [rewrite H1|rewrite H3]; reflexivity.
Defined.

(** [tab] and then [shift+tab] in the sample configure view: the focus
    goes to the second input and back, and the state is the one before. *)
Lemma focus_round_trip_witness :
  exists m1 m2,
    Update Sample.join Sample.clip Sample.inputUpdate Sample.noFile
      Sample.chosen (KeyMsg "tab") = Some (m1, Blink)
    /\ Update Sample.join Sample.clip Sample.inputUpdate Sample.noFile
         m1 (KeyMsg "shift+tab") = Some (m2, Blink)
    /\ configFocus m1 = 1%Z
    /\ m2 = Sample.chosen.
Proof.
  destruct (focus_round_trip Sample.join Sample.clip Sample.inputUpdate
              Sample.noFile Sample.chosen "tab" "shift+tab")
    as (m1 & m2 & H1 & H2 & Hf & _ & _ & _ & Hback).
  - apply (Sample_reachable [KeyMsg "enter"]). vm_compute; reflexivity.
  - vm_compute; reflexivity.
  - vm_compute. discriminate.
  - apply list_elem_of_here.
  - apply list_elem_of_here.
  - exists m1, m2. split; [exact H1|]. split; [exact H2|].
    split; [rewrite Hf; vm_compute; reflexivity|].
    apply Hback.
    intros [|[|j]] t Ht; vm_compute in Ht; [| |discriminate Ht];
      injection Ht as <-; reflexivity.
Defined.

(** The screen of the sample configure view. *)
Lemma View_never_panics_witness :
  is_Some (ModelView Sample.join Sample.plain Sample.inputView Sample.chosen).
Proof.
  apply (View_never_panics Sample.join Sample.clip Sample.inputUpdate).
  apply (Sample_reachable [KeyMsg "enter"]). vm_compute; reflexivity.
Defined.

(** A message without a case of its own in the sample confirm view. *)
Lemma unhandled_unchanged_witness :
  Update Sample.join Sample.clip Sample.inputUpdate Sample.noFile
    Sample.confirming (KeyMsg "x") = Some (Sample.confirming, CmdNil).
Proof.
  apply unhandled_unchanged. vm_compute; reflexivity.
Defined.

(** [q] in the sample skill list quits, and the screen says so. *)
Lemma quit_iff_quitting_witness :
  exists m',
    Update Sample.join Sample.clip Sample.inputUpdate Sample.noFile
      Sample.start (KeyMsg "q") = Some (m', Quit)
    /\ ModelView Sample.join Sample.plain Sample.inputView m'
       = Some ("Goodbye!" +:+ strings.nl).
Proof.
  eexists. split; [vm_compute; reflexivity|].
  eapply (quit_iff_quitting Sample.join Sample.clip Sample.inputUpdate
            Sample.plain Sample.inputView Sample.noFile Sample.start
            (KeyMsg "q")).
  - vm_compute; reflexivity.
  - reflexivity.
  - reflexivity.
Defined.


(** A deployment of the sample skill into a file system that holds the
    built binary and no template: the eight calls of a success. *)
Lemma deploy_success_trace_witness :
  let fs : os.state (os.memWorld []) := {[ "/src/dist/tasks" := ("ELF", 493%N) ]} in
  let deploy :=
    deploySkill Sample.join Sample.progHelp Sample.description
      Sample.confirming in
  exists binaryData templateData,
    (os.run (os.memWorld []) deploy fs).2
    = [os.EvMkdirAll "/home/u/skills/tasks/bin" 493;
       os.EvReadFile "/src/dist/tasks" (os.Ok binaryData);
       os.EvRemove "/home/u/skills/tasks/bin/tasks";
       os.EvWriteFile "/home/u/skills/tasks/bin/tasks" binaryData 493 None;
       os.EvWriteFile "/home/u/skills/tasks/bin/.env"
         (generateEnvFile Sample.confirming Sample.tasks) 384 None;
       os.EvReadFile "/src/skills/tasks/SKILL.template.md" templateData;
       os.EvWriteFile "/home/u/skills/tasks/SKILL.md"
         (renderSkillDocs Sample.join Sample.progHelp Sample.description
            Sample.confirming Sample.tasks templateData) 420 None;
       os.EvRemoveAll "/src/dist"].
Proof.
  intros fs deploy.
  destruct (deploy_success_trace Sample.join Sample.progHelp
              Sample.description (os.memWorld []) fs Sample.confirming
              Sample.tasks) as [H _].
  - vm_compute; reflexivity.
  - destruct H as (binaryData & templateData & E).
    + vm_compute; reflexivity.
    + exists binaryData, templateData. exact E.
Defined.

(** A deployment of the sample skill into an empty file system: the
    built binary cannot be read, and nothing is written. *)
Lemma deploy_failures_witness :
  let deploy :=
    deploySkill Sample.join Sample.progHelp Sample.description
      Sample.confirming in
  (os.run (os.memWorld []) deploy ∅).1.1
  = deployCompleteMsg
      (Some "failed to read binary: open /src/dist/tasks: no such file or directory")
  /\ os.writes (os.run (os.memWorld []) deploy ∅).2 = [].
Proof.
  intros deploy. subst deploy.
  destruct (deploy_failures Sample.join Sample.progHelp Sample.description
              (os.memWorld []) ∅ Sample.confirming) as (_ & _ & _ & H).
  cbv zeta in H.
  rewrite (H Sample.tasks "open /src/dist/tasks: no such file or directory").
  - split; reflexivity.
  - vm_compute; reflexivity.
  - vm_compute. discriminate.
  - vm_compute; reflexivity.
Defined.

(** The build of the sample skill and its deployment: the binary is
    read where it was built. *)
Lemma build_feeds_deploy_witness :
  (os.run (os.memWorld [])
     (startBuild Sample.join Scene.goBuild Sample.confirming) ∅).1.1
  = buildCompleteMsg "Built: /src/dist/tasks" None
  /\ exists r rest,
       (os.run (os.memWorld [])
          (deploySkill Sample.join Sample.progHelp Sample.description
             Sample.confirming) ∅).2
       = os.EvMkdirAll "/home/u/skills/tasks/bin" 493
           :: os.EvReadFile "/src/dist/tasks" r :: rest.
Proof.
  destruct (build_feeds_deploy Sample.join Sample.progHelp Sample.description
              Scene.goBuild (os.memWorld []) ∅ (os.memWorld []) ∅
              Sample.confirming) as [_ H].
  destruct (H Sample.tasks) as [(output & err & E1 & E2 & _) H2];
    [vm_compute; reflexivity|].
  split.
  - rewrite E1. vm_compute in E1. injection E1 as <- <-. reflexivity.
  - destruct H2 as (r & rest & E); [vm_compute; discriminate|].
    exists r, rest. exact E.
Defined.

(** The commands text for a binary whose every run fails. *)
Lemma extractCommands_never_empty_witness :
  extractCommands Sample.brokenHelp "/src/dist/prog" "/skills/prog/bin/prog"
  <> "".
Proof. apply extractCommands_never_empty. Defined.

(** A template without placeholder, for the sample skill. *)
Lemma replacePlaceholders_no_placeholder_witness :
  replacePlaceholders Sample.join Sample.progHelp Sample.confirming
    Sample.tasks ("# Tasks" +:+ strings.nl +:+ "Use {the} binary.")
  = "# Tasks" +:+ strings.nl +:+ "Use {the} binary.".
Proof.
  apply replacePlaceholders_no_placeholder. vm_compute; reflexivity.
Defined.

(** The documentation of the sample skill without template, read back. *)
Lemma generated_header_strips_off_witness :
  stripFrontmatter
    (renderSkillDocs Sample.join Sample.progHelp Sample.description
       Sample.confirming Sample.tasks (os.Err "no template"))
  = generateBasicDocs Sample.tasks.
Proof.
  destruct (generated_header_strips_off Sample.join Sample.progHelp
              Sample.description Sample.confirming Sample.tasks) as [_ H].
  - vm_compute; reflexivity.
  - apply H.
Defined.

(** The commands of the sample root help, a help text without the
    heading, and a list aligned with no-break spaces. *)
Lemma parseSubcommands_sound_witness :
  (forall c, c ∈ parseSubcommands Sample.rootHelp ->
             c <> "help" /\ c <> "completion")
  /\ parseSubcommands Sample.leafHelp = []
  /\ (forall c, c ∈ parseSubcommands Scene.nbspCommands -> c <> "help")
  /\ parseSubcommands Scene.nbspCommands = ["list"].
Proof.
  destruct (parseSubcommands_sound Sample.rootHelp) as [H1 _].
  destruct (parseSubcommands_sound Sample.leafHelp) as [_ H2].
  destruct (parseSubcommands_sound Scene.nbspCommands) as [H3 _].
  repeat apply conj.
  - intros c Hc. destruct (H1 c Hc) as (? & ? & _). by split.
  - apply H2. intros line Hl.
    assert (E : strings.Split Sample.leafHelp strings.nl
                = ["Usage:"; "  prog sub [flags]"; ""; "Flags:";
                   "  -t, --title string   Task title (required)"; ""])
      by (vm_compute; reflexivity).
    rewrite E in Hl.
    repeat (apply elem_of_cons in Hl as [->|Hl]; [vm_compute; reflexivity|]).
    by apply elem_of_nil in Hl.
  - intros c Hc. by destruct (H3 c Hc) as (? & _).
  - vm_compute; reflexivity.
Defined.

(** The flags of the sample leaf help, a help text without the heading,
    and a flag line indented with no-break spaces. *)
Lemma parseFlags_sound_witness :
  (forall f, f ∈ parseFlags Sample.leafHelpFull ->
             f <> "" /\ strings.Contains f "--help" = false)
  /\ parseFlags ("Usage:" +:+ strings.nl +:+ "  prog -v") = []
  /\ (forall f, f ∈ parseFlags Scene.nbspHelp -> f <> "")
  /\ parseFlags Scene.nbspHelp = ["`-t, --title` (string): Task title"].
Proof.
  destruct (parseFlags_sound Sample.leafHelpFull) as [H1 _].
  destruct (parseFlags_sound ("Usage:" +:+ strings.nl +:+ "  prog -v"))
    as [_ H2].
  destruct (parseFlags_sound Scene.nbspHelp) as [H3 _].
  repeat apply conj.
  - intros f Hf. destruct (H1 f Hf) as (? & ? & _). by split.
  - apply H2. intros line Hl.
    assert (E : strings.Split ("Usage:" +:+ strings.nl +:+ "  prog -v")
                  strings.nl
                = ["Usage:"; "  prog -v"])
      by (vm_compute; reflexivity).
    rewrite E in Hl.
    repeat (apply elem_of_cons in Hl as [->|Hl]; [vm_compute; reflexivity|]).
    by apply elem_of_nil in Hl.
  - intros f Hf. by destruct (H3 f Hf) as (? & _).
  - vm_compute; reflexivity.
Defined.

(** The description and the usage of the sample leaf help, and the usage
    of a help text indented with no-break spaces. *)
Lemma description_and_usage_sound_witness :
  parseDescription Sample.leafHelpFull = "Create a task"
  /\ parseUsage Sample.leafHelpFull = "sub [flags]"
  /\ parseUsage Scene.nbspHelp = "sub [flags]"
  /\ exists i line next w1 w2 ws,
       strings.Split Scene.nbspHelp strings.nl !! i = Some line
       /\ strings.Split Scene.nbspHelp strings.nl !! S i = Some next
       /\ strings.HasPrefix (strings.TrimSpace line) "Usage:" = true
       /\ strings.Fields (strings.TrimSpace next) = w1 :: w2 :: ws
       /\ parseUsage Scene.nbspHelp = strings.Join (w2 :: ws) " ".
Proof.
  repeat apply conj; try (vm_compute; reflexivity).
  destruct (description_and_usage_sound Scene.nbspHelp) as [_ [E|H]].
  - vm_compute in E. discriminate E.
  - exact H.
Defined.

(** The project root found from the directory of a skill: the skill has
    a [go.mod] of its own and no [skills], so the root is two levels
    up. *)
Lemma GetProjectRoot_spec_witness :
  GetProjectRoot Sample.join Scene.parent Scene.holds "/src/skills/tasks"
  = "/src".
Proof.
  destruct (GetProjectRoot_spec Sample.join Scene.parent Scene.holds
              "/src/skills/tasks") as [H _].
  apply (H 2).
  - lia.
  - vm_compute; reflexivity.
  - intros [|[|j]] Hj; [| |lia]; (split; [vm_compute; reflexivity|]);
      vm_compute; discriminate.
Defined.
